(** * godns: the query-execution engine, embedded in Rocq

    A shallow embedding of [client.go] (configuration and options), of the
    transport strategies ([queryUDPTCP], [queryDoT], [queryDoH],
    [exchangeWithProxy], [exchangeDoTWithProxy], [createDialer],
    [getProxyURL]) and of the query surface ([queryServer], [MultiQuery]).

    The sources hold the transport strategies twice.  The embedding follows
    the first definition of each, whose retry loop is written out; the second
    hands the same operation to a [withRetry] that is not among the sources.

    Conventions.
    - Go's [int] and [time.Duration] are 64-bit signed integers: they are [Z]
      with the wrap-around written out ([wrap64]).
    - A Go [error] is identified with its message; [nil] is [None].
    - A Go function returning a pointer and an error returns [GoRet T].
    - Everything the package asks of its collaborators (miekg/dns, net/url,
      net/http, x/net/proxy, the network itself) is read from two records:
      [Lib] for the pure library functions and [Net] for what one goroutine
      observes of the outside world.  The code is a function of them. *)

From Stdlib Require Import ZArith Lia Ascii String.
From stdpp Require Import base option list strings pretty gmap fin_maps.

Local Open Scope string_scope.
Local Open Scope list_scope.
Local Open Scope Z_scope.

(** ** Machine integers *)

Definition wrap64 (z : Z) : Z := (z + 2 ^ 63) mod 2 ^ 64 - 2 ^ 63.
Definition MaxInt64 : Z := 2 ^ 63 - 1.

(** [i++] on a Go [int]. *)
Definition int_incr (i : Z) : Z := wrap64 (i + 1).

(** [time.Duration] counts nanoseconds. *)
Definition Millisecond : Z := 1000000.
Definition Second : Z := 1000 * Millisecond.
Definition Duration_mul (a b : Z) : Z := wrap64 (a * b).

(** ** client.go *)

Definition DoHServers : list string :=
  [ "https://dns.alidns.com/dns-query";
    "https://doh.pub/dns-query";
    "https://1.12.12.12/dns-query";
    "https://120.53.53.53/dns-query";
    "https://1.1.1.1/dns-query" ].

Definition DoTServers : list string :=
  [ "223.5.5.5:853";
    "223.6.6.6:853";
    "1.12.12.12:853";
    "120.53.53.53:853";
    "8.8.8.8:853";
    "1.1.1.1:853" ].

Definition UDPServers : list string :=
  [ "223.5.5.5:53";
    "223.6.6.6:53";
    "114.114.114.114:53";
    "114.114.115.115:53";
    "1.12.12.12:53";
    "120.53.53.53:53";
    "119.29.29.29:53";
    "182.254.116.116:53";
    "8.8.8.8:53";
    "1.1.1.1:53" ].

(** [type Protocol string]: any string is a value of the type. *)
Definition Protocol := string.
Definition UDP : Protocol := "udp".
Definition TCP : Protocol := "tcp".
Definition DoT : Protocol := "dot".
Definition DoH : Protocol := "doh".

(** [type ProxyType string]. *)
Definition ProxyType := string.
Definition NoProxy : ProxyType := "".
Definition SOCKS5 : ProxyType := "socks5".
Definition HTTPProxy : ProxyType := "http".

Record ProxyAuth := mkProxyAuth { Username : string; Password : string }.

(** [tls.Config] and [http.Client] belong to the platform.  Of a TLS
    configuration only two representative fields are kept; a caller-supplied
    HTTP client is a handle. *)
Record TLSConfig := mkTLSConfig { ServerName : string; InsecureSkipVerify : bool }.
Definition TLSConfig_zero : TLSConfig := mkTLSConfig "" false.

Record Config := mkConfig {
  Timeout : Z;
  Retries : Z;
  Protocol_ : Protocol;
  Servers : list string;
  ProxyType_ : ProxyType;
  ProxyAddr : string;
  ProxyAuth_ : option ProxyAuth;
  TLSConfig_ : option TLSConfig;
  HTTPClient_ : option nat
}.

(** [type Option func(c *Config)]: an option updates the configuration. *)
Definition Option := Config -> Config.

Definition defaultConfig : Config :=
  {| Timeout := 5 * Second;
     Retries := 3;
     Protocol_ := UDP;
     Servers := UDPServers;
     ProxyType_ := NoProxy;
     ProxyAddr := "";
     ProxyAuth_ := None;
     TLSConfig_ := None;
     HTTPClient_ := None |}.

(** A [Client] holds only its configuration. *)
Definition NewDefault : Config := defaultConfig.

Definition New (opts : list Option) : Config :=
  fold_left (fun config opt => opt config) opts defaultConfig.

Definition WithTimeout (timeout : Z) : Option := fun c =>
  {| Timeout := timeout; Retries := Retries c; Protocol_ := Protocol_ c;
     Servers := Servers c; ProxyType_ := ProxyType_ c; ProxyAddr := ProxyAddr c;
     ProxyAuth_ := ProxyAuth_ c; TLSConfig_ := TLSConfig_ c;
     HTTPClient_ := HTTPClient_ c |}.

Definition WithRetries (retries : Z) : Option := fun c =>
  {| Timeout := Timeout c; Retries := retries; Protocol_ := Protocol_ c;
     Servers := Servers c; ProxyType_ := ProxyType_ c; ProxyAddr := ProxyAddr c;
     ProxyAuth_ := ProxyAuth_ c; TLSConfig_ := TLSConfig_ c;
     HTTPClient_ := HTTPClient_ c |}.

(** The [switch] of [WithProtocol]. *)
Definition protocolServers (protocol : Protocol) : list string :=
  if String.eqb protocol DoH then DoHServers
  else if String.eqb protocol DoT then DoTServers
  else UDPServers.

Definition WithProtocol (protocol : Protocol) : Option := fun c =>
  {| Timeout := Timeout c; Retries := Retries c; Protocol_ := protocol;
     Servers := protocolServers protocol;
     ProxyType_ := ProxyType_ c; ProxyAddr := ProxyAddr c;
     ProxyAuth_ := ProxyAuth_ c; TLSConfig_ := TLSConfig_ c;
     HTTPClient_ := HTTPClient_ c |}.

Definition WithServers (servers : list string) : Option := fun c =>
  {| Timeout := Timeout c; Retries := Retries c; Protocol_ := Protocol_ c;
     Servers := servers; ProxyType_ := ProxyType_ c; ProxyAddr := ProxyAddr c;
     ProxyAuth_ := ProxyAuth_ c; TLSConfig_ := TLSConfig_ c;
     HTTPClient_ := HTTPClient_ c |}.

Definition WithSOCKS5Proxy (addr : string) (auth : option ProxyAuth) : Option := fun c =>
  {| Timeout := Timeout c; Retries := Retries c; Protocol_ := Protocol_ c;
     Servers := Servers c; ProxyType_ := SOCKS5; ProxyAddr := addr;
     ProxyAuth_ := auth; TLSConfig_ := TLSConfig_ c;
     HTTPClient_ := HTTPClient_ c |}.

Definition WithHTTPProxy (addr : string) (auth : option ProxyAuth) : Option := fun c =>
  {| Timeout := Timeout c; Retries := Retries c; Protocol_ := Protocol_ c;
     Servers := Servers c; ProxyType_ := HTTPProxy; ProxyAddr := addr;
     ProxyAuth_ := auth; TLSConfig_ := TLSConfig_ c;
     HTTPClient_ := HTTPClient_ c |}.

Definition WithTLSConfig (tlsConfig : option TLSConfig) : Option := fun c =>
  {| Timeout := Timeout c; Retries := Retries c; Protocol_ := Protocol_ c;
     Servers := Servers c; ProxyType_ := ProxyType_ c; ProxyAddr := ProxyAddr c;
     ProxyAuth_ := ProxyAuth_ c; TLSConfig_ := tlsConfig;
     HTTPClient_ := HTTPClient_ c |}.

Definition WithHTTPClient (client : option nat) : Option := fun c =>
  {| Timeout := Timeout c; Retries := Retries c; Protocol_ := Protocol_ c;
     Servers := Servers c; ProxyType_ := ProxyType_ c; ProxyAddr := ProxyAddr c;
     ProxyAuth_ := ProxyAuth_ c; TLSConfig_ := TLSConfig_ c;
     HTTPClient_ := client |}.

(** ** Errors and results *)

Definition error := string.

(** What a collaborator returns: a value or an error, never both nil. *)
Inductive result (A : Type) : Type :=
| Ok (a : A)
| Err (e : error).
Arguments Ok {A} a.
Arguments Err {A} e.

(** What a function of this package returns: Go's pair of a pointer and an
    error.  [(None, None)] is the pair of two nils. *)
Definition GoRet (A : Type) : Type := (option A * option error)%type.

Definition of_result {A} (r : result A) : GoRet A :=
  match r with
  | Ok a => (Some a, None)
  | Err e => (None, Some e)
  end.

(** ** Go's [strings] and [encoding/base64] *)

Definition HasPrefix (s pre : string) : bool := String.prefix pre s.

Fixpoint Contains (s substr : string) : bool :=
  String.prefix substr s ||
  match s with
  | EmptyString => false
  | String _ s' => Contains s' substr
  end.

Definition Join (elems : list string) (sep : string) : string :=
  String.concat sep elems.

Definition bytes := list Byte.byte.

Definition encodeURL : string :=
  "ABCDEFGHIJKLMNOPQRSTUVWXYZabcdefghijklmnopqrstuvwxyz0123456789-_".

(** The character of the URL alphabet for a 6-bit value. *)
Definition b64char (v : Z) : string :=
  match String.get (Z.to_nat (Z.land v 63)) encodeURL with
  | Some c => String c EmptyString
  | None => EmptyString
  end.

Definition byteZ (b : Byte.byte) : Z := Z.of_N (Byte.to_N b).

(** [base64.RawURLEncoding.EncodeToString]: three bytes give four characters;
    a remainder of one or two bytes gives two or three, without padding. *)
Fixpoint RawURLEncoding_EncodeToString (src : bytes) : string :=
  match src with
  | [] => ""
  | [b0] =>
      let val := Z.shiftl (byteZ b0) 16 in
      b64char (Z.shiftr val 18) +:+ b64char (Z.shiftr val 12)
  | [b0; b1] =>
      let val := Z.lor (Z.shiftl (byteZ b0) 16) (Z.shiftl (byteZ b1) 8) in
      b64char (Z.shiftr val 18) +:+ b64char (Z.shiftr val 12) +:+
      b64char (Z.shiftr val 6)
  | b0 :: b1 :: b2 :: rest =>
      let val := Z.lor (Z.lor (Z.shiftl (byteZ b0) 16) (Z.shiftl (byteZ b1) 8))
                       (byteZ b2) in
      b64char (Z.shiftr val 18) +:+ b64char (Z.shiftr val 12) +:+
      b64char (Z.shiftr val 6) +:+ b64char val +:+
      RawURLEncoding_EncodeToString rest
  end.

(** ** The DNS messages of miekg/dns, as far as this package reads them *)

Definition IP := bytes.

Record RR_Header := mkRR_Header { Hdr_Name : string; Rrtype : Z; Ttl : Z }.

Inductive RR : Type :=
| RR_A (Hdr : RR_Header) (A : IP)
| RR_AAAA (Hdr : RR_Header) (AAAA : IP)
| RR_CNAME (Hdr : RR_Header) (Target : string)
| RR_MX (Hdr : RR_Header) (Preference : Z) (Mx : string)
| RR_TXT (Hdr : RR_Header) (Txt : list string)
| RR_other (Hdr : RR_Header) (String_ : string).

Definition Header (rr : RR) : RR_Header :=
  match rr with
  | RR_A h _ | RR_AAAA h _ | RR_CNAME h _ | RR_MX h _ _ | RR_TXT h _
  | RR_other h _ => h
  end.

Record Question := mkQuestion { Q_Name : string; Qtype : Z }.

Record Msg := mkMsg {
  RecursionDesired : bool;
  Question_ : list Question;
  Answer : list RR
}.

Definition TypeA : Z := 1.
Definition TypeCNAME : Z := 5.
Definition TypeMX : Z := 15.
Definition TypeTXT : Z := 16.
Definition TypeAAAA : Z := 28.

(** ** net/url, net/http and x/net/proxy *)

Record Userinfo := mkUserinfo { username : string; password : string }.
Definition UserPassword (u p : string) : Userinfo := mkUserinfo u p.

Record URL := mkURL {
  Scheme : string;
  User : option Userinfo;
  Host : string;
  Path : string;
  RawQuery : string;
  Fragment : string
}.

Definition URL_setRawQuery (u : URL) (q : string) : URL :=
  mkURL (Scheme u) (User u) (Host u) (Path u) q (Fragment u).
Definition URL_setUser (u : URL) (i : Userinfo) : URL :=
  mkURL (Scheme u) (Some i) (Host u) (Path u) (RawQuery u) (Fragment u).

(** [url.Values] and [http.Header] are maps from a key to a list of values;
    their [Set] replaces the list by the single value. *)
Definition Values_Set (v : gmap string (list string)) (key value : string)
  : gmap string (list string) := <[key := [value]]> v.

Record Request := mkRequest {
  Method : string;
  Request_URL : string;
  Request_Header : gmap string (list string)
}.

Definition Header_Set (req : Request) (key value : string) : Request :=
  mkRequest (Method req) (Request_URL req)
            (Values_Set (Request_Header req) key value).

Record Response := mkResponse {
  StatusCode : Z;
  Status : string;
  Body : result bytes          (* what io.ReadAll(resp.Body) gives *)
}.

Definition StatusOK : Z := 200.

(** The HTTP client of a DoH query: the configured one, or the one
    [queryDoH] builds. *)
Inductive HTTPClient : Type :=
| ConfiguredClient (handle : nat)
| BuiltClient (TLSClientConfig : option TLSConfig) (Proxy : option URL)
              (Timeout : Z).

Record Auth := mkAuth { Auth_User : string; Auth_Password : string }.

(** The dialer [proxy.SOCKS5(network, address, auth, proxy.Direct)] builds. *)
Record Dialer := mkDialer {
  Dialer_network : string;
  Dialer_address : string;
  Dialer_auth : option Auth
}.

(** ** The collaborators *)

(** The pure functions of the libraries. *)
Record Lib := mkLib {
  Fqdn : string -> string;                          (* dns.Fqdn *)
  ParseIP : string -> option IP;                    (* net.ParseIP; nil is None *)
  IP_String : IP -> string;                         (* net.IP.String *)
  Pack : Msg -> result bytes;                       (* dns.Msg.Pack *)
  Unpack : bytes -> result Msg;                     (* dns.Msg.Unpack *)
  url_Parse : string -> result URL;                 (* url.Parse *)
  url_ParseQuery : string -> gmap string (list string);   (* URL.Query *)
  Values_Encode : gmap string (list string) -> string;    (* Values.Encode *)
  URL_String : URL -> string;                       (* URL.String *)
  http_NewRequest : string -> string -> option error;
    (* the error of http.NewRequestWithContext(ctx, method, url, nil) *)
  proxy_SOCKS5 : string -> string -> option Auth -> result Dialer
}.

(** What one goroutine observes of the outside world.  The first argument
    is the index [i] of the retry-loop iteration that asks. *)
Record Net := mkNet {
  ExchangeContext : Z -> string -> option TLSConfig -> Msg -> string -> result Msg;
    (* dns.Client{Net, TLSConfig}.ExchangeContext(ctx, msg, server) *)
  Dial : Z -> Dialer -> string -> option error;     (* proxyDialer.Dial("tcp", server) *)
  Handshake : Z -> TLSConfig -> option error;       (* tls.Client(conn, cfg).Handshake() *)
  WriteMsg : Z -> Msg -> option error;              (* dns.Conn.WriteMsg *)
  ReadMsg : Z -> result Msg;                        (* dns.Conn.ReadMsg *)
  Do : Z -> HTTPClient -> Request -> result Response;   (* http.Client.Do *)
  ctxDone : Z -> bool;
    (* in the select after the failed iteration i, the case <-ctx.Done()
       is the one taken (true) or the timer fires first (false) *)
  ctxErr : error                                    (* ctx.Err() *)
}.

(** ** Traces and the monad of the embedding *)

Inductive Event : Type :=
| EvAttempt (i : Z)                 (* iteration i of a retry loop begins *)
| EvExchange (net : string) (server : string)   (* a direct connection *)
| EvDial (d : Dialer) (server : string)         (* a connection through the proxy *)
| EvHandshake
| EvWriteMsg
| EvReadMsg
| EvConnClose
| EvHTTPDo (client : HTTPClient) (req : Request)
| EvBodyClose
| EvSleep (d : Z)                   (* the select waited the whole d ns *)
| EvCtxDone (d : Z)                 (* the select left on ctx.Done(), the timer of d ns abandoned *)
| EvGo (srv : string).              (* go func(srv) *)

(** How a run ends: it returns [a], it panics, or it is still running (or
    blocked) when the fuel is spent. *)
Inductive Outcome (A : Type) : Type :=
| Done (a : A)
| Panic (why : string)
| OutOfFuel.
Arguments Done {A} a.
Arguments Panic {A} why.
Arguments OutOfFuel {A}.

Definition M (A : Type) : Type := (list Event * Outcome A)%type.

#[global] Instance M_ret : MRet M := fun A a => ([], Done a).
#[global] Instance M_bind : MBind M := fun A B f m =>
  match m with
  | (t, Done a) => let '(t', o) := f a in (t ++ t', o)
  | (t, Panic why) => (t, Panic why)
  | (t, OutOfFuel) => (t, OutOfFuel)
  end.

Definition emit (e : Event) : M unit := ([e], Done tt).
Definition panic {A} (why : string) : M A := ([], Panic why).
Definition out_of_fuel {A} : M A := ([], OutOfFuel).

Definition trace {A} (m : M A) : list Event := fst m.
Definition outcome {A} (m : M A) : Outcome A := snd m.

(** ** The transport strategies *)

Section Transport.

Context (L : Lib) (cfg : Config) (net : Net).

Definition createDialer : GoRet Dialer :=
  if String.eqb (ProxyType_ cfg) SOCKS5 then
    let auth :=
      match ProxyAuth_ cfg with
      | Some a => Some (mkAuth (Username a) (Password a))
      | None => None
      end in
    of_result (proxy_SOCKS5 L "tcp" (ProxyAddr cfg) auth)
  else
    (None, Some ("unsupported proxy type for dialer: " +:+ ProxyType_ cfg)).

Definition getProxyURL : GoRet URL :=
  if String.eqb (ProxyType_ cfg) HTTPProxy then
    let proxyURL :=
      if HasPrefix (ProxyAddr cfg) "http" then ProxyAddr cfg
      else "http://" +:+ ProxyAddr cfg in
    match url_Parse L proxyURL with
    | Err err => (None, Some err)
    | Ok u =>
        match ProxyAuth_ cfg with
        | Some a => (Some (URL_setUser u (UserPassword (Username a) (Password a))), None)
        | None => (Some u, None)
        end
    end
  else if String.eqb (ProxyType_ cfg) SOCKS5 then
    let proxyURL := "socks5://" +:+ ProxyAddr cfg in
    match url_Parse L proxyURL with
    | Err err => (None, Some err)
    | Ok u =>
        match ProxyAuth_ cfg with
        | Some a => (Some (URL_setUser u (UserPassword (Username a) (Password a))), None)
        | None => (Some u, None)
        end
    end
  else
    (None, Some ("unsupported proxy type: " +:+ ProxyType_ cfg)).

(** [exchangeWithProxy], asked by iteration [i].  The deferred
    [conn.Close()] runs on every path after a successful dial. *)
Definition exchangeWithProxy (i : Z) (msg : Msg) (server : string) : M (GoRet Msg) :=
  match createDialer with
  | (_, Some err) => mret (None, Some ("failed to create proxy dialer: " +:+ err))
  | (None, None) => panic "nil dialer"
  | (Some proxyDialer, None) =>
      emit (EvDial proxyDialer server);;
      match Dial net i proxyDialer server with
      | Some err => mret (None, Some ("failed to dial through proxy: " +:+ err))
      | None =>
          emit EvWriteMsg;;
          match WriteMsg net i msg with
          | Some err =>
              emit EvConnClose;;
              mret (None, Some ("failed to write DNS message: " +:+ err))
          | None =>
              emit EvReadMsg;;
              match ReadMsg net i with
              | Err err =>
                  emit EvConnClose;;
                  mret (None, Some ("failed to read DNS response: " +:+ err))
              | Ok response =>
                  emit EvConnClose;;
                  mret (Some response, None)
              end
          end
      end
  end.

Definition exchangeDoTWithProxy (i : Z) (msg : Msg) (server : string)
    (tlsConfig : TLSConfig) : M (GoRet Msg) :=
  match createDialer with
  | (_, Some err) => mret (None, Some ("failed to create proxy dialer: " +:+ err))
  | (None, None) => panic "nil dialer"
  | (Some proxyDialer, None) =>
      emit (EvDial proxyDialer server);;
      match Dial net i proxyDialer server with
      | Some err => mret (None, Some ("failed to dial through proxy: " +:+ err))
      | None =>
          emit EvHandshake;;
          match Handshake net i tlsConfig with
          | Some err =>
              emit EvConnClose;;
              mret (None, Some ("TLS handshake failed: " +:+ err))
          | None =>
              emit EvWriteMsg;;
              match WriteMsg net i msg with
              | Some err =>
                  emit EvConnClose;;
                  mret (None, Some ("failed to write DNS message: " +:+ err))
              | None =>
                  emit EvReadMsg;;
                  match ReadMsg net i with
                  | Err err =>
                      emit EvConnClose;;
                      mret (None, Some ("failed to read DNS response: " +:+ err))
                  | Ok response =>
                      emit EvConnClose;;
                      mret (Some response, None)
                  end
              end
          end
      end
  end.

(** [time.Millisecond * 100 * time.Duration(i+1)] *)
Definition backoff (i : Z) : Z := Duration_mul (Millisecond * 100) (int_incr i).

(** The [select] between [ctx.Done()] and [time.After]: the error to return
    when the context wins, [None] when the wait was served. *)
Definition selectBackoff (i : Z) : M (option error) :=
  if ctxDone net i then
    emit (EvCtxDone (backoff i));; mret (Some (ctxErr net))
  else
    emit (EvSleep (backoff i));; mret None.

(** The operation one iteration of [queryUDPTCP] performs. *)
Definition exchangeUDPTCP (i : Z) (msg : Msg) (server : string) : M (GoRet Msg) :=
  if negb (String.eqb (ProxyType_ cfg) NoProxy) then
    exchangeWithProxy i msg server
  else
    emit (EvExchange (Protocol_ cfg) server);;
    mret (of_result (ExchangeContext net i (Protocol_ cfg) None msg server)).

(** The loop [for i := 0; i <= c.config.Retries; i++] of [queryUDPTCP],
    entered at [i] with [lastErr].  Each iteration takes one unit of fuel. *)
Fixpoint queryUDPTCP_loop (fuel : nat) (msg : Msg) (server : string)
    (i : Z) (lastErr : option error) : M (GoRet Msg) :=
  match fuel with
  | O => out_of_fuel
  | S fuel' =>
      if i <=? Retries cfg then
        emit (EvAttempt i);;
        r ← exchangeUDPTCP i msg server;
        match r with
        | (response, None) => mret (response, None)
        | (_, Some err) =>
            if i <? Retries cfg then
              done ← selectBackoff i;
              match done with
              | Some ctxerr => mret (None, Some ctxerr)
              | None => queryUDPTCP_loop fuel' msg server (int_incr i) (Some err)
              end
            else queryUDPTCP_loop fuel' msg server (int_incr i) (Some err)
        end
      else mret (None, lastErr)
  end.

Definition queryUDPTCP (fuel : nat) (msg : Msg) (server : string) : M (GoRet Msg) :=
  queryUDPTCP_loop fuel msg server 0 None.

(** The port check of [queryDoT]. *)
Definition ensurePort (server : string) : string :=
  if negb (Contains server ":") then server +:+ ":853" else server.

Definition exchangeDoT (i : Z) (msg : Msg) (server : string)
    (tlsConfig : TLSConfig) : M (GoRet Msg) :=
  if negb (String.eqb (ProxyType_ cfg) NoProxy) then
    exchangeDoTWithProxy i msg server tlsConfig
  else
    emit (EvExchange "tcp-tls" server);;
    mret (of_result (ExchangeContext net i "tcp-tls" (Some tlsConfig) msg server)).

Fixpoint queryDoT_loop (fuel : nat) (msg : Msg) (server : string)
    (tlsConfig : TLSConfig) (i : Z) (lastErr : option error) : M (GoRet Msg) :=
  match fuel with
  | O => out_of_fuel
  | S fuel' =>
      if i <=? Retries cfg then
        emit (EvAttempt i);;
        r ← exchangeDoT i msg server tlsConfig;
        match r with
        | (response, None) => mret (response, None)
        | (_, Some err) =>
            if i <? Retries cfg then
              done ← selectBackoff i;
              match done with
              | Some ctxerr => mret (None, Some ctxerr)
              | None => queryDoT_loop fuel' msg server tlsConfig (int_incr i) (Some err)
              end
            else queryDoT_loop fuel' msg server tlsConfig (int_incr i) (Some err)
        end
      else mret (None, lastErr)
  end.

Definition queryDoT (fuel : nat) (msg : Msg) (server : string) : M (GoRet Msg) :=
  let tlsConfig :=
    match TLSConfig_ cfg with
    | Some t => t
    | None => TLSConfig_zero
    end in
  queryDoT_loop fuel msg (ensurePort server) tlsConfig 0 None.

(** The deferred [resp.Body.Close()] calls run when [queryDoH] returns. *)
Definition closeBodies (deferred : nat) : M unit :=
  (replicate deferred EvBodyClose, Done tt).

(** The request of one iteration of [queryDoH]. *)
Definition dohRequest (u : URL) : Request :=
  Header_Set
    (Header_Set (mkRequest "GET" (URL_String L u) ∅)
                "Accept" "application/dns-message")
    "Content-Type" "application/dns-message".

(** The loop of [queryDoH].  [deferred] counts the responses whose body is
    still to be closed. *)
Fixpoint queryDoH_loop (fuel : nat) (u : URL) (httpClient : HTTPClient)
    (i : Z) (lastErr : option error) (deferred : nat) : M (GoRet Msg) :=
  match fuel with
  | O => out_of_fuel
  | S fuel' =>
      if i <=? Retries cfg then
        emit (EvAttempt i);;
        match http_NewRequest L "GET" (URL_String L u) with
        | Some err =>
            closeBodies deferred;;
            mret (None, Some ("failed to create HTTP request: " +:+ err))
        | None =>
            let req := dohRequest u in
            emit (EvHTTPDo httpClient req);;
            match Do net i httpClient req with
            | Err err =>
                if i <? Retries cfg then
                  done ← selectBackoff i;
                  match done with
                  | Some ctxerr => closeBodies deferred;; mret (None, Some ctxerr)
                  | None =>
                      queryDoH_loop fuel' u httpClient (int_incr i) (Some err) deferred
                  end
                else queryDoH_loop fuel' u httpClient (int_incr i) (Some err) deferred
            | Ok resp =>
                let deferred := S deferred in
                if negb (StatusCode resp =? StatusOK) then
                  let lastErr :=
                    Some ("HTTP error: " +:+ pretty (StatusCode resp) +:+ " "
                          +:+ Status resp) in
                  if i <? Retries cfg then
                    queryDoH_loop fuel' u httpClient (int_incr i) lastErr deferred
                  else closeBodies deferred;; mret (None, lastErr)
                else
                  match Body resp with
                  | Err err =>
                      let lastErr := Some ("failed to read response body: " +:+ err) in
                      if i <? Retries cfg then
                        queryDoH_loop fuel' u httpClient (int_incr i) lastErr deferred
                      else closeBodies deferred;; mret (None, lastErr)
                  | Ok body =>
                      match Unpack L body with
                      | Err err =>
                          let lastErr :=
                            Some ("failed to unpack DNS response: " +:+ err) in
                          if i <? Retries cfg then
                            queryDoH_loop fuel' u httpClient (int_incr i) lastErr deferred
                          else closeBodies deferred;; mret (None, lastErr)
                      | Ok response =>
                          closeBodies deferred;; mret (Some response, None)
                      end
                  end
            end
        end
      else closeBodies deferred;; mret (None, lastErr)
  end.

(** The URL [queryDoH] builds for [server]. *)
Definition dohURL (server : string) : string :=
  if negb (HasPrefix server "http") then "https://" +:+ server +:+ "/dns-query"
  else server.

(** [q := u.Query(); q.Set("dns", ...); u.RawQuery = q.Encode()] *)
Definition withDNSParam (u : URL) (msgBytes : bytes) : URL :=
  let q := url_ParseQuery L (RawQuery u) in
  let q := Values_Set q "dns" (RawURLEncoding_EncodeToString msgBytes) in
  URL_setRawQuery u (Values_Encode L q).

Definition queryDoH (fuel : nat) (msg : Msg) (server : string) : M (GoRet Msg) :=
  match Pack L msg with
  | Err err => mret (None, Some ("failed to pack DNS message: " +:+ err))
  | Ok msgBytes =>
      match url_Parse L (dohURL server) with
      | Err err => mret (None, Some ("invalid DoH URL: " +:+ err))
      | Ok u =>
          let u := withDNSParam u msgBytes in
          match HTTPClient_ cfg with
          | Some h => queryDoH_loop fuel u (ConfiguredClient h) 0 None 0
          | None =>
              if negb (String.eqb (ProxyType_ cfg) NoProxy) then
                match getProxyURL with
                | (_, Some err) =>
                    mret (None, Some ("failed to get proxy URL: " +:+ err))
                | (proxyURL, None) =>
                    queryDoH_loop fuel u
                      (BuiltClient (TLSConfig_ cfg) proxyURL (Timeout cfg)) 0 None 0
                end
              else
                queryDoH_loop fuel u
                  (BuiltClient (TLSConfig_ cfg) None (Timeout cfg)) 0 None 0
          end
      end
  end.

End Transport.

(** ** The query surface *)

(** [type Record struct] *)
Record DNSRecord := mkRecord {
  Name : string;
  RType : Z;
  TTL : Z;
  Value : string
}.

(** [Records] is a slice: the nil slice and the empty slice are both [[]]. *)
Record QueryResult := mkQueryResult {
  Domain : string;
  Type_ : Z;
  Records : list DNSRecord;
  Error : option error;
  Server : string
}.

Record MultiQueryResult := mkMultiQueryResult {
  MQ_Domain : string;
  MQ_Type : Z;
  Results : list QueryResult;
  AllIPs : list string
}.

Section QueryServer.

Context (L : Lib) (cfg : Config) (net : Net).

(** The type switch of [queryServer]. *)
Definition recordValue (rr : RR) : string :=
  match rr with
  | RR_A _ a => IP_String L a
  | RR_AAAA _ aaaa => IP_String L aaaa
  | RR_CNAME _ target => target
  | RR_MX _ preference mx => pretty preference +:+ " " +:+ mx
  | RR_TXT _ txt => Join txt " "
  | RR_other _ s => s
  end.

Definition toRecord (rr : RR) : DNSRecord :=
  {| Name := Hdr_Name (Header rr);
     RType := Rrtype (Header rr);
     TTL := Ttl (Header rr);
     Value := recordValue rr |}.

(** The [switch c.config.Protocol]; [None] is its [default] case. *)
Definition dispatch (fuel : nat) (msg : Msg) (server : string)
  : option (M (GoRet Msg)) :=
  if String.eqb (Protocol_ cfg) UDP || String.eqb (Protocol_ cfg) TCP then
    Some (queryUDPTCP L cfg net fuel msg server)
  else if String.eqb (Protocol_ cfg) DoT then
    Some (queryDoT L cfg net fuel msg server)
  else if String.eqb (Protocol_ cfg) DoH then
    Some (queryDoH L cfg net fuel msg server)
  else None.

Definition queryServer (fuel : nat) (domain : string) (qtype : Z)
    (server : string) : M (GoRet QueryResult) :=
  let msg := mkMsg true [mkQuestion (Fqdn L domain) qtype] [] in
  match dispatch fuel msg server with
  | None => mret (None, Some ("unsupported protocol: " +:+ Protocol_ cfg))
  | Some query =>
      r ← query;
      match r with
      | (_, Some err) =>
          mret (Some {| Domain := domain; Type_ := qtype; Records := [];
                        Error := Some err; Server := server |},
                Some err)
      | (None, None) => panic "nil pointer dereference: response.Answer"
      | (Some response, None) =>
          mret (Some {| Domain := domain; Type_ := qtype;
                        Records := map toRecord (Answer response);
                        Error := None; Server := server |},
                None)
      end
  end.

(** [Query]: the first configured server. *)
Definition Query (fuel : nat) (domain : string) (qtype : Z) : M (GoRet QueryResult) :=
  match Servers cfg with
  | [] => mret (None, Some "no DNS servers configured")
  | server :: _ => queryServer fuel domain qtype server
  end.

End QueryServer.

Section MultiQuery.

(** Goroutine [k] observes the world [nets k]; [sched i] decides which of the
    goroutines not yet received from delivers the [i]-th value on
    [resultChan]. *)
Context (L : Lib) (cfg : Config) (nets : nat -> Net) (sched : nat -> nat).

(** The body of [go func(srv string)]: the value it sends on [resultChan]. *)
Definition goroutine (fuel : nat) (domain : string) (qtype : Z)
    (k : nat) (srv : string) : M QueryResult :=
  r ← queryServer L cfg (nets k) fuel domain qtype srv;
  match r with
  | (None, err) =>
      mret {| Domain := domain; Type_ := qtype; Records := [];
              Error := err; Server := srv |}
  | (Some res, _) => mret res
  end.

(** What the launched goroutines send, in the order they were launched.  A
    panic in one goroutine ends the program; a goroutine that never sends
    leaves the collector blocked. *)
Fixpoint join {A} (os : list (Outcome A)) : Outcome (list A) :=
  match os with
  | [] => Done []
  | o :: os' =>
      match o, join os' with
      | Panic why, _ => Panic why
      | _, Panic why => Panic why
      | OutOfFuel, _ => OutOfFuel
      | _, OutOfFuel => OutOfFuel
      | Done a, Done l => Done (a :: l)
      end
  end.

Definition sends (fuel : nat) (domain : string) (qtype : Z) : list (Outcome QueryResult) :=
  imap (fun k srv => outcome (goroutine fuel domain qtype k srv)) (Servers cfg).

(** [<-resultChan], the [i]-th receive: one of the values in flight
    arrives. *)
Definition recv {A} (i : nat) (inflight : list A) : option (A * list A) :=
  let k := (sched i `mod` length inflight)%nat in
  match inflight !! k with
  | Some x => Some (x, delete k inflight)
  | None => None
  end.

(** The body of [for _, record := range res.Records]. *)
Definition addIP (qtype : Z) (st : list string * gmap string bool)
    (record : DNSRecord) : list string * gmap string bool :=
  let '(allIPs, ipSet) := st in
  if ((qtype =? TypeA) || (qtype =? TypeAAAA))
     && bool_decide (is_Some (ParseIP L (Value record))) then
    if negb (default false (ipSet !! Value record)) then
      (allIPs ++ [Value record], <[Value record := true]> ipSet)
    else st
  else st.

(** One iteration of the collecting loop on the received [res]. *)
Definition absorb (qtype : Z) (res : QueryResult)
    (st : MultiQueryResult * gmap string bool) : MultiQueryResult * gmap string bool :=
  let '(result, ipSet) := st in
  let results := Results result ++ [res] in
  match Error res with
  | None =>
      let '(allIPs, ipSet) := fold_left (addIP qtype) (Records res) (AllIPs result, ipSet) in
      (mkMultiQueryResult (MQ_Domain result) (MQ_Type result) results allIPs, ipSet)
  | Some _ =>
      (mkMultiQueryResult (MQ_Domain result) (MQ_Type result) results (AllIPs result), ipSet)
  end.

(** The loop [for i := 0; i < len(c.config.Servers); i++] with [n]
    iterations left.  A receive with nothing in flight would block for good. *)
Fixpoint collect (n i : nat) (qtype : Z) (inflight : list QueryResult)
    (st : MultiQueryResult * gmap string bool) : Outcome MultiQueryResult :=
  match n with
  | O => Done (fst st)
  | S n' =>
      match recv i inflight with
      | None => OutOfFuel
      | Some (res, inflight') => collect n' (S i) qtype inflight' (absorb qtype res st)
      end
  end.

Definition MultiQuery (fuel : nat) (domain : string) (qtype : Z)
  : M (GoRet MultiQueryResult) :=
  if (length (Servers cfg) =? 0)%nat then
    mret (None, Some "no DNS servers configured")
  else
    let result := mkMultiQueryResult domain qtype [] [] in
    (map EvGo (Servers cfg),
     match join (sends fuel domain qtype) with
     | Panic why => Panic why
     | OutOfFuel => OutOfFuel
     | Done inflight =>
         match collect (length (Servers cfg)) 0 qtype inflight (result, ∅) with
         | Done result => Done (Some result, None)
         | Panic why => Panic why
         | OutOfFuel => OutOfFuel
         end
     end).

Definition MultiQueryA (fuel : nat) (domain : string) : M (GoRet MultiQueryResult) :=
  MultiQuery fuel domain TypeA.

Definition MultiQueryAAAA (fuel : nat) (domain : string) : M (GoRet MultiQueryResult) :=
  MultiQuery fuel domain TypeAAAA.

End MultiQuery.

(** ** Views of a trace *)

(** The retry timeline: attempts, served waits and abandoned waits. *)
Definition isTimeline (e : Event) : bool :=
  match e with
  | EvAttempt _ | EvSleep _ | EvCtxDone _ => true
  | _ => false
  end.

Definition timeline (t : list Event) : list Event := filter (fun e => isTimeline e = true) t.

Definition attempts (t : list Event) : list Z :=
  omap (fun e => match e with EvAttempt i => Some i | _ => None end) t.

Definition waits (t : list Event) : list Z :=
  omap (fun e => match e with EvSleep d => Some d | _ => None end) t.

(** The addresses connected to: directly, or through the proxy. *)
Definition directTargets (t : list Event) : list string :=
  omap (fun e => match e with EvExchange _ s => Some s | _ => None end) t.

Definition proxyTargets (t : list Event) : list string :=
  omap (fun e => match e with EvDial _ s => Some s | _ => None end) t.

Definition requests (t : list Event) : list Request :=
  omap (fun e => match e with EvHTTPDo _ r => Some r | _ => None end) t.

Definition launched (t : list Event) : list string :=
  omap (fun e => match e with EvGo s => Some s | _ => None end) t.

(** The timeline of a query whose attempts [i], [i+1], ... fail and are each
    followed by its full wait, up to a last attempt [i + n]. *)
Fixpoint schedule (n : nat) (i : Z) : list Event :=
  match n with
  | O => [EvAttempt i]
  | S n' => EvAttempt i :: EvSleep ((i + 1) * (100 * Millisecond)) :: schedule n' (i + 1)
  end.

(** The largest retry count whose last wait fits a [time.Duration]. *)
Definition maxLinearRetries : Z := MaxInt64 / (100 * Millisecond).


(** ** The vocabulary of the properties *)

(** [n] failed attempts from [i] on, each with its full wait. *)
Fixpoint rounds (n : nat) (i : Z) : list Event :=
  match n with
  | O => []
  | S n' => EvAttempt i :: EvSleep ((i + 1) * (100 * Millisecond)) :: rounds n' (i + 1)
  end.

(** A Go pair that is a value with a nil error, or nil with an error. *)
Definition proper {A} (r : GoRet A) : Prop :=
  (exists a, r = (Some a, None)) \/ (exists e, r = (None, Some e)).

(** Every connection recorded in [t], direct or through the proxy, is to
    [server]. *)
Definition aimsAt (server : string) (t : list Event) : Prop :=
  Forall (eq server) (directTargets t) /\ Forall (eq server) (proxyTargets t).

(** The result that stands for a failed query. *)
Definition failed (domain : string) (qtype : Z) (server : string) (err : error)
  : QueryResult :=
  {| Domain := domain; Type_ := qtype; Records := []; Error := Some err;
     Server := server |}.

(** The error a returned query carries. *)
Definition queryError {A} (o : Outcome (GoRet A)) : option error :=
  match o with
  | Done (_, err) => err
  | _ => None
  end.

(** The value goroutine [k] sends, when it sends one. *)
Definition sent (L : Lib) (cfg : Config) (nets : nat -> Net) (fuel : nat)
    (domain : string) (qtype : Z) (k : nat) (srv : string) : QueryResult :=
  match outcome (goroutine L cfg nets fuel domain qtype k srv) with
  | Done q => q
  | _ => mkQueryResult domain qtype [] None srv
  end.

(** The order in which [n] receives take the values in flight. *)
Fixpoint arrivals {A} (sched : nat -> nat) (n i : nat) (inflight : list A) : list A :=
  match n with
  | O => []
  | S n' =>
      match recv sched i inflight with
      | None => []
      | Some (x, inflight') => x :: arrivals sched n' (S i) inflight'
      end
  end.

(** The collecting loop run on the values [l], in the order received. *)
Definition absorbAll (L : Lib) (qtype : Z) (l : list QueryResult)
    (st : MultiQueryResult * gmap string bool) : MultiQueryResult * gmap string bool :=
  fold_left (fun st res => absorb L qtype res st) l st.

Definition addressQuery (qtype : Z) : Prop := qtype = TypeA \/ qtype = TypeAAAA.

(** [v] parses as an IP address and is the value of a record of a result
    without error among [rs]. *)
Definition fromResults (L : Lib) (rs : list QueryResult) (v : string) : Prop :=
  is_Some (ParseIP L v)
  /\ exists res, res ∈ rs /\ Error res = None
                 /\ exists rec, rec ∈ Records res /\ Value rec = v.

(** The invariant of the collecting loop: [ipSet] holds exactly the addresses
    of [allIPs], each once, each from a record of [rs]. *)
Definition ipsInv (L : Lib) (qtype : Z) (rs : list QueryResult)
    (st : list string * gmap string bool) : Prop :=
  NoDup (fst st)
  /\ (forall v, v ∈ fst st <-> snd st !! v = Some true)
  /\ (forall v, v ∈ fst st -> addressQuery qtype /\ fromResults L rs v).

(** ** A library and some worlds to run the code on *)

Module Sample.

Fixpoint endsWithDot (s : string) : bool :=
  match s with
  | EmptyString => false
  | String c EmptyString => Ascii.eqb c "."%char
  | String _ s' => endsWithDot s'
  end.

Definition fqdn (s : string) : string := if endsWithDot s then s else s +:+ ".".

(** Split at every occurrence of [sep]. *)
Fixpoint split (sep : Ascii.ascii) (s : string) : list string :=
  match s with
  | EmptyString => [EmptyString]
  | String c s' =>
      if Ascii.eqb c sep then EmptyString :: split sep s'
      else match split sep s' with
           | [] => [String c EmptyString]
           | w :: ws => String c w :: ws
           end
  end.

Definition digit (c : Ascii.ascii) : option Z :=
  let n := Z.of_N (Ascii.N_of_ascii c) in
  if (48 <=? n) && (n <=? 57) then Some (n - 48) else None.

(** A decimal octet without a leading zero. *)
Definition octet (s : string) : option Z :=
  match s with
  | String a EmptyString => digit a
  | String a (String b EmptyString) =>
      match digit a, digit b with
      | Some x, Some y => if x =? 0 then None else Some (10 * x + y)
      | _, _ => None
      end
  | String a (String b (String c EmptyString)) =>
      match digit a, digit b, digit c with
      | Some x, Some y, Some z =>
          let v := 100 * x + 10 * y + z in
          if (x =? 0) || (255 <? v) then None else Some v
      | _, _, _ => None
      end
  | _ => None
  end.

Definition toByte (z : Z) : Byte.byte :=
  match Byte.of_N (Z.to_N z) with
  | Some b => b
  | None => Byte.x00
  end.

(** Dotted-quad IPv4 addresses only. *)
Definition parseIP (s : string) : option IP :=
  match split "."%char s with
  | [a; b; c; d] =>
      match octet a, octet b, octet c, octet d with
      | Some a, Some b, Some c, Some d => Some [toByte a; toByte b; toByte c; toByte d]
      | _, _, _, _ => None
      end
  | _ => None
  end.

Definition ipString (ip : IP) : string :=
  String.concat "." (map (fun b => pretty (byteZ b)) ip).

Definition stringBytes (s : string) : bytes := String.list_byte_of_string s.

(** The wire form is stood for by the bytes of the question name. *)
Definition pack (m : Msg) : result bytes :=
  match Question_ m with
  | q :: _ => Ok (stringBytes (Q_Name q))
  | [] => Err "dns: no question"
  end.

Definition unpack (b : bytes) : result Msg :=
  match b with
  | [] => Err "dns: overflow unpacking"
  | _ => Ok (mkMsg true [] [])
  end.

(** [s] up to the first [c], and what follows it. *)
Fixpoint cut (c : Ascii.ascii) (s : string) : string * option string :=
  match s with
  | EmptyString => (EmptyString, None)
  | String a s' =>
      if Ascii.eqb a c then (EmptyString, Some s')
      else let '(h, t) := cut c s' in (String a h, t)
  end.

(** URLs of the shape scheme://host/path?query. *)
Definition urlParse (s : string) : result URL :=
  let '(base, q) := cut "?"%char s in
  let rawquery := default "" q in
  if Contains base " " then Err "invalid character in URL"
  else
    match cut ":"%char base with
    | (scheme, Some (String "/" (String "/" rest))) =>
        match cut "/"%char rest with
        | (host, Some path) => Ok (mkURL scheme None host ("/" +:+ path) rawquery "")
        | (host, None) => Ok (mkURL scheme None host "" rawquery "")
        end
    | _ => Ok (mkURL "" None "" base rawquery "")
    end.

Definition urlString (u : URL) : string :=
  (if String.eqb (Scheme u) "" then "" else Scheme u +:+ "://") +:+
  match User u with
  | Some i => username i +:+ ":" +:+ password i +:+ "@"
  | None => ""
  end +:+
  Host u +:+ Path u +:+
  (if String.eqb (RawQuery u) "" then "" else "?" +:+ RawQuery u).

Definition pairOf (kv : string) : string * list string :=
  let '(k, v) := cut "="%char kv in (k, [default "" v]).

Definition parseQuery (q : string) : gmap string (list string) :=
  if String.eqb q "" then ∅ else list_to_map (map pairOf (split "&"%char q)).

Definition encode (v : gmap string (list string)) : string :=
  String.concat "&"
    (map (fun kv => fst kv +:+ "=" +:+ String.concat "," (snd kv)) (map_to_list v)).

Definition lib : Lib :=
  mkLib fqdn parseIP ipString pack unpack urlParse parseQuery encode urlString
        (fun _ _ => None)
        (fun network address auth => Ok (mkDialer network address auth)).

(** A world where nothing answers: every network call fails, the context is
    never done. *)
Definition down : Net :=
  {| ExchangeContext := fun i _ _ _ _ => Err ("i/o timeout #" +:+ pretty i);
     Dial := fun _ _ _ => Some "connection refused";
     Handshake := fun _ _ => Some "handshake failure";
     WriteMsg := fun _ _ => Some "broken pipe";
     ReadMsg := fun _ => Err "EOF";
     Do := fun _ _ _ => Err "connection refused";
     ctxDone := fun _ => false;
     ctxErr := "context deadline exceeded" |}.

(** A world where every exchange is answered with the one address [ip]. *)
Definition answer (ip : string) : Msg :=
  mkMsg true [] [RR_A (mkRR_Header "example.com." TypeA 300)
                      (default [] (parseIP ip))].

Definition up (ip : string) : Net :=
  {| ExchangeContext := fun _ _ _ _ _ => Ok (answer ip);
     Dial := fun _ _ _ => None;
     Handshake := fun _ _ => None;
     WriteMsg := fun _ _ => None;
     ReadMsg := fun _ => Ok (answer ip);
     Do := fun _ _ _ => Ok (mkResponse 200 "200 OK" (Ok [Byte.x00]));
     ctxDone := fun _ => false;
     ctxErr := "context deadline exceeded" |}.

(** The world of [down], with the context done during the wait that follows
    attempt [k]. *)
Definition cancelledAfter (k : Z) : Net :=
  {| ExchangeContext := ExchangeContext down;
     Dial := Dial down;
     Handshake := Handshake down;
     WriteMsg := WriteMsg down;
     ReadMsg := ReadMsg down;
     Do := Do down;
     ctxDone := fun i => i =? k;
     ctxErr := "context canceled" |}.

End Sample.

(** ** The words of the specification about ports *)

(** An address split at its last colon: what precedes it and what follows. *)
Fixpoint splitLastColon (s : string) : option (string * string) :=
  match s with
  | EmptyString => None
  | String c s' =>
      match splitLastColon s' with
      | Some (h, p) => Some (String c h, p)
      | None => if Ascii.eqb c ":"%char then Some (EmptyString, s') else None
      end
  end.

Fixpoint lastChar (s : string) : option Ascii.ascii :=
  match s with
  | EmptyString => None
  | String c EmptyString => Some c
  | String _ s' => lastChar s'
  end.

Definition bracketed (host : string) : bool :=
  match host with
  | String "[" _ =>
      match lastChar host with
      | Some c => Ascii.eqb c "]"%char
      | None => false
      end
  | _ => false
  end.

(** Written after the specification's "a port is present", not after the
    code: the address reads host:port with a non-empty port, the host being
    a name or IPv4 address (no colon in it) or an IPv6 literal in brackets. *)
Definition carriesPort (s : string) : bool :=
  match splitLastColon s with
  | None => false
  | Some (host, port) =>
      negb (String.eqb port "") && (negb (Contains host ":") || bracketed host)
  end.

(** ** The rest of the query surface *)

Section Convenience.

Context (L : Lib) (cfg : Config) (net : Net).

Definition QueryA (fuel : nat) (domain : string) : M (GoRet QueryResult) :=
  Query L cfg net fuel domain TypeA.

Definition QueryAAAA (fuel : nat) (domain : string) : M (GoRet QueryResult) :=
  Query L cfg net fuel domain TypeAAAA.

Definition QueryCNAME (fuel : nat) (domain : string) : M (GoRet QueryResult) :=
  Query L cfg net fuel domain TypeCNAME.

Definition QueryMX (fuel : nat) (domain : string) : M (GoRet QueryResult) :=
  Query L cfg net fuel domain TypeMX.

Definition QueryTXT (fuel : nat) (domain : string) : M (GoRet QueryResult) :=
  Query L cfg net fuel domain TypeTXT.

End Convenience.

(** ** More vocabulary *)

(** The options of the package, named: [run] gives the option itself. *)
Inductive Opt : Type :=
| OTimeout (timeout : Z)
| ORetries (retries : Z)
| OProtocol (protocol : Protocol)
| OServers (servers : list string)
| OSOCKS5Proxy (addr : string) (auth : option ProxyAuth)
| OHTTPProxy (addr : string) (auth : option ProxyAuth)
| OTLSConfig (tlsConfig : option TLSConfig)
| OHTTPClient (client : option nat).

Definition run (o : Opt) : Option :=
  match o with
  | OTimeout t => WithTimeout t
  | ORetries r => WithRetries r
  | OProtocol p => WithProtocol p
  | OServers s => WithServers s
  | OSOCKS5Proxy a u => WithSOCKS5Proxy a u
  | OHTTPProxy a u => WithHTTPProxy a u
  | OTLSConfig t => WithTLSConfig t
  | OHTTPClient c => WithHTTPClient c
  end.

(** Options of one family write fields in common. *)
Definition family (o : Opt) : nat :=
  match o with
  | OTimeout _ => 0
  | ORetries _ => 1
  | OProtocol _ | OServers _ => 2
  | OSOCKS5Proxy _ _ | OHTTPProxy _ _ => 3
  | OTLSConfig _ => 4
  | OHTTPClient _ => 5
  end%nat.

(** The one ordered pair of a family in which the earlier option leaves a
    mark: a protocol chosen before a server list. *)
Definition protocolThenServers (a b : Opt) : bool :=
  match a, b with
  | OProtocol _, OServers _ => true
  | _, _ => false
  end.

(** Counting the events of a kind. *)
Definition countEv (p : Event -> bool) (t : list Event) : nat :=
  length (filter (fun e => p e = true) t).

Definition isConnClose (e : Event) : bool :=
  match e with EvConnClose => true | _ => false end.

Definition isBodyClose (e : Event) : bool :=
  match e with EvBodyClose => true | _ => false end.

Definition isDial (e : Event) : bool :=
  match e with EvDial _ _ => true | _ => false end.

Definition clients (t : list Event) : list HTTPClient :=
  omap (fun e => match e with EvHTTPDo c _ => Some c | _ => None end) t.

(** The TLS configuration [queryDoT] works with. *)
Definition dotTLS (cfg : Config) : TLSConfig :=
  match TLSConfig_ cfg with
  | Some t => t
  | None => TLSConfig_zero
  end.

(** The HTTP client [queryDoH] works with; [None] when the proxy URL cannot
    be had. *)
Definition dohClient (L : Lib) (cfg : Config) : option HTTPClient :=
  match HTTPClient_ cfg with
  | Some h => Some (ConfiguredClient h)
  | None =>
      if negb (String.eqb (ProxyType_ cfg) NoProxy) then
        match getProxyURL L cfg with
        | (_, Some _) => None
        | (proxyURL, None) => Some (BuiltClient (TLSConfig_ cfg) proxyURL (Timeout cfg))
        end
      else Some (BuiltClient (TLSConfig_ cfg) None (Timeout cfg))
  end.

Definition isOk {A} (r : result A) : bool :=
  match r with Ok _ => true | Err _ => false end.

(** The first occurrences of the elements of a list, in order. *)
Definition firstSeen (l : list string) : list string :=
  fold_left (fun acc v => if bool_decide (v ∈ acc) then acc else acc ++ [v]) l [].

(** The values [MultiQuery] looks at for [AllIPs], in the order it meets
    them: the record values of the results without error that parse as IP
    addresses. *)
Definition candidates (L : Lib) (rs : list QueryResult) : list string :=
  rs ≫= (fun res =>
    match Error res with
    | None => filter (fun v => is_Some (ParseIP L v)) (Value <$> Records res)
    | Some _ => []
    end).

(** What [queryDoH] makes of a response it received. *)
Definition readResponse (L : Lib) (resp : Response) : result Msg :=
  if negb (StatusCode resp =? StatusOK) then
    Err ("HTTP error: " +:+ pretty (StatusCode resp) +:+ " " +:+ Status resp)
  else
    match Body resp with
    | Err err => Err ("failed to read response body: " +:+ err)
    | Ok body =>
        match Unpack L body with
        | Err err => Err ("failed to unpack DNS response: " +:+ err)
        | Ok response => Ok response
        end
    end.

(** What iteration [i] of [queryDoH] comes to: the answer, or the error it
    leaves in [lastErr]. *)
Definition dohAttempt (L : Lib) (net : Net) (u : URL) (client : HTTPClient) (i : Z)
  : result Msg :=
  match Do net i client (dohRequest L u) with
  | Err err => Err err
  | Ok resp => readResponse L resp
  end.

(** The wait that follows a failed iteration [i] of [queryDoH], when one
    does. *)
Definition dohWait (L : Lib) (net : Net) (u : URL) (client : HTTPClient) (i : Z)
  : option Z :=
  match Do net i client (dohRequest L u) with
  | Err _ => Some ((i + 1) * (100 * Millisecond))
  | Ok _ => None
  end.

(** The number of requests of [t] that were answered with a response; [i]
    is the iteration under way where [t] begins. *)
Fixpoint answered (net : Net) (i : Z) (t : list Event) : nat :=
  match t with
  | [] => 0
  | EvAttempt j :: t' => answered net j t'
  | EvHTTPDo client req :: t' =>
      ((if isOk (Do net i client req) then 1 else 0) + answered net i t')%nat
  | _ :: t' => answered net i t'
  end.

(** A DoH server that is overloaded, then unreachable, then answers with an
    empty body, then answers. *)
Definition unsteady : Net :=
  {| ExchangeContext := ExchangeContext Sample.down;
     Dial := Dial Sample.down;
     Handshake := Handshake Sample.down;
     WriteMsg := WriteMsg Sample.down;
     ReadMsg := ReadMsg Sample.down;
     Do := fun i _ _ =>
       if i =? 0 then Ok (mkResponse 503 "503 Service Unavailable" (Ok []))
       else if i =? 1 then Err "connection reset by peer"
       else if i =? 2 then Ok (mkResponse 200 "200 OK" (Ok []))
       else Ok (mkResponse 200 "200 OK" (Ok [Byte.x00]));
     ctxDone := fun _ => false;
     ctxErr := "context canceled" |}.

(** The connections through the proxy are opened and closed in turn: [t]
    dials only when no connection is open, uses and closes only the open
    one, and begins an attempt, waits and ends with none open.  [i] is the
    iteration under way and [open] tells whether a connection is open where
    [t] begins. *)
Fixpoint wellClosed (net : Net) (i : Z) (open : bool) (t : list Event) : bool :=
  match t with
  | [] => negb open
  | EvAttempt j :: t' => negb open && wellClosed net j false t'
  | EvDial d server :: t' =>
      negb open
      && wellClosed net i (match Dial net i d server with None => true | Some _ => false end) t'
  | EvHandshake :: t' | EvWriteMsg :: t' | EvReadMsg :: t' =>
      open && wellClosed net i true t'
  | EvConnClose :: t' => open && wellClosed net i false t'
  | EvSleep _ :: t' | EvCtxDone _ :: t' => negb open && wellClosed net i false t'
  | _ :: t' => wellClosed net i open t'
  end.

(** The state of a connection through the proxy. *)
Inductive ConnState : Type := Closed | Plain | Secured.

(** No DNS message in the clear: in [t] a direct exchange is over "tcp-tls",
    and on a connection through the proxy a message is written or read only
    after the TLS handshake with [tlsConfig] succeeded.  [i] is the
    iteration under way, [st] the state of the connection where [t]
    begins. *)
Fixpoint tlsBeforeData (net : Net) (tlsConfig : TLSConfig) (i : Z) (st : ConnState)
    (t : list Event) : bool :=
  match t with
  | [] => true
  | EvAttempt j :: t' => tlsBeforeData net tlsConfig j Closed t'
  | EvExchange netname _ :: t' =>
      String.eqb netname "tcp-tls" && tlsBeforeData net tlsConfig i st t'
  | EvDial d server :: t' =>
      tlsBeforeData net tlsConfig i
        (match Dial net i d server with None => Plain | Some _ => Closed end) t'
  | EvHandshake :: t' =>
      match st with
      | Plain =>
          tlsBeforeData net tlsConfig i
            (match Handshake net i tlsConfig with None => Secured | Some _ => Plain end) t'
      | _ => false
      end
  | EvWriteMsg :: t' | EvReadMsg :: t' =>
      match st with
      | Secured => tlsBeforeData net tlsConfig i Secured t'
      | _ => false
      end
  | EvConnClose :: t' => tlsBeforeData net tlsConfig i Closed t'
  | _ :: t' => tlsBeforeData net tlsConfig i st t'
  end.

(** * Properties *)

(** ** The code on small inputs *)

(** The test vectors of RFC 4648, without padding, and three bytes that
    exercise the last two characters of the URL alphabet. *)
Example RawURLEncoding_vectors :
  map (fun s => RawURLEncoding_EncodeToString (Sample.stringBytes s))
      [""; "f"; "fo"; "foo"; "foob"; "fooba"; "foobar"]
  = [""; "Zg"; "Zm8"; "Zm9v"; "Zm9vYg"; "Zm9vYmE"; "Zm9vYmFy"]
  /\ RawURLEncoding_EncodeToString [Byte.xfb; Byte.xff; Byte.xbe] = "-_--".
Proof. vm_compute. split; reflexivity. Qed.

Example Contains_colon :
  Contains "9.9.9.9" ":" = false /\ Contains "9.9.9.9:853" ":" = true
  /\ Contains "" "" = true.
Proof. vm_compute. repeat split. Qed.

(** A default client asked for a name no server answers: four attempts at
    the first server. *)
Example Query_default_client_down :
  Query Sample.lib NewDefault Sample.down 5 "example.com" TypeA
  = ([EvAttempt 0; EvExchange "udp" "223.5.5.5:53"; EvSleep 100000000;
      EvAttempt 1; EvExchange "udp" "223.5.5.5:53"; EvSleep 200000000;
      EvAttempt 2; EvExchange "udp" "223.5.5.5:53"; EvSleep 300000000;
      EvAttempt 3; EvExchange "udp" "223.5.5.5:53"],
     Done (Some (failed "example.com" TypeA "223.5.5.5:53" "i/o timeout #3"),
           Some "i/o timeout #3")).
Proof. vm_compute. reflexivity. Qed.

(** A SOCKS5 proxy in front of a DoT server that answers. *)
Example queryDoT_through_SOCKS5 :
  trace (queryDoT Sample.lib
           (New [WithProtocol DoT; WithSOCKS5Proxy "127.0.0.1:1080" None])
           (Sample.up "93.184.216.34") 5
           (mkMsg true [mkQuestion "example.com." TypeA] []) "9.9.9.9")
  = [EvAttempt 0; EvDial (mkDialer "tcp" "127.0.0.1:1080" None) "9.9.9.9:853";
     EvHandshake; EvWriteMsg; EvReadMsg; EvConnClose].
Proof. vm_compute. reflexivity. Qed.

(** ** Machine integers *)

Lemma wrap64_small (z : Z) : - 2 ^ 63 <= z < 2 ^ 63 -> wrap64 z = z.
Proof.
  intros Hz. unfold wrap64. rewrite Z.mod_small by lia. lia.
Qed.

Lemma int_incr_small (i : Z) : - 2 ^ 63 <= i < MaxInt64 -> int_incr i = i + 1.
Proof.
  intros Hi. unfold int_incr, MaxInt64 in *. apply wrap64_small. lia.
Qed.

Lemma maxLinearRetries_value : maxLinearRetries = 92233720368.
Proof. reflexivity. Qed.

Lemma backoff_linear (i : Z) :
  0 <= i < maxLinearRetries -> backoff i = (i + 1) * (100 * Millisecond).
Proof.
  intros Hi. rewrite maxLinearRetries_value in Hi.
  unfold backoff, Duration_mul.
  rewrite int_incr_small by (unfold MaxInt64; lia).
  rewrite wrap64_small by (unfold Millisecond; lia).
  lia.
Qed.

(** One more retry and the last wait no longer fits: the product wraps to a
    negative duration. *)
Remark backoff_wraps :
  backoff maxLinearRetries = (maxLinearRetries + 1) * (100 * Millisecond) - 2 ^ 64
  /\ backoff maxLinearRetries < 0.
Proof. vm_compute. split; reflexivity. Qed.

(** ** The monad *)

Lemma bind_Done {A B} (m : M A) (f : A -> M B) (a : A) :
  outcome m = Done a ->
  m ≫= f = (trace m ++ trace (f a), outcome (f a)).
Proof.
  destruct m as [t o]. simpl. intros ->.
  unfold mbind, M_bind. destruct (f a) as [t' o']. reflexivity.
Qed.

Lemma bind_emit {B} (e : Event) (k : M B) :
  emit e ≫= (fun _ => k) = (e :: trace k, outcome k).
Proof. destruct k as [t o]. reflexivity. Qed.


(** ** Configuration options *)

Lemma New_app (opts1 opts2 : list Option) :
  New (opts1 ++ opts2) = fold_left (fun config opt => opt config) opts2 (New opts1).
Proof. unfold New. apply fold_left_app. Qed.

Lemma options_keep_Servers (post : list Option) (c : Config) :
  Forall (fun o : Option => forall c', Servers (o c') = Servers c') post ->
  Servers (fold_left (fun config opt => opt config) post c) = Servers c.
Proof.
  intros Hpost. revert c.
  induction Hpost as [|o post Ho _ IH]; intros c; simpl.
  - reflexivity.
  - rewrite IH. apply Ho.
Qed.

(** C10.  [WithProtocol] writes the fields [Protocol] and [Servers], the
    latter with the default list of the protocol family (the DoH list for
    DoH, the DoT list for DoT, the UDP list for everything else), and leaves
    the other seven fields as they were.  Hence, in any option sequence where
    [WithProtocol] comes after [WithServers] and no later option writes the
    servers, the client ends with the protocol's default list, not with the
    custom one. *)
Theorem WithProtocol_overwrites_Servers
    (protocol : Protocol) (c : Config) (servers : list string)
    (pre mid post : list Option) :
  Forall (fun o : Option => forall c', Servers (o c') = Servers c') post ->
  WithProtocol protocol c =
    mkConfig (Timeout c) (Retries c) protocol (protocolServers protocol)
             (ProxyType_ c) (ProxyAddr c) (ProxyAuth_ c) (TLSConfig_ c)
             (HTTPClient_ c)
  /\ protocolServers DoH = DoHServers
  /\ protocolServers DoT = DoTServers
  /\ (protocol <> DoH -> protocol <> DoT -> protocolServers protocol = UDPServers)
  /\ Servers (New (pre ++ WithServers servers :: mid ++ WithProtocol protocol :: post))
     = protocolServers protocol
  /\ Protocol_ (New (pre ++ WithServers servers :: mid ++ [WithProtocol protocol]))
     = protocol.
Proof.
  intros Hpost. repeat split.
  - intros HH HT. unfold protocolServers.
    destruct (String.eqb_spec protocol DoH); [contradiction|].
    destruct (String.eqb_spec protocol DoT); [contradiction|]. reflexivity.
  - rewrite New_app. simpl. rewrite fold_left_app. simpl.
    rewrite options_keep_Servers by assumption. reflexivity.
  - rewrite New_app. simpl. rewrite fold_left_app. reflexivity.
Qed.

Lemma WithProtocol_overwrites_Servers_witness :
  Servers (New ([WithRetries 2] ++ WithServers ["8.8.8.8:53"; "1.1.1.1:53"]
                  :: [WithTimeout (3 * Second)] ++ WithProtocol DoT
                  :: [WithSOCKS5Proxy "127.0.0.1:1080" None]))
  = DoTServers.
Proof.
  refine (proj1 (proj2 (proj2 (proj2 (proj2
    (WithProtocol_overwrites_Servers DoT defaultConfig
       ["8.8.8.8:53"; "1.1.1.1:53"] [WithRetries 2] [WithTimeout (3 * Second)]
       [WithSOCKS5Proxy "127.0.0.1:1080" None] _)))))).
  repeat constructor.
Defined.

(** ** Traces *)

Lemma timeline_app (t1 t2 : list Event) :
  timeline (t1 ++ t2) = timeline t1 ++ timeline t2.
Proof. apply filter_app. Qed.

Lemma timeline_cons (e : Event) (t : list Event) :
  timeline (e :: t) = if isTimeline e then e :: timeline t else timeline t.
Proof.
  unfold timeline. rewrite filter_cons.
  destruct (isTimeline e); reflexivity.
Qed.

Lemma attempts_timeline (t : list Event) : attempts (timeline t) = attempts t.
Proof.
  induction t as [|e t IH]; [reflexivity|].
  rewrite timeline_cons. destruct e; simpl; unfold attempts in *; simpl;
    rewrite ?IH; reflexivity.
Qed.

Lemma waits_timeline (t : list Event) : waits (timeline t) = waits t.
Proof.
  induction t as [|e t IH]; [reflexivity|].
  rewrite timeline_cons. destruct e; simpl; unfold waits in *; simpl;
    rewrite ?IH; reflexivity.
Qed.

Lemma directTargets_app (t1 t2 : list Event) :
  directTargets (t1 ++ t2) = directTargets t1 ++ directTargets t2.
Proof. apply omap_app. Qed.

Lemma proxyTargets_app (t1 t2 : list Event) :
  proxyTargets (t1 ++ t2) = proxyTargets t1 ++ proxyTargets t2.
Proof. apply omap_app. Qed.

Lemma schedule_rounds (n : nat) (i : Z) :
  schedule n i = rounds n i ++ [EvAttempt (i + Z.of_nat n)].
Proof.
  revert i. induction n as [|n IH]; intros i.
  - simpl. do 2 f_equal. lia.
  - cbn [schedule rounds]. rewrite IH.
    replace (i + Z.of_nat (S n)) with (i + 1 + Z.of_nat n) by lia.
    reflexivity.
Qed.

Lemma attempts_rounds (n : nat) (i : Z) :
  attempts (rounds n i) = seqZ i (Z.of_nat n).
Proof.
  revert i. induction n as [|n IH]; intros i.
  - reflexivity.
  - change (attempts (rounds (S n) i)) with (i :: attempts (rounds n (i + 1))).
    rewrite IH. rewrite (seqZ_cons i (Z.of_nat (S n))) by lia.
    replace (Z.pred (Z.of_nat (S n))) with (Z.of_nat n) by lia.
    reflexivity.
Qed.

Lemma waits_rounds (n : nat) (i : Z) :
  waits (rounds n i) = (fun k => k * (100 * Millisecond)) <$> seqZ (i + 1) (Z.of_nat n).
Proof.
  revert i. induction n as [|n IH]; intros i.
  - reflexivity.
  - change (waits (rounds (S n) i))
      with ((i + 1) * (100 * Millisecond) :: waits (rounds n (i + 1))).
    rewrite IH. rewrite (seqZ_cons (i + 1) (Z.of_nat (S n))) by lia.
    replace (Z.pred (Z.of_nat (S n))) with (Z.of_nat n) by lia.
    reflexivity.
Qed.

Lemma attempts_schedule (n : nat) (i : Z) :
  attempts (schedule n i) = seqZ i (Z.of_nat n + 1).
Proof.
  rewrite schedule_rounds. unfold attempts. rewrite omap_app.
  fold (attempts (rounds n i)). rewrite attempts_rounds. simpl.
  rewrite seqZ_app by lia. simpl. reflexivity.
Qed.

Lemma waits_schedule (n : nat) (i : Z) :
  waits (schedule n i) = (fun k => k * (100 * Millisecond)) <$> seqZ (i + 1) (Z.of_nat n).
Proof.
  rewrite schedule_rounds. unfold waits. rewrite omap_app.
  fold (waits (rounds n i)). rewrite waits_rounds. simpl.
  apply app_nil_r.
Qed.

(** ** The operations a retry loop performs *)

Lemma of_result_proper {A} (r : result A) : proper (of_result r).
Proof. destruct r; [left|right]; eexists; reflexivity. Qed.

Ltac case_net :=
  repeat match goal with
         | |- context [Dial ?n ?i ?d ?s] => destruct (Dial n i d s)
         | |- context [Handshake ?n ?i ?c] => destruct (Handshake n i c)
         | |- context [WriteMsg ?n ?i ?m] => destruct (WriteMsg n i m)
         | |- context [ReadMsg ?n ?i] => destruct (ReadMsg n i)
         end;
  cbn [mbind mret M_bind M_ret emit panic trace outcome fst snd app].

Section Operations.

Context (L : Lib) (cfg : Config) (net : Net).

Lemma createDialer_proper : proper (createDialer L cfg).
Proof.
  unfold createDialer. destruct (String.eqb _ _).
  - apply of_result_proper.
  - right. eexists. reflexivity.
Qed.

Lemma exchangeWithProxy_proper (i : Z) (msg : Msg) (server : string) :
  exists r, outcome (exchangeWithProxy L cfg net i msg server) = Done r /\ proper r.
Proof.
  unfold exchangeWithProxy.
  destruct createDialer_proper as [[d ->]|[e ->]].
  - case_net; eexists; (split; [reflexivity|]);
      first [left; eexists; reflexivity | right; eexists; reflexivity].
  - eexists. split; [reflexivity|]. right. eexists. reflexivity.
Qed.

Lemma exchangeDoTWithProxy_proper (i : Z) (msg : Msg) (server : string)
    (tlsConfig : TLSConfig) :
  exists r, outcome (exchangeDoTWithProxy L cfg net i msg server tlsConfig) = Done r
            /\ proper r.
Proof.
  unfold exchangeDoTWithProxy.
  destruct createDialer_proper as [[d ->]|[e ->]].
  - case_net; eexists; (split; [reflexivity|]);
      first [left; eexists; reflexivity | right; eexists; reflexivity].
  - eexists. split; [reflexivity|]. right. eexists. reflexivity.
Qed.

Lemma exchangeUDPTCP_proper (i : Z) (msg : Msg) (server : string) :
  exists r, outcome (exchangeUDPTCP L cfg net i msg server) = Done r /\ proper r.
Proof.
  unfold exchangeUDPTCP. destruct (negb _).
  - apply exchangeWithProxy_proper.
  - eexists. split; [reflexivity|]. apply of_result_proper.
Qed.

Lemma exchangeDoT_proper (i : Z) (msg : Msg) (server : string) (tlsConfig : TLSConfig) :
  exists r, outcome (exchangeDoT L cfg net i msg server tlsConfig) = Done r /\ proper r.
Proof.
  unfold exchangeDoT. destruct (negb _).
  - apply exchangeDoTWithProxy_proper.
  - eexists. split; [reflexivity|]. apply of_result_proper.
Qed.

Lemma exchangeWithProxy_timeline (i : Z) (msg : Msg) (server : string) :
  timeline (trace (exchangeWithProxy L cfg net i msg server)) = [].
Proof.
  unfold exchangeWithProxy.
  destruct createDialer_proper as [[d ->]|[e ->]]; [|reflexivity].
  case_net; reflexivity.
Qed.

Lemma exchangeUDPTCP_timeline (i : Z) (msg : Msg) (server : string) :
  timeline (trace (exchangeUDPTCP L cfg net i msg server)) = [].
Proof.
  unfold exchangeUDPTCP. destruct (negb _).
  - apply exchangeWithProxy_timeline.
  - reflexivity.
Qed.

End Operations.

(** ** The retry loop of [queryUDPTCP], one iteration at a time *)

Section RetryLoop.

Context (L : Lib) (cfg : Config) (net : Net) (msg : Msg) (server : string).

Local Abbreviation op i := (exchangeUDPTCP L cfg net i msg server).
Local Abbreviation loop fuel i lastErr :=
  (queryUDPTCP_loop L cfg net fuel msg server i lastErr).

Lemma loop_exit (fuel : nat) (i : Z) (lastErr : option error) :
  Retries cfg < i -> loop (S fuel) i lastErr = ([], Done (None, lastErr)).
Proof.
  intros Hi. cbn [queryUDPTCP_loop].
  destruct (Z.leb_spec i (Retries cfg)); [lia|]. reflexivity.
Qed.

Lemma loop_success (fuel : nat) (i : Z) (lastErr : option error) (response : option Msg) :
  i <= Retries cfg ->
  outcome (op i) = Done (response, None) ->
  loop (S fuel) i lastErr = (EvAttempt i :: trace (op i), Done (response, None)).
Proof.
  intros Hi Hop. cbn [queryUDPTCP_loop].
  destruct (Z.leb_spec i (Retries cfg)); [|lia].
  rewrite bind_emit, (bind_Done _ _ _ Hop). cbn [trace outcome fst snd mret M_ret].
  rewrite app_nil_r. reflexivity.
Qed.

Lemma loop_wait (fuel : nat) (i : Z) (lastErr : option error) (r : option Msg) (e : error) :
  i < Retries cfg ->
  outcome (op i) = Done (r, Some e) ->
  ctxDone net i = false ->
  loop (S fuel) i lastErr =
    (EvAttempt i :: trace (op i) ++ EvSleep (backoff i)
       :: trace (loop fuel (int_incr i) (Some e)),
     outcome (loop fuel (int_incr i) (Some e))).
Proof.
  intros Hi Hop Hctx. cbn [queryUDPTCP_loop].
  destruct (Z.leb_spec i (Retries cfg)); [|lia].
  rewrite bind_emit, (bind_Done _ _ _ Hop). cbn [trace outcome fst snd].
  destruct (Z.ltb_spec i (Retries cfg)); [|lia].
  unfold selectBackoff. rewrite Hctx.
  destruct (queryUDPTCP_loop _ _ _ _ _ _ _ _) as [t o].
  reflexivity.
Qed.

Lemma loop_cancel (fuel : nat) (i : Z) (lastErr : option error) (r : option Msg) (e : error) :
  i < Retries cfg ->
  outcome (op i) = Done (r, Some e) ->
  ctxDone net i = true ->
  loop (S fuel) i lastErr =
    (EvAttempt i :: trace (op i) ++ [EvCtxDone (backoff i)],
     Done (None, Some (ctxErr net))).
Proof.
  intros Hi Hop Hctx. cbn [queryUDPTCP_loop].
  destruct (Z.leb_spec i (Retries cfg)); [|lia].
  rewrite bind_emit, (bind_Done _ _ _ Hop). cbn [trace outcome fst snd].
  destruct (Z.ltb_spec i (Retries cfg)); [|lia].
  unfold selectBackoff. rewrite Hctx. reflexivity.
Qed.

Lemma loop_last (fuel : nat) (i : Z) (lastErr : option error) (r : option Msg) (e : error) :
  i = Retries cfg ->
  outcome (op i) = Done (r, Some e) ->
  loop (S fuel) i lastErr =
    (EvAttempt i :: trace (op i) ++ trace (loop fuel (int_incr i) (Some e)),
     outcome (loop fuel (int_incr i) (Some e))).
Proof.
  intros Hi Hop. cbn [queryUDPTCP_loop].
  destruct (Z.leb_spec i (Retries cfg)); [|lia].
  rewrite bind_emit, (bind_Done _ _ _ Hop). cbn [trace outcome fst snd].
  destruct (Z.ltb_spec i (Retries cfg)); [lia|].
  destruct (queryUDPTCP_loop _ _ _ _ _ _ _ _) as [t o].
  reflexivity.
Qed.

(** The timeline of one iteration: the operation itself adds nothing to it. *)
Lemma timeline_iteration (i : Z) (t : list Event) :
  timeline (EvAttempt i :: trace (op i) ++ t) = EvAttempt i :: timeline t.
Proof.
  rewrite timeline_cons. cbn [isTimeline].
  rewrite timeline_app, exchangeUDPTCP_timeline. reflexivity.
Qed.

(** [n] failing attempts, each followed by its full wait, lead the loop from
    [i] to [i + n]. *)
Lemma loop_rounds (errs : Z -> error) (n : nat) :
  forall (fuel : nat) (i : Z) (lastErr : option error),
    0 <= i ->
    i + Z.of_nat n <= Retries cfg ->
    Retries cfg <= maxLinearRetries ->
    (forall j, i <= j < i + Z.of_nat n ->
               outcome (op j) = Done (None, Some (errs j))) ->
    (forall j, i <= j < i + Z.of_nat n -> ctxDone net j = false) ->
    exists lastErr',
      outcome (loop (n + fuel) i lastErr)
      = outcome (loop fuel (i + Z.of_nat n) lastErr')
      /\ timeline (trace (loop (n + fuel) i lastErr))
         = rounds n i ++ timeline (trace (loop fuel (i + Z.of_nat n) lastErr')).
Proof.
  induction n as [|n IH]; intros fuel i lastErr Hi HR Hmax Hfail Hctx.
  - exists lastErr. replace (i + Z.of_nat 0) with i by lia. split; reflexivity.
  - assert (Hi1 : i < Retries cfg) by lia.
    destruct (IH fuel (i + 1) (Some (errs i))) as (lastErr' & Ho & Ht);
      try lia.
    { intros j Hj. apply Hfail. lia. }
    { intros j Hj. apply Hctx. lia. }
    exists lastErr'.
    replace (i + Z.of_nat (S n)) with (i + 1 + Z.of_nat n) by lia.
    change (S n + fuel)%nat with (S (n + fuel)).
    rewrite (loop_wait _ _ _ None (errs i)); [|lia|apply Hfail; lia|apply Hctx; lia].
    rewrite int_incr_small
      by (pose proof maxLinearRetries_value; unfold MaxInt64; lia).
    cbn [trace outcome fst snd]. split; [exact Ho|].
    rewrite timeline_iteration. cbn [rounds].
    rewrite timeline_cons. cbn [isTimeline].
    rewrite backoff_linear by lia. rewrite Ht. reflexivity.
Qed.

End RetryLoop.

(** ** Retry bound, success and cancellation of [queryUDPTCP] *)

Section RetryBound.

Context (L : Lib) (cfg : Config) (net : Net) (msg : Msg) (server : string).

Local Abbreviation op i := (exchangeUDPTCP L cfg net i msg server).
Local Abbreviation loop fuel i lastErr :=
  (queryUDPTCP_loop L cfg net fuel msg server i lastErr).

Lemma fuel_split (fuel : nat) (k : Z) (extra : nat) :
  0 <= k -> k + Z.of_nat extra <= Z.of_nat fuel ->
  exists rest, fuel = (Z.to_nat k + (extra + rest))%nat.
Proof.
  intros Hk Hf. exists (fuel - Z.to_nat k - extra)%nat. lia.
Qed.

(** All attempts fail and every wait is served. *)
Lemma queryUDPTCP_exhausted (fuel : nat) (errs : Z -> error) :
  0 <= Retries cfg <= maxLinearRetries ->
  Retries cfg + 1 < Z.of_nat fuel ->
  (forall i, 0 <= i < Retries cfg -> ctxDone net i = false) ->
  (forall i, 0 <= i <= Retries cfg -> outcome (op i) = Done (None, Some (errs i))) ->
  outcome (queryUDPTCP L cfg net fuel msg server) = Done (None, Some (errs (Retries cfg)))
  /\ timeline (trace (queryUDPTCP L cfg net fuel msg server))
     = schedule (Z.to_nat (Retries cfg)) 0.
Proof.
  intros HR Hfuel Hctx Hfail. unfold queryUDPTCP.
  destruct (fuel_split fuel (Retries cfg) 2) as [rest ->]; [lia|lia|].
  set (n := Z.to_nat (Retries cfg)).
  assert (Hn : Z.of_nat n = Retries cfg) by (unfold n; lia).
  destruct (loop_rounds L cfg net msg server errs n (2 + rest) 0 None)
    as (lastErr' & Ho & Ht); try lia.
  { intros j Hj. apply Hfail. lia. }
  { intros j Hj. apply Hctx. lia. }
  rewrite Ho, Ht. replace (0 + Z.of_nat n) with (Retries cfg) by lia.
  change (2 + rest)%nat with (S (S rest)).
  rewrite (loop_last _ _ _ _ _ _ _ _ None (errs (Retries cfg)));
    [|reflexivity|apply Hfail; lia].
  rewrite int_incr_small
    by (pose proof maxLinearRetries_value; unfold MaxInt64; lia).
  rewrite loop_exit by lia. cbn [trace outcome fst snd].
  split; [reflexivity|].
  rewrite app_nil_r, <- (app_nil_r (trace _)), timeline_iteration.
  rewrite schedule_rounds. replace (0 + Z.of_nat n) with (Retries cfg) by lia.
  reflexivity.
Qed.

(** Attempts [0..k-1] fail with served waits, attempt [k] succeeds. *)
Lemma queryUDPTCP_succeeds_at (fuel : nat) (errs : Z -> error) (k : Z) (response : Msg) :
  0 <= k <= Retries cfg ->
  Retries cfg <= maxLinearRetries ->
  k < Z.of_nat fuel ->
  (forall i, 0 <= i < k -> ctxDone net i = false) ->
  (forall i, 0 <= i < k -> outcome (op i) = Done (None, Some (errs i))) ->
  outcome (op k) = Done (Some response, None) ->
  outcome (queryUDPTCP L cfg net fuel msg server) = Done (Some response, None)
  /\ timeline (trace (queryUDPTCP L cfg net fuel msg server)) = schedule (Z.to_nat k) 0.
Proof.
  intros Hk HR Hfuel Hctx Hfail Hok. unfold queryUDPTCP.
  destruct (fuel_split fuel k 1) as [rest ->]; [lia|lia|].
  set (n := Z.to_nat k).
  assert (Hn : Z.of_nat n = k) by (unfold n; lia).
  destruct (loop_rounds L cfg net msg server errs n (1 + rest) 0 None)
    as (lastErr' & Ho & Ht); try lia.
  { intros j Hj. apply Hfail. lia. }
  { intros j Hj. apply Hctx. lia. }
  rewrite Ho, Ht. replace (0 + Z.of_nat n) with k by lia.
  change (1 + rest)%nat with (S rest).
  rewrite (loop_success _ _ _ _ _ _ _ _ (Some response)); [|lia|exact Hok].
  cbn [trace outcome fst snd]. split; [reflexivity|].
  rewrite <- (app_nil_r (trace _)), timeline_iteration.
  rewrite schedule_rounds. replace (0 + Z.of_nat n) with k by lia.
  reflexivity.
Qed.

(** Attempts [0..k] fail, the waits before attempt [k] are served, and the
    context is done during the wait that follows attempt [k]. *)
Lemma queryUDPTCP_cancelled_at (fuel : nat) (errs : Z -> error) (k : Z) :
  0 <= k < Retries cfg ->
  Retries cfg <= maxLinearRetries ->
  k < Z.of_nat fuel ->
  (forall i, 0 <= i < k -> ctxDone net i = false) ->
  ctxDone net k = true ->
  (forall i, 0 <= i <= k -> outcome (op i) = Done (None, Some (errs i))) ->
  outcome (queryUDPTCP L cfg net fuel msg server) = Done (None, Some (ctxErr net))
  /\ timeline (trace (queryUDPTCP L cfg net fuel msg server))
     = schedule (Z.to_nat k) 0 ++ [EvCtxDone ((k + 1) * (100 * Millisecond))].
Proof.
  intros Hk HR Hfuel Hctx Hdone Hfail. unfold queryUDPTCP.
  destruct (fuel_split fuel k 1) as [rest ->]; [lia|lia|].
  set (n := Z.to_nat k).
  assert (Hn : Z.of_nat n = k) by (unfold n; lia).
  destruct (loop_rounds L cfg net msg server errs n (1 + rest) 0 None)
    as (lastErr' & Ho & Ht); try lia.
  { intros j Hj. apply Hfail. lia. }
  { intros j Hj. apply Hctx. lia. }
  rewrite Ho, Ht. replace (0 + Z.of_nat n) with k by lia.
  change (1 + rest)%nat with (S rest).
  rewrite (loop_cancel _ _ _ _ _ _ _ _ None (errs k)); [|lia|apply Hfail; lia|exact Hdone].
  cbn [trace outcome fst snd]. split; [reflexivity|].
  rewrite timeline_iteration. rewrite backoff_linear by lia.
  rewrite schedule_rounds. replace (0 + Z.of_nat n) with k by lia.
  rewrite <- app_assoc. reflexivity.
Qed.

End RetryBound.

(** ** Every run of the loop of [queryUDPTCP] ends *)

Section RetryEnds.

Context (L : Lib) (cfg : Config) (net : Net) (msg : Msg) (server : string).

Local Abbreviation op i := (exchangeUDPTCP L cfg net i msg server).
Local Abbreviation loop fuel i lastErr :=
  (queryUDPTCP_loop L cfg net fuel msg server i lastErr).

(** Whatever the world does, the loop returns: the answer of an attempt that
    succeeded, or else the context's error or the error of an attempt. *)
Lemma queryUDPTCP_loop_ends (n : nat) :
  forall (fuel : nat) (i : Z) (lastErr : option error),
    0 <= i ->
    i + Z.of_nat n = Retries cfg ->
    Retries cfg < MaxInt64 ->
    (n + 2 <= fuel)%nat ->
    (exists j m, i <= j <= Retries cfg
                 /\ outcome (op j) = Done (Some m, None)
                 /\ outcome (loop fuel i lastErr) = Done (Some m, None))
    \/ (exists e, outcome (loop fuel i lastErr) = Done (None, Some e)
                  /\ (e = ctxErr net
                      \/ exists j, i <= j <= Retries cfg
                                   /\ outcome (op j) = Done (None, Some e))).
Proof.
  induction n as [|n IH]; intros fuel i lastErr Hi HR Hmax Hfuel;
    (destruct fuel as [|fuel]; [lia|]);
    destruct (exchangeUDPTCP_proper L cfg net i msg server) as (r & Hop & [[m ->]|[e ->]]).
  - left. exists i, m. rewrite (loop_success _ _ _ _ _ _ _ _ (Some m)) by (lia || exact Hop).
    repeat split; try lia; assumption.
  - right. exists e.
    rewrite (loop_last _ _ _ _ _ _ _ _ None e) by (lia || exact Hop).
    rewrite int_incr_small by (unfold MaxInt64 in *; lia).
    destruct fuel as [|fuel]; [lia|]. rewrite loop_exit by lia.
    split; [reflexivity|]. right. exists i. split; [lia|exact Hop].
  - left. exists i, m. rewrite (loop_success _ _ _ _ _ _ _ _ (Some m)) by (lia || exact Hop).
    repeat split; try lia; assumption.
  - destruct (ctxDone net i) eqn:Hctx.
    + right. exists (ctxErr net).
      rewrite (loop_cancel _ _ _ _ _ _ _ _ None e) by (lia || assumption).
      split; [reflexivity|]. left. reflexivity.
    + rewrite (loop_wait _ _ _ _ _ _ _ _ None e) by (lia || assumption).
      rewrite int_incr_small by (unfold MaxInt64 in *; lia).
      cbn [outcome snd].
      destruct (IH fuel (i + 1) (Some e)) as [(j & m & Hj & Hm & Ho)|(e' & Ho & He')];
        try lia.
      * left. exists j, m. repeat split; try lia; assumption.
      * right. exists e'. split; [exact Ho|].
        destruct He' as [->|(j & Hj & Hje)]; [left; reflexivity|].
        right. exists j. split; [lia|exact Hje].
Qed.

Lemma queryUDPTCP_ends (fuel : nat) :
  0 <= Retries cfg < MaxInt64 ->
  Retries cfg + 1 < Z.of_nat fuel ->
  exists r, outcome (queryUDPTCP L cfg net fuel msg server) = Done r /\ proper r.
Proof.
  intros HR Hfuel. unfold queryUDPTCP.
  destruct (queryUDPTCP_loop_ends (Z.to_nat (Retries cfg)) fuel 0 None)
    as [(j & m & _ & _ & Ho)|(e & Ho & _)]; try lia.
  - exists (Some m, None). split; [exact Ho|]. left. eexists. reflexivity.
  - exists (None, Some e). split; [exact Ho|]. right. eexists. reflexivity.
Qed.

(** When every operation fails without touching the network, so does the
    whole query: its trace is its timeline. *)
Lemma queryUDPTCP_loop_offline (e : error) (fuel : nat) :
  (forall i, op i = ([], Done (None, Some e))) ->
  forall (i : Z) (lastErr : option error),
    timeline (trace (loop fuel i lastErr)) = trace (loop fuel i lastErr).
Proof.
  intros Hop. induction fuel as [|fuel IH]; intros i lastErr.
  - reflexivity.
  - cbn [queryUDPTCP_loop]. destruct (i <=? Retries cfg); [|reflexivity].
    rewrite bind_emit, Hop. cbn [mbind M_bind].
    destruct (i <? Retries cfg).
    + unfold selectBackoff. destruct (ctxDone net i).
      * reflexivity.
      * specialize (IH (int_incr i) (Some e)).
        destruct (queryUDPTCP_loop _ _ _ _ _ _ _ _) as [t o].
        cbn [mbind M_bind mret M_ret emit trace fst snd app] in *.
        rewrite !timeline_cons. cbn [isTimeline]. rewrite IH. reflexivity.
    + specialize (IH (int_incr i) (Some e)).
      destruct (queryUDPTCP_loop _ _ _ _ _ _ _ _) as [t o].
      cbn [mbind M_bind mret M_ret emit trace fst snd app] in *.
      rewrite !timeline_cons. cbn [isTimeline]. rewrite IH. reflexivity.
Qed.

End RetryEnds.

Lemma timeline_no_targets (t : list Event) :
  directTargets (timeline t) = [] /\ proxyTargets (timeline t) = []
  /\ requests (timeline t) = [].
Proof.
  induction t as [|ev t (IH1 & IH2 & IH3)]; [repeat split|].
  rewrite timeline_cons. destruct ev; cbn [isTimeline]; auto.
Qed.

(** With an HTTP proxy configured, the operation of [queryUDPTCP] is the
    failure of [createDialer] and nothing else. *)
Lemma exchangeUDPTCP_HTTPProxy (L : Lib) (cfg : Config) (net : Net) (i : Z)
    (msg : Msg) (server : string) :
  ProxyType_ cfg = HTTPProxy ->
  exchangeUDPTCP L cfg net i msg server
  = ([], Done (None, Some "failed to create proxy dialer: unsupported proxy type for dialer: http")).
Proof.
  intros HP. unfold exchangeUDPTCP, exchangeWithProxy, createDialer.
  rewrite HP. reflexivity.
Qed.

(** * The claims about the retry engine *)

(** C2.  With a retry count [R] between 0 and [maxLinearRetries] (the counts
    whose longest wait, [R] times 100ms, fits a [time.Duration]) and a context
    that is not done during the waits: when the operation of [queryUDPTCP]
    fails at every attempt, the query makes exactly the attempts 0..R, waits
    100ms, 200ms, ..., R*100ms between consecutive attempts and not after the
    last, and returns the error of attempt R; when attempt [k] is the first
    to succeed, the query returns its answer and attempt [k] is the last. *)
Theorem queryUDPTCP_retry_bound (L : Lib) (cfg : Config) (net : Net) (fuel : nat)
    (msg : Msg) (server : string) (errs : Z -> error) :
  0 <= Retries cfg <= maxLinearRetries ->
  Retries cfg + 1 < Z.of_nat fuel ->
  (forall i, 0 <= i < Retries cfg -> ctxDone net i = false) ->
  ((forall i, 0 <= i <= Retries cfg ->
      outcome (exchangeUDPTCP L cfg net i msg server) = Done (None, Some (errs i))) ->
   outcome (queryUDPTCP L cfg net fuel msg server)
     = Done (None, Some (errs (Retries cfg)))
   /\ timeline (trace (queryUDPTCP L cfg net fuel msg server))
      = schedule (Z.to_nat (Retries cfg)) 0
   /\ attempts (trace (queryUDPTCP L cfg net fuel msg server))
      = seqZ 0 (Retries cfg + 1)
   /\ waits (trace (queryUDPTCP L cfg net fuel msg server))
      = (fun k => k * (100 * Millisecond)) <$> seqZ 1 (Retries cfg))
  /\ (forall (k : Z) (response : Msg),
        0 <= k <= Retries cfg ->
        (forall i, 0 <= i < k ->
           outcome (exchangeUDPTCP L cfg net i msg server) = Done (None, Some (errs i))) ->
        outcome (exchangeUDPTCP L cfg net k msg server) = Done (Some response, None) ->
        outcome (queryUDPTCP L cfg net fuel msg server) = Done (Some response, None)
        /\ timeline (trace (queryUDPTCP L cfg net fuel msg server))
           = schedule (Z.to_nat k) 0
        /\ attempts (trace (queryUDPTCP L cfg net fuel msg server)) = seqZ 0 (k + 1)).
Proof.
  intros HR Hfuel Hctx. split.
  - intros Hfail.
    destruct (queryUDPTCP_exhausted L cfg net msg server fuel errs HR Hfuel Hctx Hfail)
      as [Ho Ht].
    split; [exact Ho|]. split; [exact Ht|].
    rewrite <- attempts_timeline, <- waits_timeline, Ht.
    rewrite attempts_schedule, waits_schedule.
    replace (Z.of_nat (Z.to_nat (Retries cfg))) with (Retries cfg) by lia.
    split; reflexivity.
  - intros k response Hk Hfail Hok.
    destruct (queryUDPTCP_succeeds_at L cfg net msg server fuel errs k response)
      as [Ho Ht]; try assumption; try lia.
    { intros i Hi. apply Hctx. lia. }
    split; [exact Ho|]. split; [exact Ht|].
    rewrite <- attempts_timeline, Ht, attempts_schedule.
    replace (Z.of_nat (Z.to_nat k)) with k by lia. reflexivity.
Qed.

Lemma queryUDPTCP_retry_bound_witness :
  let q := queryUDPTCP Sample.lib defaultConfig Sample.down 5
             (mkMsg true [mkQuestion "example.com." TypeA] []) "8.8.8.8:53" in
  outcome q = Done (None, Some "i/o timeout #3")
  /\ attempts (trace q) = [0; 1; 2; 3]
  /\ waits (trace q) = [100000000; 200000000; 300000000].
Proof.
  destruct (queryUDPTCP_retry_bound Sample.lib defaultConfig Sample.down 5
              (mkMsg true [mkQuestion "example.com." TypeA] []) "8.8.8.8:53"
              (fun i => "i/o timeout #" +:+ pretty i)) as [Hall _].
  - vm_compute. split; discriminate.
  - vm_compute. reflexivity.
  - intros i _. reflexivity.
  - destruct Hall as (Ho & _ & Ha & Hw).
    + intros i _. reflexivity.
    + split; [exact Ho|]. split; [exact Ha|exact Hw].
Defined.

(** C5.  When the context is done while [queryUDPTCP] waits after the failed
    attempt [k] (a wait exists only for [k] below the retry count), the query
    returns [ctx.Err()], whatever the error of attempt [k] was; the wait of
    (k+1)*100ms is abandoned, not served, and no attempt follows. *)
Theorem queryUDPTCP_cancelled_in_backoff (L : Lib) (cfg : Config) (net : Net)
    (fuel : nat) (msg : Msg) (server : string) (errs : Z -> error) (k : Z) :
  0 <= k < Retries cfg ->
  Retries cfg <= maxLinearRetries ->
  k < Z.of_nat fuel ->
  (forall i, 0 <= i < k -> ctxDone net i = false) ->
  ctxDone net k = true ->
  (forall i, 0 <= i <= k ->
     outcome (exchangeUDPTCP L cfg net i msg server) = Done (None, Some (errs i))) ->
  outcome (queryUDPTCP L cfg net fuel msg server) = Done (None, Some (ctxErr net))
  /\ timeline (trace (queryUDPTCP L cfg net fuel msg server))
     = schedule (Z.to_nat k) 0 ++ [EvCtxDone ((k + 1) * (100 * Millisecond))]
  /\ attempts (trace (queryUDPTCP L cfg net fuel msg server)) = seqZ 0 (k + 1)
  /\ waits (trace (queryUDPTCP L cfg net fuel msg server))
     = (fun j => j * (100 * Millisecond)) <$> seqZ 1 k.
Proof.
  intros Hk HR Hfuel Hctx Hdone Hfail.
  destruct (queryUDPTCP_cancelled_at L cfg net msg server fuel errs k)
    as [Ho Ht]; try assumption.
  split; [exact Ho|]. split; [exact Ht|].
  rewrite <- attempts_timeline, <- waits_timeline, Ht.
  unfold attempts, waits. rewrite !omap_app.
  fold (attempts (schedule (Z.to_nat k) 0)). fold (waits (schedule (Z.to_nat k) 0)).
  rewrite attempts_schedule, waits_schedule. cbn [omap].
  rewrite !app_nil_r.
  replace (Z.of_nat (Z.to_nat k)) with k by lia. split; reflexivity.
Qed.

Lemma queryUDPTCP_cancelled_in_backoff_witness :
  let q := queryUDPTCP Sample.lib defaultConfig (Sample.cancelledAfter 1) 5
             (mkMsg true [mkQuestion "example.com." TypeA] []) "8.8.8.8:53" in
  outcome q = Done (None, Some "context canceled")
  /\ timeline (trace q)
     = [EvAttempt 0; EvSleep 100000000; EvAttempt 1; EvCtxDone 200000000].
Proof.
  destruct (queryUDPTCP_cancelled_in_backoff Sample.lib defaultConfig
              (Sample.cancelledAfter 1) 5
              (mkMsg true [mkQuestion "example.com." TypeA] []) "8.8.8.8:53"
              (fun i => "i/o timeout #" +:+ pretty i) 1) as (Ho & Ht & _).
  - vm_compute. split; [discriminate|reflexivity].
  - vm_compute. discriminate.
  - vm_compute. reflexivity.
  - intros i Hi. assert (i = 0) as -> by lia. reflexivity.
  - reflexivity.
  - intros i _. reflexivity.
  - split; [exact Ho|exact Ht].
Defined.

(** C6, as stated, fails: with the default three retries, the UDP protocol
    and an HTTP proxy, the query makes four attempts separated by three waits
    before it returns the error, not one attempt without wait. *)
Lemma queryUDPTCP_HTTPProxy_is_retried :
  let cfg := WithHTTPProxy "127.0.0.1:8080" None defaultConfig in
  let q := queryUDPTCP Sample.lib cfg Sample.down 5
             (mkMsg true [mkQuestion "example.com." TypeA] []) "8.8.8.8:53" in
  Protocol_ cfg = UDP
  /\ ProxyType_ cfg = HTTPProxy
  /\ outcome q
     = Done (None, Some "failed to create proxy dialer: unsupported proxy type for dialer: http")
  /\ attempts (trace q) = [0; 1; 2; 3]
  /\ waits (trace q) = [100000000; 200000000; 300000000]
  /\ ~ (length (attempts (trace q)) = 1%nat /\ waits (trace q) = []).
Proof.
  vm_compute. repeat split; try reflexivity.
  intros [H _]. discriminate H.
Qed.

(** C6, amended.  With an HTTP proxy configured, [queryUDPTCP] never opens a
    connection, neither directly nor through a proxy: each attempt is the
    failure of [createDialer], "unsupported proxy type for dialer: http".
    That error is retried like any other: unless the context is done during
    a wait, the query makes the attempts 0..R with the waits 100ms, ...,
    R*100ms and returns the error; if the context is done during a wait, it
    returns [ctx.Err()]. *)
Theorem queryUDPTCP_HTTPProxy_unsupported (L : Lib) (cfg : Config) (net : Net)
    (fuel : nat) (msg : Msg) (server : string) :
  ProxyType_ cfg = HTTPProxy ->
  0 <= Retries cfg <= maxLinearRetries ->
  Retries cfg + 1 < Z.of_nat fuel ->
  directTargets (trace (queryUDPTCP L cfg net fuel msg server)) = []
  /\ proxyTargets (trace (queryUDPTCP L cfg net fuel msg server)) = []
  /\ (exists e,
        outcome (queryUDPTCP L cfg net fuel msg server) = Done (None, Some e)
        /\ (e = ctxErr net
            \/ e = "failed to create proxy dialer: unsupported proxy type for dialer: http"))
  /\ ((forall i, 0 <= i < Retries cfg -> ctxDone net i = false) ->
      outcome (queryUDPTCP L cfg net fuel msg server)
      = Done (None, Some "failed to create proxy dialer: unsupported proxy type for dialer: http")
      /\ attempts (trace (queryUDPTCP L cfg net fuel msg server))
         = seqZ 0 (Retries cfg + 1)
      /\ waits (trace (queryUDPTCP L cfg net fuel msg server))
         = (fun k => k * (100 * Millisecond)) <$> seqZ 1 (Retries cfg)).
Proof.
  intros HP HR Hfuel.
  pose proof (fun i => exchangeUDPTCP_HTTPProxy L cfg net i msg server HP) as Hop.
  pose proof (queryUDPTCP_loop_offline L cfg net msg server _ fuel Hop 0 None) as Hoff.
  fold (queryUDPTCP L cfg net fuel msg server) in Hoff.
  split; [rewrite <- Hoff; apply timeline_no_targets|].
  split; [rewrite <- Hoff; apply timeline_no_targets|].
  split.
  - unfold queryUDPTCP.
    destruct (queryUDPTCP_loop_ends L cfg net msg server (Z.to_nat (Retries cfg)) fuel 0 None)
      as [(j & m & _ & Hm & _)|(e & Ho & He)];
      try (pose proof maxLinearRetries_value; unfold MaxInt64; lia).
    + rewrite Hop in Hm. discriminate Hm.
    + exists e. split; [exact Ho|].
      destruct He as [->|(j & _ & Hj)]; [left; reflexivity|].
      rewrite Hop in Hj. right. cbn [outcome snd] in Hj. congruence.
  - intros Hctx.
    destruct (queryUDPTCP_exhausted L cfg net msg server fuel
                (fun _ => "failed to create proxy dialer: unsupported proxy type for dialer: http")
                HR Hfuel Hctx) as [Ho Ht].
    { intros i _. rewrite Hop. reflexivity. }
    split; [exact Ho|].
    rewrite <- attempts_timeline, <- waits_timeline, Ht.
    rewrite attempts_schedule, waits_schedule.
    replace (Z.of_nat (Z.to_nat (Retries cfg))) with (Retries cfg) by lia.
    split; reflexivity.
Qed.

Lemma queryUDPTCP_HTTPProxy_unsupported_witness :
  directTargets
    (trace (queryUDPTCP Sample.lib (WithHTTPProxy "127.0.0.1:8080" None defaultConfig)
              (Sample.up "93.184.216.34") 5
              (mkMsg true [mkQuestion "example.com." TypeA] []) "8.8.8.8:53")) = [].
Proof.
  refine (proj1 (queryUDPTCP_HTTPProxy_unsupported Sample.lib
                   (WithHTTPProxy "127.0.0.1:8080" None defaultConfig)
                   (Sample.up "93.184.216.34") 5
                   (mkMsg true [mkQuestion "example.com." TypeA] []) "8.8.8.8:53" _ _ _)).
  - reflexivity.
  - vm_compute. split; discriminate.
  - vm_compute. reflexivity.
Defined.

(** * The DoT strategy and its port *)

Lemma aimsAt_app (server : string) (t1 t2 : list Event) :
  aimsAt server t1 -> aimsAt server t2 -> aimsAt server (t1 ++ t2).
Proof.
  intros [H1 H2] [H3 H4]. split.
  - rewrite directTargets_app. apply Forall_app. split; assumption.
  - rewrite proxyTargets_app. apply Forall_app. split; assumption.
Qed.

Lemma aimsAt_timeline_event (server : string) (e : Event) (t : list Event) :
  isTimeline e = true -> aimsAt server t -> aimsAt server (e :: t).
Proof.
  intros He Ht. destruct e; try discriminate He; exact Ht.
Qed.

Section DoTPort.

Context (L : Lib) (cfg : Config) (net : Net).

Lemma exchangeDoT_aimsAt (i : Z) (msg : Msg) (server : string) (tlsConfig : TLSConfig) :
  aimsAt server (trace (exchangeDoT L cfg net i msg server tlsConfig)).
Proof.
  unfold exchangeDoT. destruct (negb _).
  - unfold exchangeDoTWithProxy.
    destruct (createDialer_proper L cfg) as [[d ->]|[e ->]].
    + case_net; split; repeat constructor.
    + split; constructor.
  - split; repeat constructor.
Qed.

Lemma queryDoT_loop_aimsAt (fuel : nat) (msg : Msg) (server : string)
    (tlsConfig : TLSConfig) :
  forall (i : Z) (lastErr : option error),
    aimsAt server (trace (queryDoT_loop L cfg net fuel msg server tlsConfig i lastErr)).
Proof.
  induction fuel as [|fuel IH]; intros i lastErr.
  - split; constructor.
  - cbn [queryDoT_loop]. destruct (i <=? Retries cfg); [|split; constructor].
    rewrite bind_emit. cbn [trace fst].
    apply aimsAt_timeline_event; [reflexivity|].
    pose proof (exchangeDoT_aimsAt i msg server tlsConfig) as Hop.
    destruct (exchangeDoT_proper L cfg net i msg server tlsConfig)
      as (r & Ho & [[m ->]|[e ->]]);
      rewrite (bind_Done _ _ _ Ho); cbn [trace fst].
    + apply aimsAt_app; [exact Hop|split; constructor].
    + apply aimsAt_app; [exact Hop|].
      destruct (i <? Retries cfg).
      * unfold selectBackoff. destruct (ctxDone net i).
        -- split; constructor.
        -- specialize (IH (int_incr i) (Some e)).
           destruct (queryDoT_loop _ _ _ _ _ _ _ _ _) as [t o].
           cbn [mbind M_bind mret M_ret emit trace fst snd app] in *.
           apply aimsAt_timeline_event; [reflexivity|exact IH].
      * apply IH.
Qed.

End DoTPort.

Lemma splitLastColon_Contains (s : string) :
  is_Some (splitLastColon s) -> Contains s ":" = true.
Proof.
  induction s as [|c s IH]; intros [x Hx]; [discriminate Hx|].
  cbn [splitLastColon] in Hx. cbn [Contains].
  destruct (splitLastColon s) as [[h p]|].
  - rewrite IH by eauto. apply orb_true_r.
  - destruct (Ascii.eqb_spec c ":"%char) as [->|]; [|discriminate Hx].
    destruct s; reflexivity.
Qed.

Lemma carriesPort_Contains (s : string) :
  carriesPort s = true -> Contains s ":" = true.
Proof.
  unfold carriesPort. intros H. apply splitLastColon_Contains.
  destruct (splitLastColon s); [eauto|discriminate H].
Qed.

(** C9.  The code misses the claim on a bare IPv6 literal.  The port check of
    [queryDoT] looks for a colon, not for a port: the address of Cloudflare's
    resolver over IPv6, written without a port, carries no port, yet
    [queryDoT] appends no ":853" and connects to it as it is. *)
Lemma queryDoT_bare_IPv6_keeps_no_port :
  carriesPort "2606:4700:4700::1111" = false
  /\ ensurePort "2606:4700:4700::1111" <> "2606:4700:4700::1111" +:+ ":853"
  /\ directTargets
       (trace (queryDoT Sample.lib (WithRetries 0 (WithProtocol DoT defaultConfig))
                 Sample.down 3 (mkMsg true [mkQuestion "example.com." TypeA] [])
                 "2606:4700:4700::1111"))
     = ["2606:4700:4700::1111"].
Proof.
  vm_compute. repeat split. discriminate.
Qed.

(** Where the port check does what it is for: [queryDoT] appends ":853" to
    a server address without a colon (so "9.9.9.9" becomes "9.9.9.9:853") and
    leaves unchanged an address that carries a port.  Every connection of
    the query, direct or through the proxy, at every attempt, is to the
    address the check gives. *)
Theorem queryDoT_ensures_port (L : Lib) (cfg : Config) (net : Net) (fuel : nat)
    (msg : Msg) (server : string) :
  (Contains server ":" = false -> ensurePort server = server +:+ ":853")
  /\ (carriesPort server = true -> ensurePort server = server)
  /\ ensurePort "9.9.9.9" = "9.9.9.9:853"
  /\ aimsAt (ensurePort server) (trace (queryDoT L cfg net fuel msg server)).
Proof.
  split; [|split; [|split]].
  - intros H. unfold ensurePort. rewrite H. reflexivity.
  - intros H. unfold ensurePort. rewrite (carriesPort_Contains _ H). reflexivity.
  - reflexivity.
  - unfold queryDoT. apply queryDoT_loop_aimsAt.
Qed.

Lemma queryDoT_ensures_port_witness :
  Contains "dns.google" ":" = false
  /\ ensurePort "dns.google" = "dns.google:853"
  /\ carriesPort "[2606:4700:4700::1111]:853" = true
  /\ ensurePort "[2606:4700:4700::1111]:853" = "[2606:4700:4700::1111]:853".
Proof.
  pose proof (queryDoT_ensures_port Sample.lib defaultConfig Sample.down 0
                (mkMsg true [] []) "dns.google") as (H1 & _).
  pose proof (queryDoT_ensures_port Sample.lib defaultConfig Sample.down 0
                (mkMsg true [] []) "[2606:4700:4700::1111]:853") as (_ & H3 & _).
  split; [reflexivity|]. split; [exact (H1 eq_refl)|].
  split; [reflexivity|]. exact (H3 eq_refl).
Defined.

(** * Every single-server query returns *)

Lemma outcome_emit {B} (e : Event) (k : M B) :
  outcome (emit e ≫= (fun _ => k)) = outcome k.
Proof. rewrite bind_emit. reflexivity. Qed.

Lemma outcome_closeBodies {B} (deferred : nat) (x : B) :
  outcome (closeBodies deferred ≫= (fun _ => mret x)) = Done x.
Proof. reflexivity. Qed.

Lemma outcome_selectBackoff {B} (net : Net) (i : Z) (f : option error -> M B) :
  outcome (selectBackoff net i ≫= f)
  = outcome (f (if ctxDone net i then Some (ctxErr net) else None)).
Proof.
  unfold selectBackoff. destruct (ctxDone net i);
    cbn [mbind M_bind emit mret M_ret];
    destruct (f _) as [t o]; reflexivity.
Qed.

Section QueryEnds.

Context (L : Lib) (cfg : Config) (net : Net) (msg : Msg).

Lemma queryDoT_loop_ends (server : string) (tlsConfig : TLSConfig) (n : nat) :
  forall (fuel : nat) (i : Z) (lastErr : option error),
    0 <= i ->
    i + Z.of_nat n = Retries cfg ->
    Retries cfg < MaxInt64 ->
    (n + 2 <= fuel)%nat ->
    exists r, outcome (queryDoT_loop L cfg net fuel msg server tlsConfig i lastErr) = Done r
              /\ proper r.
Proof.
  induction n as [|n IH]; intros fuel i lastErr Hi HR Hmax Hfuel;
    (destruct fuel as [|fuel]; [lia|]);
    cbn [queryDoT_loop];
    (destruct (Z.leb_spec i (Retries cfg)); [|lia]);
    rewrite outcome_emit;
    destruct (exchangeDoT_proper L cfg net i msg server tlsConfig)
      as (r & Hop & [[m ->]|[e ->]]);
    rewrite (bind_Done _ _ _ Hop); cbn [outcome snd].
  - eexists. split; [reflexivity|]. left. eexists. reflexivity.
  - destruct (Z.ltb_spec i (Retries cfg)); [lia|].
    rewrite int_incr_small by (unfold MaxInt64 in *; lia).
    destruct fuel as [|fuel]; [lia|]. cbn [queryDoT_loop].
    destruct (Z.leb_spec (i + 1) (Retries cfg)); [lia|].
    eexists. split; [reflexivity|]. right. eexists. reflexivity.
  - eexists. split; [reflexivity|]. left. eexists. reflexivity.
  - destruct (Z.ltb_spec i (Retries cfg)); [|lia].
    rewrite outcome_selectBackoff. destruct (ctxDone net i).
    + eexists. split; [reflexivity|]. right. eexists. reflexivity.
    + rewrite int_incr_small by (unfold MaxInt64 in *; lia).
      apply IH; lia.
Qed.

Lemma queryDoT_ends (fuel : nat) (server : string) :
  0 <= Retries cfg < MaxInt64 ->
  Retries cfg + 1 < Z.of_nat fuel ->
  exists r, outcome (queryDoT L cfg net fuel msg server) = Done r /\ proper r.
Proof.
  intros HR Hfuel. unfold queryDoT.
  apply (queryDoT_loop_ends _ _ (Z.to_nat (Retries cfg))); lia.
Qed.

Lemma queryDoH_loop_ends (u : URL) (httpClient : HTTPClient) (n : nat) :
  forall (fuel : nat) (i : Z) (lastErr : option error) (deferred : nat),
    0 <= i ->
    i + Z.of_nat n = Retries cfg ->
    Retries cfg < MaxInt64 ->
    (n + 2 <= fuel)%nat ->
    exists r, outcome (queryDoH_loop L cfg net fuel u httpClient i lastErr deferred) = Done r
              /\ proper r.
Proof.
  assert (Hexit : forall fuel i e deferred,
             Retries cfg < i ->
             exists r, outcome (queryDoH_loop L cfg net (S fuel) u httpClient i (Some e) deferred)
                       = Done r /\ proper r).
  { intros fuel i e deferred Hi. cbn [queryDoH_loop].
    destruct (Z.leb_spec i (Retries cfg)); [lia|].
    eexists. split; [reflexivity|]. right. eexists. reflexivity. }
  induction n as [|n IH]; intros fuel i lastErr deferred Hi HR Hmax Hfuel;
    (destruct fuel as [|fuel]; [lia|]);
    cbn [queryDoH_loop];
    (destruct (Z.leb_spec i (Retries cfg)); [|lia]);
    rewrite outcome_emit;
    (destruct (http_NewRequest L "GET" (URL_String L u));
       [eexists; split; [reflexivity|]; right; eexists; reflexivity|]);
    rewrite outcome_emit;
    (destruct (Z.ltb_spec i (Retries cfg)); [try lia|try lia]);
    rewrite ?int_incr_small by (unfold MaxInt64 in *; lia);
    (destruct (Do net i httpClient (dohRequest L u)) as [resp|err];
       [destruct (negb (StatusCode resp =? StatusOK));
          [|destruct (Body resp) as [body|err];
              [destruct (Unpack L body) as [response|err]|]]|]);
    try (eexists; split; [reflexivity|];
         first [left; eexists; reflexivity | right; eexists; reflexivity]).
  all: try (apply IH; lia).
  - destruct fuel as [|fuel]; [lia|]. apply Hexit. lia.
  - rewrite outcome_selectBackoff. destruct (ctxDone net i).
    + eexists; split; [reflexivity|]; right; eexists; reflexivity.
    + apply IH; lia.
Qed.

Lemma getProxyURL_cases :
  (exists u, getProxyURL L cfg = (Some u, None))
  \/ (exists e, getProxyURL L cfg = (None, Some e)).
Proof.
  unfold getProxyURL.
  repeat match goal with
         | |- context [String.eqb ?a ?b] => destruct (String.eqb a b)
         | |- context [url_Parse ?l ?s] => destruct (url_Parse l s)
         | |- context [ProxyAuth_ ?c] => destruct (ProxyAuth_ c)
         end; eauto.
Qed.

Lemma queryDoH_ends (fuel : nat) (server : string) :
  0 <= Retries cfg < MaxInt64 ->
  Retries cfg + 1 < Z.of_nat fuel ->
  exists r, outcome (queryDoH L cfg net fuel msg server) = Done r /\ proper r.
Proof.
  intros HR Hfuel. unfold queryDoH.
  destruct (Pack L msg);
    [|eexists; split; [reflexivity|]; right; eexists; reflexivity].
  destruct (url_Parse L (dohURL server));
    [|eexists; split; [reflexivity|]; right; eexists; reflexivity].
  destruct (HTTPClient_ cfg).
  { apply (queryDoH_loop_ends _ _ (Z.to_nat (Retries cfg))); lia. }
  destruct (negb _).
  - destruct getProxyURL_cases as [[p ->]|[e ->]].
    + apply (queryDoH_loop_ends _ _ (Z.to_nat (Retries cfg))); lia.
    + eexists; split; [reflexivity|]; right; eexists; reflexivity.
  - apply (queryDoH_loop_ends _ _ (Z.to_nat (Retries cfg))); lia.
Qed.

End QueryEnds.

(** * The fan-out *)

Section ServerQuery.

Context (L : Lib) (cfg : Config) (net : Net).

Lemma dispatch_ends (fuel : nat) (msg : Msg) (server : string) (q : M (GoRet Msg)) :
  0 <= Retries cfg < MaxInt64 ->
  Retries cfg + 1 < Z.of_nat fuel ->
  dispatch L cfg net fuel msg server = Some q ->
  exists r, outcome q = Done r /\ proper r.
Proof.
  intros HR Hfuel Hd. unfold dispatch in Hd.
  destruct (_ || _); [injection Hd as <-; apply queryUDPTCP_ends; assumption|].
  destruct (String.eqb _ DoT); [injection Hd as <-; apply queryDoT_ends; assumption|].
  destruct (String.eqb _ DoH); [injection Hd as <-; apply queryDoH_ends; assumption|].
  discriminate Hd.
Qed.

Lemma queryServer_ends (fuel : nat) (domain : string) (qtype : Z) (server : string) :
  0 <= Retries cfg < MaxInt64 ->
  Retries cfg + 1 < Z.of_nat fuel ->
  (exists records,
      outcome (queryServer L cfg net fuel domain qtype server)
      = Done (Some (mkQueryResult domain qtype records None server), None))
  \/ (exists err,
         outcome (queryServer L cfg net fuel domain qtype server)
         = Done (Some (failed domain qtype server err), Some err))
  \/ (exists err,
         outcome (queryServer L cfg net fuel domain qtype server)
         = Done (None, Some err)).
Proof.
  intros HR Hfuel. unfold queryServer.
  destruct (dispatch L cfg net fuel _ server) as [q|] eqn:Hd.
  - destruct (dispatch_ends _ _ _ _ HR Hfuel Hd) as (r & Ho & Hr).
    rewrite (bind_Done _ _ _ Ho).
    destruct Hr as [[m ->]|[e ->]]; cbn [outcome snd].
    + left. eexists. reflexivity.
    + right. left. exists e. reflexivity.
  - right. right. eexists. reflexivity.
Qed.

End ServerQuery.

(** A negative retry count is outside these lemmas for a reason: the loop of
    [queryUDPTCP] is not entered, the query returns two nils, and
    [queryServer] reads the answer of a nil response. *)
Remark queryServer_negative_Retries :
  queryUDPTCP Sample.lib (WithRetries (-1) defaultConfig) Sample.down 5
              (mkMsg true [mkQuestion "example.com." TypeA] []) "8.8.8.8:53"
  = ([], Done (None, None))
  /\ outcome (queryServer Sample.lib (WithRetries (-1) defaultConfig) Sample.down 5
                 "example.com" TypeA "8.8.8.8:53")
     = Panic "nil pointer dereference: response.Answer".
Proof. vm_compute. split; reflexivity. Qed.

(** ** The goroutines and the channel *)

Lemma join_Done {A} (l : list A) : join (Done <$> l) = Done l.
Proof.
  induction l as [|a l IH]; [reflexivity|].
  cbn [fmap list_fmap join]. fold (Done (A:=A) <$> l). rewrite IH. reflexivity.
Qed.

Section Channel.

Context {A : Type} (sched : nat -> nat).

Lemma recv_Some (i : nat) (inflight : list A) :
  inflight <> [] ->
  exists x rest,
    recv sched i inflight = Some (x, rest)
    /\ inflight ≡ₚ x :: rest
    /\ S (length rest) = length inflight.
Proof.
  intros Hne. unfold recv.
  assert (Hlen : (0 < length inflight)%nat)
    by (destruct inflight; [congruence|simpl; lia]).
  set (k := (sched i `mod` length inflight)%nat).
  assert (Hk : (k < length inflight)%nat) by (apply Nat.mod_upper_bound; lia).
  destruct (lookup_lt_is_Some_2 inflight k Hk) as [x Hx].
  rewrite Hx. exists x, (delete k inflight). split; [reflexivity|]. split.
  - apply delete_Permutation. exact Hx.
  - rewrite length_delete by eauto. lia.
Qed.

Lemma arrivals_Permutation (n : nat) :
  forall (i : nat) (inflight : list A),
    length inflight = n -> arrivals sched n i inflight ≡ₚ inflight.
Proof.
  induction n as [|n IH]; intros i inflight Hlen.
  - destruct inflight; [reflexivity|discriminate Hlen].
  - destruct (recv_Some i inflight) as (x & rest & Hr & Hp & Hl).
    { intros ->. discriminate Hlen. }
    cbn [arrivals]. rewrite Hr, Hp. constructor. apply IH. lia.
Qed.

(** Received in the order of launch when the scheduler always takes the
    oldest value in flight. *)
Lemma arrivals_in_order (n : nat) :
  (forall i, sched i = 0%nat) ->
  forall (i : nat) (inflight : list A),
    length inflight = n -> arrivals sched n i inflight = inflight.
Proof.
  intros Hs. induction n as [|n IH]; intros i inflight Hlen.
  - destruct inflight; [reflexivity|discriminate Hlen].
  - destruct inflight as [|x rest]; [discriminate Hlen|].
    cbn [arrivals]. unfold recv. rewrite Hs.
    rewrite Nat.Div0.mod_0_l. cbn [lookup list_lookup delete list_delete].
    f_equal. apply IH. simpl in Hlen. lia.
Qed.

End Channel.

(** ** The collecting loop *)

Section Collect.

Context (L : Lib) (sched : nat -> nat) (qtype : Z).

Lemma collect_Done (n : nat) :
  forall (i : nat) (inflight : list QueryResult)
         (st : MultiQueryResult * gmap string bool),
    length inflight = n ->
    collect L sched n i qtype inflight st
    = Done (fst (absorbAll L qtype (arrivals sched n i inflight) st)).
Proof.
  induction n as [|n IH]; intros i inflight st Hlen.
  - reflexivity.
  - destruct (recv_Some sched i inflight) as (x & rest & Hr & _ & Hl).
    { intros ->. discriminate Hlen. }
    cbn [collect arrivals]. rewrite Hr. rewrite IH by lia. reflexivity.
Qed.

Lemma absorb_Results (res : QueryResult) (st : MultiQueryResult * gmap string bool) :
  Results (fst (absorb L qtype res st)) = Results (fst st) ++ [res]
  /\ MQ_Domain (fst (absorb L qtype res st)) = MQ_Domain (fst st)
  /\ MQ_Type (fst (absorb L qtype res st)) = MQ_Type (fst st).
Proof.
  destruct st as [result ipSet]. unfold absorb.
  destruct (Error res).
  - repeat split.
  - destruct (fold_left _ _ _). repeat split.
Qed.

Lemma absorbAll_Results (l : list QueryResult) :
  forall st : MultiQueryResult * gmap string bool,
    Results (fst (absorbAll L qtype l st)) = Results (fst st) ++ l
    /\ MQ_Domain (fst (absorbAll L qtype l st)) = MQ_Domain (fst st)
    /\ MQ_Type (fst (absorbAll L qtype l st)) = MQ_Type (fst st).
Proof.
  induction l as [|res l IH]; intros st.
  - cbn. rewrite app_nil_r. repeat split.
  - cbn [absorbAll fold_left]. fold (absorbAll L qtype l (absorb L qtype res st)).
    destruct (IH (absorb L qtype res st)) as (H1 & H2 & H3).
    destruct (absorb_Results res st) as (H4 & H5 & H6).
    rewrite H1, H2, H3, H4, H5, H6, <- app_assoc. repeat split.
Qed.

End Collect.

(** ** The deduplicated addresses *)

Section Addresses.

Context (L : Lib) (qtype : Z).

Lemma ipsInv_mono (rs rs' : list QueryResult) (st : list string * gmap string bool) :
  (forall res, res ∈ rs -> res ∈ rs') -> ipsInv L qtype rs st -> ipsInv L qtype rs' st.
Proof.
  intros Hsub (Hnd & Hset & Hsrc). split; [exact Hnd|]. split; [exact Hset|].
  intros v Hv. destruct (Hsrc v Hv) as (Hq & Hip & res & Hres & Herr & Hrec).
  split; [exact Hq|]. split; [exact Hip|]. exists res. auto.
Qed.

Lemma addressQuery_test :
  (qtype =? TypeA) || (qtype =? TypeAAAA) = true -> addressQuery qtype.
Proof.
  intros H. apply orb_true_iff in H. unfold addressQuery.
  destruct H as [H|H]; apply Z.eqb_eq in H; auto.
Qed.

Lemma addIP_inv (rs : list QueryResult) (res : QueryResult) (rec : DNSRecord)
    (st : list string * gmap string bool) :
  res ∈ rs -> Error res = None -> rec ∈ Records res ->
  ipsInv L qtype rs st -> ipsInv L qtype rs (addIP L qtype st rec).
Proof.
  intros Hres Herr Hrec Hinv. destruct st as [allIPs ipSet]. unfold addIP.
  destruct ((qtype =? TypeA) || (qtype =? TypeAAAA)) eqn:Hq; [|exact Hinv].
  cbn [andb]. destruct (bool_decide_reflect (is_Some (ParseIP L (Value rec))))
    as [Hip|]; [|exact Hinv].
  destruct (default false (ipSet !! Value rec)) eqn:Hd; cbn [negb]; [exact Hinv|].
  destruct Hinv as (Hnd & Hset & Hsrc). cbn [fst snd] in *.
  assert (Hnew : Value rec ∉ allIPs).
  { intros Hin. apply Hset in Hin. rewrite Hin in Hd. discriminate Hd. }
  split; [|split]; cbn [fst snd].
  - apply NoDup_app. split; [exact Hnd|]. split; [|apply NoDup_singleton].
    intros x Hx Hx'. apply list_elem_of_singleton in Hx'. subst x. contradiction.
  - intros v. rewrite elem_of_app, list_elem_of_singleton.
    destruct (decide (v = Value rec)) as [->|Hne].
    + rewrite lookup_insert_eq. tauto.
    + rewrite lookup_insert_ne by congruence. rewrite <- Hset. tauto.
  - intros v Hv. apply elem_of_app in Hv. destruct Hv as [Hv|Hv];
      [apply Hsrc; exact Hv|].
    apply list_elem_of_singleton in Hv. subst v.
    split; [apply addressQuery_test; exact Hq|].
    split; [exact Hip|]. exists res. eauto.
Qed.

Lemma fold_addIP_inv (rs : list QueryResult) (res : QueryResult) (recs : list DNSRecord) :
  res ∈ rs -> Error res = None -> (forall rec, rec ∈ recs -> rec ∈ Records res) ->
  forall st, ipsInv L qtype rs st -> ipsInv L qtype rs (fold_left (addIP L qtype) recs st).
Proof.
  intros Hres Herr. induction recs as [|rec recs IH]; intros Hrecs st Hinv.
  - exact Hinv.
  - cbn [fold_left]. apply IH.
    + intros r Hr. apply Hrecs. right. exact Hr.
    + apply (addIP_inv rs res); auto. apply Hrecs. left.
Qed.

Lemma absorb_inv (res : QueryResult) (st : MultiQueryResult * gmap string bool) :
  ipsInv L qtype (Results (fst st)) (AllIPs (fst st), snd st) ->
  ipsInv L qtype (Results (fst (absorb L qtype res st)))
         (AllIPs (fst (absorb L qtype res st)), snd (absorb L qtype res st)).
Proof.
  destruct st as [result ipSet]. cbn [fst snd]. intros Hinv.
  assert (Hmono : ipsInv L qtype (Results result ++ [res]) (AllIPs result, ipSet)).
  { revert Hinv. apply ipsInv_mono. intros r Hr. apply elem_of_app. left. exact Hr. }
  unfold absorb. destruct (Error res) eqn:Herr.
  - exact Hmono.
  - pose proof (fold_addIP_inv (Results result ++ [res]) res (Records res)) as Hfold.
    specialize (Hfold ltac:(apply elem_of_app; right; left) Herr ltac:(auto) _ Hmono).
    destruct (fold_left _ _ _) as [allIPs ipSet']. exact Hfold.
Qed.

Lemma absorbAll_inv (l : list QueryResult) :
  forall st : MultiQueryResult * gmap string bool,
    ipsInv L qtype (Results (fst st)) (AllIPs (fst st), snd st) ->
    ipsInv L qtype (Results (fst (absorbAll L qtype l st)))
           (AllIPs (fst (absorbAll L qtype l st)), snd (absorbAll L qtype l st)).
Proof.
  induction l as [|res l IH]; intros st Hinv.
  - exact Hinv.
  - cbn [absorbAll fold_left]. apply IH. apply absorb_inv. exact Hinv.
Qed.

(** For a query of another type no address is ever added. *)
Lemma absorbAll_other_type (l : list QueryResult) :
  qtype <> TypeA -> qtype <> TypeAAAA ->
  forall st : MultiQueryResult * gmap string bool,
    AllIPs (fst (absorbAll L qtype l st)) = AllIPs (fst st).
Proof.
  intros HA HAAAA.
  assert (Hadd : forall recs st, fold_left (addIP L qtype) recs st = st).
  { induction recs as [|rec recs IH]; intros st; [reflexivity|].
    cbn [fold_left]. rewrite <- (IH st) at 2. f_equal.
    destruct st as [a s]. unfold addIP.
    destruct (Z.eqb_spec qtype TypeA); [contradiction|].
    destruct (Z.eqb_spec qtype TypeAAAA); [contradiction|]. reflexivity. }
  induction l as [|res l IH]; intros st; [reflexivity|].
  cbn [absorbAll fold_left]. fold (absorbAll L qtype l (absorb L qtype res st)).
  rewrite IH. destruct st as [result ipSet]. unfold absorb.
  destruct (Error res); [reflexivity|]. rewrite Hadd. reflexivity.
Qed.

Lemma collect_absorbs (sched : nat -> nat) (n : nat) :
  forall (i : nat) (inflight : list QueryResult)
         (st : MultiQueryResult * gmap string bool) (result : MultiQueryResult),
    collect L sched n i qtype inflight st = Done result ->
    exists l, result = fst (absorbAll L qtype l st).
Proof.
  induction n as [|n IH]; intros i inflight st result Hc.
  - exists []. cbn [collect] in Hc. injection Hc as <-. reflexivity.
  - cbn [collect] in Hc. destruct (recv sched i inflight) as [[res rest]|];
      [|discriminate Hc].
    destruct (IH _ _ _ _ Hc) as [l ->]. exists (res :: l). reflexivity.
Qed.

End Addresses.

(** ** What [MultiQuery] returns *)

Lemma launched_EvGo (servers : list string) : launched (map EvGo servers) = servers.
Proof.
  induction servers as [|s l IH]; [reflexivity|].
  change (launched (map EvGo (s :: l))) with (s :: launched (map EvGo l)).
  rewrite IH. reflexivity.
Qed.

Lemma arrivals_fmap {A B} (f : A -> B) (sched : nat -> nat) (n : nat) :
  forall (i : nat) (l : list A),
    f <$> arrivals sched n i l = arrivals sched n i (f <$> l).
Proof.
  induction n as [|n IH]; intros i l; [reflexivity|].
  cbn [arrivals]. unfold recv. rewrite length_fmap, list_lookup_fmap.
  destruct (l !! _) as [x|]; [|reflexivity].
  cbn [fmap option_fmap option_map list_fmap]. fold (f <$> arrivals sched n (S i) (delete (sched i `mod` length l)%nat l)).
  rewrite IH. f_equal. f_equal.
  generalize (sched i `mod` length l)%nat. intros k. revert k.
  induction l as [|y l IHl]; intros [|k]; try reflexivity.
  cbn [delete list_delete fmap list_fmap]. f_equal. apply IHl.
Qed.

(** Whenever they return, whatever the retry count. *)
Section FanOutShape.

Context (L : Lib) (cfg : Config) (nets : nat -> Net) (sched : nat -> nat)
        (fuel : nat) (domain : string) (qtype : Z).

Lemma queryServer_shapes (net : Net) (server : string)
    (res : option QueryResult) (err : option error) :
  outcome (queryServer L cfg net fuel domain qtype server) = Done (res, err) ->
  (exists records,
      res = Some (mkQueryResult domain qtype records None server) /\ err = None)
  \/ (exists e, res = Some (failed domain qtype server e) /\ err = Some e)
  \/ (exists e, res = None /\ err = Some e).
Proof.
  unfold queryServer. destruct (dispatch _ _ _ _ _ _) as [[t o]|].
  - destruct o as [[[m|] [e|]]| |]; cbn [mbind M_bind mret M_ret panic outcome snd];
      intros H; try discriminate H; injection H as <- <-; eauto.
  - cbn [mret M_ret outcome snd]. intros H. injection H as <- <-. eauto.
Qed.

Lemma goroutine_shapes (k : nat) (srv : string) (q : QueryResult) :
  outcome (goroutine L cfg nets fuel domain qtype k srv) = Done q ->
  Domain q = domain /\ Type_ q = qtype /\ Server q = srv
  /\ Error q = queryError (outcome (queryServer L cfg (nets k) fuel domain qtype srv))
  /\ (forall err, Error q = Some err -> q = failed domain qtype srv err).
Proof.
  unfold goroutine.
  destruct (queryServer L cfg (nets k) fuel domain qtype srv) as [t o] eqn:Hq.
  destruct o as [[res err]| |]; cbn [mbind M_bind]; try discriminate.
  destruct (queryServer_shapes (nets k) srv res err) as
    [(records & -> & ->)|[(e & -> & ->)|(e & -> & ->)]];
    [rewrite Hq; reflexivity| | |];
    cbn [mret M_ret outcome snd queryError]; intros H; injection H as <-;
    repeat split; unfold failed; cbn [Error]; intros e' He;
    first [discriminate He | injection He as ->; reflexivity].
Qed.

Lemma sent_Server (k : nat) (srv : string) :
  Server (sent L cfg nets fuel domain qtype k srv) = srv.
Proof.
  unfold sent.
  destruct (outcome (goroutine L cfg nets fuel domain qtype k srv)) as [q| |] eqn:Hg;
    try reflexivity.
  apply (goroutine_shapes k srv q Hg).
Qed.

Lemma Server_sent :
  Server <$> imap (sent L cfg nets fuel domain qtype) (Servers cfg) = Servers cfg.
Proof.
  rewrite fmap_imap.
  rewrite (imap_ext _ (const id)).
  - rewrite imap_const. apply list_fmap_id.
  - intros k srv _. apply sent_Server.
Qed.

Lemma join_inv {A} (os : list (Outcome A)) :
  forall l, join os = Done l -> os = Done <$> l.
Proof.
  induction os as [|o os IH]; intros l H.
  - injection H as <-. reflexivity.
  - cbn [join] in H. destruct o as [a| |]; destruct (join os) as [l'| |];
      try discriminate H.
    injection H as <-. cbn [fmap list_fmap]. f_equal. apply IH. reflexivity.
Qed.

Lemma sends_inv (l : list QueryResult) :
  sends L cfg nets fuel domain qtype = Done <$> l ->
  l = imap (sent L cfg nets fuel domain qtype) (Servers cfg).
Proof.
  intros Hs. apply list_eq. intros k.
  apply (f_equal (fun x => x !! k)) in Hs. unfold sends in Hs.
  rewrite list_lookup_imap, list_lookup_fmap in Hs. rewrite list_lookup_imap.
  destruct (Servers cfg !! k) as [srv|]; destruct (l !! k) as [q|];
    try discriminate Hs; [|reflexivity].
  cbn in Hs. injection Hs as Hs. cbn. unfold sent. rewrite Hs. reflexivity.
Qed.

(** A returned [MultiQuery] had servers, every goroutine sent its value,
    and the result is the collecting loop run on the values as received. *)
Lemma MultiQuery_inv (r : MultiQueryResult) :
  outcome (MultiQuery L cfg nets sched fuel domain qtype) = Done (Some r, None) ->
  Servers cfg <> []
  /\ sends L cfg nets fuel domain qtype
     = Done <$> imap (sent L cfg nets fuel domain qtype) (Servers cfg)
  /\ r = fst (absorbAll L qtype
               (arrivals sched (length (Servers cfg)) 0
                         (imap (sent L cfg nets fuel domain qtype) (Servers cfg)))
               (mkMultiQueryResult domain qtype [] [], ∅)).
Proof.
  unfold MultiQuery. destruct (Servers cfg) as [|s0 l0] eqn:Hs; [discriminate|].
  rewrite <- Hs. cbn [length Nat.eqb outcome snd].
  replace (length (Servers cfg) =? 0)%nat with false by (rewrite Hs; reflexivity).
  cbn [outcome snd].
  destruct (join _) as [inflight| |] eqn:Hj; try discriminate.
  apply join_inv in Hj. pose proof (sends_inv _ Hj) as ->.
  rewrite collect_Done by apply length_imap.
  intros H. injection H as <-.
  split; [rewrite Hs; discriminate|]. split; [exact Hj|reflexivity].
Qed.

Lemma MultiQuery_Results_inv (r : MultiQueryResult) :
  outcome (MultiQuery L cfg nets sched fuel domain qtype) = Done (Some r, None) ->
  Results r = arrivals sched (length (Servers cfg)) 0
                       (imap (sent L cfg nets fuel domain qtype) (Servers cfg)).
Proof.
  intros H. destruct (MultiQuery_inv r H) as (_ & _ & ->).
  destruct (absorbAll_Results L qtype
              (arrivals sched (length (Servers cfg)) 0
                        (imap (sent L cfg nets fuel domain qtype) (Servers cfg)))
              (mkMultiQueryResult domain qtype [] [], ∅)) as (H1 & _).
  exact H1.
Qed.

(** An error of [MultiQuery] itself is the error of the empty server list. *)
Lemma MultiQuery_error_inv (r : option MultiQueryResult) (e : error) :
  outcome (MultiQuery L cfg nets sched fuel domain qtype) = Done (r, Some e) ->
  Servers cfg = [].
Proof.
  unfold MultiQuery. destruct (Servers cfg) as [|s0 l0]; [reflexivity|].
  cbn [length Nat.eqb outcome snd].
  destruct (join _) as [inflight| |]; try discriminate.
  destruct (collect _ _ _ _ _ _ _) as [result| |]; discriminate.
Qed.

Lemma MultiQuery_trace :
  Servers cfg <> [] ->
  trace (MultiQuery L cfg nets sched fuel domain qtype) = map EvGo (Servers cfg).
Proof.
  intros Hne. unfold MultiQuery.
  destruct (Servers cfg) as [|s0 l0]; [congruence|]. reflexivity.
Qed.

Lemma sends_lookup (k : nat) (srv : string) :
  sends L cfg nets fuel domain qtype
  = Done <$> imap (sent L cfg nets fuel domain qtype) (Servers cfg) ->
  Servers cfg !! k = Some srv ->
  outcome (goroutine L cfg nets fuel domain qtype k srv)
  = Done (sent L cfg nets fuel domain qtype k srv).
Proof.
  intros Hs Hk. apply (f_equal (fun x => x !! k)) in Hs. unfold sends in Hs.
  rewrite list_lookup_fmap, !list_lookup_imap, Hk in Hs.
  cbn in Hs. injection Hs as Hs. exact Hs.
Qed.

End FanOutShape.

Section FanOut.

Context (L : Lib) (cfg : Config) (nets : nat -> Net) (sched : nat -> nat)
        (fuel : nat) (domain : string) (qtype : Z).

Hypothesis Retries_range : 0 <= Retries cfg < MaxInt64.
Hypothesis enough_fuel : Retries cfg + 1 < Z.of_nat fuel.

Local Abbreviation sent' := (sent L cfg nets fuel domain qtype).

Lemma goroutine_ends (k : nat) (srv : string) :
  outcome (goroutine L cfg nets fuel domain qtype k srv) = Done (sent' k srv)
  /\ Domain (sent' k srv) = domain
  /\ Type_ (sent' k srv) = qtype
  /\ Server (sent' k srv) = srv
  /\ Error (sent' k srv)
     = queryError (outcome (queryServer L cfg (nets k) fuel domain qtype srv))
  /\ (forall err, Error (sent' k srv) = Some err ->
                  sent' k srv = failed domain qtype srv err).
Proof.
  unfold sent, goroutine.
  destruct (queryServer_ends L cfg (nets k) fuel domain qtype srv
              Retries_range enough_fuel)
    as [(records & Ho)|[(err & Ho)|(err & Ho)]];
    rewrite (bind_Done _ _ _ Ho), Ho; cbn [outcome snd mret M_ret queryError];
    repeat split; try reflexivity;
    unfold failed; cbn [Error]; intros e He;
    first [discriminate He | injection He as ->; reflexivity].
Qed.

Lemma sends_Done :
  sends L cfg nets fuel domain qtype = Done <$> imap sent' (Servers cfg).
Proof.
  unfold sends. rewrite fmap_imap. apply imap_ext.
  intros k srv _. apply goroutine_ends.
Qed.

Lemma MultiQuery_returns :
  Servers cfg <> [] ->
  MultiQuery L cfg nets sched fuel domain qtype
  = (map EvGo (Servers cfg),
     Done (Some (fst (absorbAll L qtype
                        (arrivals sched (length (Servers cfg)) 0
                                  (imap sent' (Servers cfg)))
                        (mkMultiQueryResult domain qtype [] [], ∅))),
           None)).
Proof.
  intros Hne. unfold MultiQuery.
  destruct (Servers cfg) as [|s l] eqn:Hs; [congruence|].
  cbn [length Nat.eqb]. rewrite <- Hs.
  rewrite sends_Done, join_Done.
  rewrite collect_Done by (rewrite length_imap, Hs; reflexivity).
  rewrite Hs. reflexivity.
Qed.

Lemma MultiQuery_Results :
  Servers cfg <> [] ->
  exists r,
    MultiQuery L cfg nets sched fuel domain qtype
    = (map EvGo (Servers cfg), Done (Some r, None))
    /\ Results r = arrivals sched (length (Servers cfg)) 0 (imap sent' (Servers cfg))
    /\ MQ_Domain r = domain /\ MQ_Type r = qtype.
Proof.
  intros Hne. eexists. split; [apply MultiQuery_returns; exact Hne|].
  destruct (absorbAll_Results L qtype
              (arrivals sched (length (Servers cfg)) 0 (imap sent' (Servers cfg)))
              (mkMultiQueryResult domain qtype [] [], ∅)) as (H1 & H2 & H3).
  rewrite H1, H2, H3. repeat split.
Qed.

End FanOut.

(** * The claims about the fan-out *)

(** C1, as stated, fails: two servers, both answering, the second goroutine
    sending first.  [Results] lists the second server's result before the
    first's. *)
Lemma MultiQuery_Results_follow_completion :
  exists r,
    outcome (MultiQuery Sample.lib (WithServers ["8.8.8.8:53"; "1.1.1.1:53"] defaultConfig)
               (fun _ => Sample.up "93.184.216.34") (fun _ => 1%nat) 5
               "example.com" TypeA)
    = Done (Some r, None)
    /\ Server <$> Results r = ["1.1.1.1:53"; "8.8.8.8:53"]
    /\ Server <$> Results r
       <> Servers (WithServers ["8.8.8.8:53"; "1.1.1.1:53"] defaultConfig).
Proof.
  eexists. split; [vm_compute; reflexivity|].
  split; [reflexivity|]. cbn. discriminate.
Qed.

(** C1, amended.  The [Results] of a returned [MultiQuery] are in completion
    order: the i-th entry is the i-th value received from the channel, the
    result of the i-th goroutine to send.  They are the per-server results in
    some order, one for each configured server, and they are in configuration
    order when the goroutines send in the order they were launched.  For a
    non-empty server list (and a retry count that is a count) [MultiQuery]
    does return. *)
Theorem MultiQuery_Results_in_completion_order (L : Lib) (cfg : Config)
    (nets : nat -> Net) (sched : nat -> nat) (fuel : nat) (domain : string)
    (qtype : Z) :
  (forall r,
     outcome (MultiQuery L cfg nets sched fuel domain qtype) = Done (Some r, None) ->
     Results r
     = arrivals sched (length (Servers cfg)) 0
                (imap (sent L cfg nets fuel domain qtype) (Servers cfg))
     /\ Server <$> Results r = arrivals sched (length (Servers cfg)) 0 (Servers cfg)
     /\ Server <$> Results r ≡ₚ Servers cfg
     /\ ((forall i, sched i = 0%nat) -> Server <$> Results r = Servers cfg))
  /\ (Servers cfg <> [] ->
      0 <= Retries cfg < MaxInt64 ->
      Retries cfg + 1 < Z.of_nat fuel ->
      exists r,
        outcome (MultiQuery L cfg nets sched fuel domain qtype) = Done (Some r, None)).
Proof.
  split.
  - intros r Hr.
    pose proof (MultiQuery_Results_inv L cfg nets sched fuel domain qtype r Hr) as Hres.
    split; [exact Hres|].
    assert (Hsrv : Server <$> Results r
                   = arrivals sched (length (Servers cfg)) 0 (Servers cfg)).
    { rewrite Hres, arrivals_fmap, Server_sent. reflexivity. }
    split; [exact Hsrv|]. rewrite Hsrv. split.
    + apply arrivals_Permutation. reflexivity.
    + intros Hs. apply arrivals_in_order; [exact Hs|reflexivity].
  - intros Hne HR Hfuel.
    destruct (MultiQuery_Results L cfg nets sched fuel domain qtype HR Hfuel Hne)
      as (r & Hm & _).
    exists r. rewrite Hm. reflexivity.
Qed.

Lemma MultiQuery_Results_in_completion_order_witness :
  exists r,
    outcome (MultiQuery Sample.lib (WithServers ["8.8.8.8:53"; "1.1.1.1:53"] defaultConfig)
               (fun _ => Sample.down) (fun _ => 0%nat) 5 "example.com" TypeA)
    = Done (Some r, None)
    /\ Server <$> Results r = ["8.8.8.8:53"; "1.1.1.1:53"].
Proof.
  destruct (MultiQuery_Results_in_completion_order Sample.lib
              (WithServers ["8.8.8.8:53"; "1.1.1.1:53"] defaultConfig)
              (fun _ => Sample.down) (fun _ => 0%nat) 5 "example.com" TypeA)
    as (Hord & Hret).
  destruct Hret as (r & Ho).
  - discriminate.
  - vm_compute. split; [discriminate|reflexivity].
  - vm_compute. reflexivity.
  - exists r. split; [exact Ho|].
    destruct (Hord r Ho) as (_ & _ & _ & Hin). apply Hin. reflexivity.
Defined.

(** C3.  The [Results] of a returned [MultiQuery] have exactly as many
    entries as there are configured servers, however many queries failed:
    every goroutine sends exactly one value, [Results] holds these values, and
    the value of a goroutine whose query failed with [err] carries the
    domain, the type, the server and [err], and no records.  For N >= 1
    servers (and a retry count that is a count: non-negative and below the
    largest [int]) [MultiQuery] does return. *)
Theorem MultiQuery_one_result_per_server (L : Lib) (cfg : Config)
    (nets : nat -> Net) (sched : nat -> nat) (fuel : nat) (domain : string)
    (qtype : Z) :
  (forall r,
     outcome (MultiQuery L cfg nets sched fuel domain qtype) = Done (Some r, None) ->
     length (Results r) = length (Servers cfg)
     /\ Results r ≡ₚ imap (sent L cfg nets fuel domain qtype) (Servers cfg)
     /\ (forall k srv,
           Servers cfg !! k = Some srv ->
           outcome (goroutine L cfg nets fuel domain qtype k srv)
           = Done (sent L cfg nets fuel domain qtype k srv)
           /\ sent L cfg nets fuel domain qtype k srv ∈ Results r
           /\ forall err,
                queryError (outcome (queryServer L cfg (nets k) fuel domain qtype srv))
                = Some err ->
                sent L cfg nets fuel domain qtype k srv
                = {| Domain := domain; Type_ := qtype; Records := [];
                     Error := Some err; Server := srv |}))
  /\ (Servers cfg <> [] ->
      0 <= Retries cfg < MaxInt64 ->
      Retries cfg + 1 < Z.of_nat fuel ->
      exists r,
        outcome (MultiQuery L cfg nets sched fuel domain qtype) = Done (Some r, None)).
Proof.
  split.
  - intros r Hr.
    pose proof (MultiQuery_Results_inv L cfg nets sched fuel domain qtype r Hr) as Hres.
    destruct (MultiQuery_inv L cfg nets sched fuel domain qtype r Hr) as (_ & Hsends & _).
    assert (Hperm : Results r ≡ₚ imap (sent L cfg nets fuel domain qtype) (Servers cfg)).
    { rewrite Hres. apply arrivals_Permutation. apply length_imap. }
    split; [rewrite Hperm; apply length_imap|]. split; [exact Hperm|].
    intros k srv Hk.
    pose proof (sends_lookup L cfg nets fuel domain qtype k srv Hsends Hk) as Hg.
    destruct (goroutine_shapes L cfg nets fuel domain qtype k srv _ Hg)
      as (_ & _ & _ & Herr & Hfailed).
    split; [exact Hg|]. split.
    + rewrite Hperm. apply list_elem_of_lookup. exists k.
      rewrite list_lookup_imap, Hk. reflexivity.
    + intros err He. apply Hfailed. rewrite Herr. exact He.
  - intros Hne HR Hfuel.
    destruct (MultiQuery_Results L cfg nets sched fuel domain qtype HR Hfuel Hne)
      as (r & Hm & _).
    exists r. rewrite Hm. reflexivity.
Qed.

Lemma MultiQuery_one_result_per_server_witness :
  exists r,
    outcome (MultiQuery Sample.lib (WithServers ["a:53"; "b:53"; "c:53"] defaultConfig)
               (fun _ => Sample.down) (fun i => i) 5 "example.com" TypeA)
    = Done (Some r, None)
    /\ length (Results r) = 3%nat.
Proof.
  destruct (MultiQuery_one_result_per_server Sample.lib
              (WithServers ["a:53"; "b:53"; "c:53"] defaultConfig)
              (fun _ => Sample.down) (fun i => i) 5 "example.com" TypeA)
    as (Hlen & Hret).
  destruct Hret as (r & Ho).
  - discriminate.
  - vm_compute. split; [discriminate|reflexivity].
  - vm_compute. reflexivity.
  - exists r. split; [exact Ho|]. apply (Hlen r Ho).
Defined.

(** C4.  In the result of every completed [MultiQuery], [AllIPs] has no
    duplicate; each of its entries belongs to an A or AAAA query, parses as an
    IP address, and is the value of a record of one of the [Results] whose
    error is nil; for every other query type [AllIPs] is empty. *)
Theorem MultiQuery_AllIPs (L : Lib) (cfg : Config) (nets : nat -> Net)
    (sched : nat -> nat) (fuel : nat) (domain : string) (qtype : Z)
    (r : MultiQueryResult) :
  outcome (MultiQuery L cfg nets sched fuel domain qtype) = Done (Some r, None) ->
  NoDup (AllIPs r)
  /\ (forall ip, ip ∈ AllIPs r ->
        (qtype = TypeA \/ qtype = TypeAAAA)
        /\ is_Some (ParseIP L ip)
        /\ exists res, res ∈ Results r /\ Error res = None
                       /\ exists rec, rec ∈ Records res /\ Value rec = ip)
  /\ (qtype <> TypeA -> qtype <> TypeAAAA -> AllIPs r = []).
Proof.
  unfold MultiQuery. destruct (length (Servers cfg) =? 0)%nat; [discriminate|].
  cbn [outcome snd]. destruct (join _) as [inflight| |]; try discriminate.
  destruct (collect _ _ _ _ _ _ _) as [result| |] eqn:Hc; try discriminate.
  intros [= ->].
  destruct (collect_absorbs L qtype sched _ _ _ _ _ Hc) as [l ->].
  pose proof (absorbAll_inv L qtype l (mkMultiQueryResult domain qtype [] [], ∅))
    as (Hnd & _ & Hsrc).
  { split; [constructor|]. split.
    - intros v. cbn [fst snd AllIPs]. rewrite lookup_empty.
      split; [intros H; inversion H|discriminate].
    - intros v Hv. inversion Hv. }
  split; [exact Hnd|]. split; [exact Hsrc|].
  intros HA HAAAA. rewrite absorbAll_other_type by assumption. reflexivity.
Qed.

(** Scenario A of the specification: three servers, the first two answer
    93.184.216.34, the third fails. *)
Lemma MultiQuery_AllIPs_witness :
  exists r,
    outcome (MultiQuery Sample.lib (WithServers ["a:53"; "b:53"; "c:53"] defaultConfig)
               (fun k => if (k <? 2)%nat then Sample.up "93.184.216.34" else Sample.down)
               (fun _ => 1%nat) 5 "example.com" TypeA)
    = Done (Some r, None)
    /\ length (Results r) = 3%nat
    /\ AllIPs r = ["93.184.216.34"]
    /\ NoDup (AllIPs r).
Proof.
  eexists. split; [vm_compute; reflexivity|].
  split; [reflexivity|]. split; [reflexivity|].
  refine (proj1 (MultiQuery_AllIPs Sample.lib
                   (WithServers ["a:53"; "b:53"; "c:53"] defaultConfig)
                   (fun k => if (k <? 2)%nat then Sample.up "93.184.216.34" else Sample.down)
                   (fun _ => 1%nat) 5 "example.com" TypeA _ _)).
  vm_compute. reflexivity.
Defined.

(** C7.  [MultiQuery] returns an error exactly when no server is configured.
    In that case it returns at once, with "no DNS servers configured" and no
    goroutine launched.  Whenever it returns a result, it has launched one
    goroutine per server, the error is nil, and the result holds, for each
    configured server, an entry with that server and the error of its query,
    whether or not all the queries failed.  With servers configured (and a
    retry count that is a count) it does return a result. *)
Theorem MultiQuery_fails_iff_no_server (L : Lib) (cfg : Config)
    (nets : nat -> Net) (sched : nat -> nat) (fuel : nat) (domain : string)
    (qtype : Z) :
  (Servers cfg = [] ->
     MultiQuery L cfg nets sched fuel domain qtype
     = ([], Done (None, Some "no DNS servers configured")))
  /\ ((exists r e, outcome (MultiQuery L cfg nets sched fuel domain qtype)
                   = Done (r, Some e))
      <-> Servers cfg = [])
  /\ (forall r,
        outcome (MultiQuery L cfg nets sched fuel domain qtype) = Done (Some r, None) ->
        launched (trace (MultiQuery L cfg nets sched fuel domain qtype)) = Servers cfg
        /\ forall k srv,
             Servers cfg !! k = Some srv ->
             exists res,
               res ∈ Results r /\ Server res = srv
               /\ Error res
                  = queryError (outcome (queryServer L cfg (nets k) fuel domain qtype srv)))
  /\ (Servers cfg <> [] ->
      0 <= Retries cfg < MaxInt64 ->
      Retries cfg + 1 < Z.of_nat fuel ->
      exists r,
        outcome (MultiQuery L cfg nets sched fuel domain qtype) = Done (Some r, None)).
Proof.
  assert (Hempty : Servers cfg = [] ->
                   MultiQuery L cfg nets sched fuel domain qtype
                   = ([], Done (None, Some "no DNS servers configured"))).
  { intros Hs. unfold MultiQuery. rewrite Hs. reflexivity. }
  split; [exact Hempty|]. split; [|split].
  - split.
    + intros (r & e & Ho). exact (MultiQuery_error_inv _ _ _ _ _ _ _ _ _ Ho).
    + intros Hs. rewrite (Hempty Hs). eexists _, _. reflexivity.
  - intros r Hr.
    destruct (MultiQuery_inv L cfg nets sched fuel domain qtype r Hr)
      as (Hne & Hsends & _).
    pose proof (MultiQuery_Results_inv L cfg nets sched fuel domain qtype r Hr) as Hres.
    split; [rewrite MultiQuery_trace by exact Hne; apply launched_EvGo|].
    intros k srv Hk.
    pose proof (sends_lookup L cfg nets fuel domain qtype k srv Hsends Hk) as Hg.
    destruct (goroutine_shapes L cfg nets fuel domain qtype k srv _ Hg)
      as (_ & _ & Hsrv & Herr & _).
    exists (sent L cfg nets fuel domain qtype k srv).
    split; [|split; [exact Hsrv|exact Herr]].
    rewrite Hres, arrivals_Permutation by apply length_imap.
    apply list_elem_of_lookup. exists k. rewrite list_lookup_imap, Hk. reflexivity.
  - intros Hne HR Hfuel.
    destruct (MultiQuery_Results L cfg nets sched fuel domain qtype HR Hfuel Hne)
      as (r & Hm & _).
    exists r. rewrite Hm. reflexivity.
Qed.

Lemma MultiQuery_fails_iff_no_server_witness :
  MultiQuery Sample.lib (WithServers [] defaultConfig) (fun _ => Sample.down)
             (fun _ => 0%nat) 5 "example.com" TypeA
  = ([], Done (None, Some "no DNS servers configured"))
  /\ exists r,
       outcome (MultiQuery Sample.lib (WithServers ["a:53"; "b:53"] defaultConfig)
                  (fun _ => Sample.down) (fun _ => 0%nat) 5 "example.com" TypeA)
       = Done (Some r, None).
Proof.
  split.
  - refine (proj1 (MultiQuery_fails_iff_no_server Sample.lib (WithServers [] defaultConfig)
                     (fun _ => Sample.down) (fun _ => 0%nat) 5 "example.com" TypeA) _).
    reflexivity.
  - refine (proj2 (proj2 (proj2 (MultiQuery_fails_iff_no_server Sample.lib
                              (WithServers ["a:53"; "b:53"] defaultConfig)
                              (fun _ => Sample.down) (fun _ => 0%nat) 5
                              "example.com" TypeA))) _ _ _).
    + discriminate.
    + vm_compute. split; [discriminate|reflexivity].
    + vm_compute. reflexivity.
Defined.

(** * The DoH strategy and its request *)

Lemma selectBackoff_bind {B} (net : Net) (i : Z) (f : option error -> M B) :
  selectBackoff net i ≫= f
  = ((if ctxDone net i then EvCtxDone (backoff i) else EvSleep (backoff i))
       :: trace (f (if ctxDone net i then Some (ctxErr net) else None)),
     outcome (f (if ctxDone net i then Some (ctxErr net) else None))).
Proof.
  unfold selectBackoff. destruct (ctxDone net i);
    cbn [mbind M_bind emit mret M_ret];
    destruct (f _) as [t o]; reflexivity.
Qed.

Lemma requests_closeBodies {B} (deferred : nat) (x : B) :
  requests (trace (closeBodies deferred ≫= (fun _ => mret x))) = [].
Proof.
  cbn [closeBodies mbind M_bind mret M_ret trace fst]. rewrite app_nil_r.
  induction deferred as [|d IH]; [reflexivity|exact IH].
Qed.

Section DoHRequest.

Context (L : Lib) (cfg : Config) (net : Net) (u : URL) (httpClient : HTTPClient).

(** Every request of the loop is the one built from [u]. *)
Lemma queryDoH_loop_requests (fuel : nat) :
  forall (i : Z) (lastErr : option error) (deferred : nat),
    Forall (eq (dohRequest L u))
           (requests (trace (queryDoH_loop L cfg net fuel u httpClient i lastErr deferred))).
Proof.
  induction fuel as [|fuel IH]; intros i lastErr deferred; [constructor|].
  cbn [queryDoH_loop].
  destruct (i <=? Retries cfg); [|rewrite requests_closeBodies; constructor].
  rewrite bind_emit. cbn [trace fst].
  change (requests (EvAttempt i :: ?t)) with (requests t).
  destruct (http_NewRequest L "GET" (URL_String L u));
    [rewrite requests_closeBodies; constructor|].
  rewrite bind_emit. cbn [trace fst].
  change (requests (EvHTTPDo httpClient (dohRequest L u) :: ?t))
    with (dohRequest L u :: requests t).
  constructor; [reflexivity|].
  destruct (Do net i httpClient (dohRequest L u)) as [resp|err].
  - destruct (negb (StatusCode resp =? StatusOK)).
    { destruct (i <? Retries cfg); [apply IH|rewrite requests_closeBodies; constructor]. }
    destruct (Body resp) as [body|err].
    + destruct (Unpack L body) as [response|err].
      * rewrite requests_closeBodies. constructor.
      * destruct (i <? Retries cfg); [apply IH|rewrite requests_closeBodies; constructor].
    + destruct (i <? Retries cfg); [apply IH|rewrite requests_closeBodies; constructor].
  - destruct (i <? Retries cfg); [|apply IH].
    rewrite selectBackoff_bind. cbn [trace fst].
    destruct (ctxDone net i).
    + change (requests (EvCtxDone (backoff i) :: ?t)) with (requests t).
      rewrite requests_closeBodies. constructor.
    + change (requests (EvSleep (backoff i) :: ?t)) with (requests t).
      apply IH.
Qed.

(** The first iteration sends it, if the request can be created. *)
Lemma queryDoH_loop_first_request (fuel : nat) (lastErr : option error) (deferred : nat) :
  0 <= Retries cfg ->
  http_NewRequest L "GET" (URL_String L u) = None ->
  head (requests (trace (queryDoH_loop L cfg net (S fuel) u httpClient 0 lastErr deferred)))
  = Some (dohRequest L u).
Proof.
  intros HR Hnew. cbn [queryDoH_loop].
  destruct (Z.leb_spec 0 (Retries cfg)); [|lia].
  rewrite bind_emit, Hnew, bind_emit. reflexivity.
Qed.

End DoHRequest.

(** C8.  The code misses the claim on a host name that begins with "http".
    [queryDoH] tells a URL from a bare address by its first four letters:
    "httpbin.example" has no scheme and is no URL, yet [queryDoH] takes it
    for one, builds no https://httpbin.example/dns-query, and sends its
    request to httpbin.example?dns=<encoded>; "dns.example.org" next to it
    gets the URL of the specification. *)
Lemma queryDoH_host_beginning_with_http :
  Contains "httpbin.example" "://" = false
  /\ HasPrefix "httpbin.example" "http" = true
  /\ dohURL "httpbin.example" = "httpbin.example"
  /\ Request_URL
       <$> requests
             (trace (queryDoH Sample.lib (WithRetries 0 (WithProtocol DoH defaultConfig))
                       Sample.down 3 (mkMsg true [mkQuestion "example.com." TypeA] [])
                       "httpbin.example"))
     = ["httpbin.example?dns=ZXhhbXBsZS5jb20u"]
  /\ Request_URL
       <$> requests
             (trace (queryDoH Sample.lib (WithRetries 0 (WithProtocol DoH defaultConfig))
                       Sample.down 3 (mkMsg true [mkQuestion "example.com." TypeA] [])
                       "dns.example.org"))
     = ["https://dns.example.org/dns-query?dns=ZXhhbXBsZS5jb20u"].
Proof. vm_compute. repeat split. Qed.

(** Where [queryDoH] builds the URL it is to build: for a server address
    that does not begin with "http", a packable query and a
    URL that [url.Parse] accepts: every request of [queryDoH] is a GET of the
    URL parsed from https://<serverAddress>/dns-query with its [dns] query
    parameter set to the unpadded base64url encoding of the packed query, and
    carries the headers Accept and Content-Type, both
    application/dns-message; the first attempt sends it, provided the HTTP
    client and the request can be made.  Where net/url reads no parameter in
    the parsed URL and writes the lone parameter as dns=<encoded> after a
    question mark, the request URL is
    https://<serverAddress>/dns-query?dns=<encoded>; for "dns.example.org" the
    URL handed to the parser is https://dns.example.org/dns-query. *)
Theorem queryDoH_request (L : Lib) (cfg : Config) (net : Net) (fuel : nat)
    (msg : Msg) (server : string) (msgBytes : bytes) (u : URL) :
  HasPrefix server "http" = false ->
  Pack L msg = Ok msgBytes ->
  url_Parse L ("https://" +:+ server +:+ "/dns-query") = Ok u ->
  let encoded := RawURLEncoding_EncodeToString msgBytes in
  let target :=
    URL_setRawQuery u
      (Values_Encode L (<["dns" := [encoded]]> (url_ParseQuery L (RawQuery u)))) in
  let req :=
    {| Method := "GET";
       Request_URL := URL_String L target;
       Request_Header :=
         <["Content-Type" := ["application/dns-message"]]>
           (<["Accept" := ["application/dns-message"]]> ∅) |} in
  Forall (eq req) (requests (trace (queryDoH L cfg net fuel msg server)))
  /\ (0 <= Retries cfg -> (0 < fuel)%nat ->
      http_NewRequest L "GET" (URL_String L target) = None ->
      (is_Some (HTTPClient_ cfg) \/ ProxyType_ cfg = NoProxy
       \/ exists p, getProxyURL L cfg = (Some p, None)) ->
      head (requests (trace (queryDoH L cfg net fuel msg server))) = Some req)
  /\ Request_Header req !! "Accept" = Some ["application/dns-message"]
  /\ Request_Header req !! "Content-Type" = Some ["application/dns-message"]
  /\ (RawQuery u = "" ->
      url_ParseQuery L "" = ∅ ->
      Values_Encode L (<["dns" := [encoded]]> ∅) = "dns=" +:+ encoded ->
      URL_String L (URL_setRawQuery u ("dns=" +:+ encoded))
      = "https://" +:+ server +:+ "/dns-query" +:+ "?" +:+ "dns=" +:+ encoded ->
      Request_URL req
      = "https://" +:+ server +:+ "/dns-query" +:+ "?" +:+ "dns=" +:+ encoded)
  /\ dohURL "dns.example.org" = "https://dns.example.org/dns-query".
Proof.
  intros Hpre Hpack Hparse encoded target req.
  assert (Hurl : dohURL server = "https://" +:+ server +:+ "/dns-query")
    by (unfold dohURL; rewrite Hpre; reflexivity).
  assert (Hreq : dohRequest L (withDNSParam L u msgBytes) = req) by reflexivity.
  split; [|split; [|split; [|split; [|split]]]].
  - unfold queryDoH. rewrite Hpack, Hurl, Hparse, <- Hreq.
    destruct (HTTPClient_ cfg); [apply queryDoH_loop_requests|].
    destruct (negb _); [|apply queryDoH_loop_requests].
    destruct (getProxyURL L cfg) as [p [e|]]; [constructor|].
    apply queryDoH_loop_requests.
  - intros HR Hfuel Hnew Hclient. destruct fuel as [|fuel]; [lia|].
    unfold queryDoH. rewrite Hpack, Hurl, Hparse, <- Hreq.
    destruct (HTTPClient_ cfg) as [h|] eqn:Hh;
      [apply queryDoH_loop_first_request; assumption|].
    destruct (String.eqb_spec (ProxyType_ cfg) NoProxy) as [Hno|Hyes]; cbn [negb];
      [apply queryDoH_loop_first_request; assumption|].
    destruct Hclient as [[h Hc]|[Hc|[p Hp]]]; [discriminate Hc|contradiction|].
    rewrite Hp. apply queryDoH_loop_first_request; assumption.
  - reflexivity.
  - reflexivity.
  - intros Hraw Hquery Hencode Hstring.
    unfold req, target. cbn [Request_URL]. rewrite Hraw, Hquery, Hencode.
    exact Hstring.
  - reflexivity.
Qed.

(** Scenario B of the specification, run with the sample library: the
    request goes to https://dns.example.org/dns-query?dns=<encoded>. *)
Lemma queryDoH_request_witness :
  Forall (fun r => Method r = "GET"
                   /\ Request_URL r
                      = "https://dns.example.org/dns-query?dns=" +:+
                        RawURLEncoding_EncodeToString (Sample.stringBytes "example.com.")
                   /\ Request_Header r !! "Accept" = Some ["application/dns-message"]
                   /\ Request_Header r !! "Content-Type"
                      = Some ["application/dns-message"])
         (requests (trace (queryDoH Sample.lib
                             (WithRetries 0 (WithProtocol DoH defaultConfig))
                             Sample.down 3
                             (mkMsg true [mkQuestion "example.com." TypeA] [])
                             "dns.example.org")))
  /\ length (requests (trace (queryDoH Sample.lib
                                (WithRetries 0 (WithProtocol DoH defaultConfig))
                                Sample.down 3
                                (mkMsg true [mkQuestion "example.com." TypeA] [])
                                "dns.example.org"))) = 1%nat.
Proof.
  split; [|vm_compute; reflexivity].
  destruct (queryDoH_request Sample.lib (WithRetries 0 (WithProtocol DoH defaultConfig))
              Sample.down 3 (mkMsg true [mkQuestion "example.com." TypeA] [])
              "dns.example.org" (Sample.stringBytes "example.com.")
              (mkURL "https" None "dns.example.org" "/dns-query" "" ""))
    as (Hall & _ & HA & HC & HU & _).
  - reflexivity.
  - reflexivity.
  - vm_compute. reflexivity.
  - eapply Forall_impl; [exact Hall|].
    intros r <-. split; [reflexivity|]. split; [|split; [exact HA|exact HC]].
    apply HU.
    + reflexivity.
    + reflexivity.
    + vm_compute. reflexivity.
    + vm_compute. reflexivity.
Defined.

(** * Beyond the claims *)

(** ** How the options compose *)

(** [New] applies its options from left to right, starting from the
    configuration of [NewDefault]. *)
Lemma New_snoc (opts : list Option) (o : Option) : New (opts ++ [o]) = o (New opts).
Proof. rewrite New_app. reflexivity. Qed.

(** X1.  Two options of different families commute: each writes fields the other
    leaves alone.  So of a list of options only the relative order inside a
    family matters. *)
Theorem options_commute (a b : Opt) (c : Config) :
  family a <> family b -> run a (run b c) = run b (run a c).
Proof.
  intros Hf. destruct a, b; try reflexivity; exfalso; apply Hf; reflexivity.
Qed.

Lemma options_commute_witness :
  New [WithRetries 1; WithSOCKS5Proxy "127.0.0.1:1080" None]
  = New [WithSOCKS5Proxy "127.0.0.1:1080" None; WithRetries 1].
Proof.
  refine (options_commute (OSOCKS5Proxy "127.0.0.1:1080" None) (ORetries 1)
                          defaultConfig _).
  discriminate.
Defined.

(** X2.  Inside a family the later option wins: it erases the earlier one
    altogether, except that a server list given after a protocol keeps the
    protocol (and is not replaced by the protocol's default list). *)
Theorem later_option_wins (a b : Opt) (c : Config) :
  family a = family b ->
  (protocolThenServers a b = false -> run b (run a c) = run b c)
  /\ (forall protocol servers,
        a = OProtocol protocol -> b = OServers servers ->
        Protocol_ (run b (run a c)) = protocol
        /\ Servers (run b (run a c)) = servers).
Proof.
  intros Hf. split.
  - intros Hps. destruct a, b; try discriminate Hf; try discriminate Hps;
      reflexivity.
  - intros protocol servers -> ->. split; reflexivity.
Qed.

Lemma later_option_wins_witness :
  WithHTTPProxy "10.0.0.1:3128" None
    (WithSOCKS5Proxy "127.0.0.1:1080" (Some (mkProxyAuth "user" "pass")) defaultConfig)
  = WithHTTPProxy "10.0.0.1:3128" None defaultConfig
  /\ Servers (New [WithProtocol DoH; WithServers ["dns.example.org"]])
     = ["dns.example.org"]
  /\ Protocol_ (New [WithProtocol DoH; WithServers ["dns.example.org"]]) = DoH.
Proof.
  split.
  - refine (proj1 (later_option_wins
                     (OSOCKS5Proxy "127.0.0.1:1080" (Some (mkProxyAuth "user" "pass")))
                     (OHTTPProxy "10.0.0.1:3128" None) defaultConfig _) _);
      reflexivity.
  - destruct (proj2 (later_option_wins (OProtocol DoH) (OServers ["dns.example.org"])
                       defaultConfig eq_refl) DoH ["dns.example.org"] eq_refl eq_refl)
      as [HP HS].
    split; [exact HS|exact HP].
Defined.

(** ** The two address normalisations *)





(** ** The retry loop of [queryDoT] *)

Lemma queryDoT_unfold (L : Lib) (cfg : Config) (net : Net) (fuel : nat)
    (msg : Msg) (server : string) :
  queryDoT L cfg net fuel msg server
  = queryDoT_loop L cfg net fuel msg (ensurePort server) (dotTLS cfg) 0 None.
Proof. reflexivity. Qed.

Section DoTRetry.

Context (L : Lib) (cfg : Config) (net : Net) (msg : Msg) (server : string)
        (tlsConfig : TLSConfig).

Local Abbreviation op i := (exchangeDoT L cfg net i msg server tlsConfig).
Local Abbreviation loop fuel i lastErr :=
  (queryDoT_loop L cfg net fuel msg server tlsConfig i lastErr).

Lemma exchangeDoT_timeline (i : Z) : timeline (trace (op i)) = [].
Proof.
  unfold exchangeDoT. destruct (negb _); [|reflexivity].
  unfold exchangeDoTWithProxy.
  destruct (createDialer_proper L cfg) as [[d ->]|[e ->]]; [|reflexivity].
  case_net; reflexivity.
Qed.

Lemma dot_exit (fuel : nat) (i : Z) (lastErr : option error) :
  Retries cfg < i -> loop (S fuel) i lastErr = ([], Done (None, lastErr)).
Proof.
  intros Hi. cbn [queryDoT_loop].
  destruct (Z.leb_spec i (Retries cfg)); [lia|]. reflexivity.
Qed.

Lemma dot_success (fuel : nat) (i : Z) (lastErr : option error) (response : option Msg) :
  i <= Retries cfg ->
  outcome (op i) = Done (response, None) ->
  loop (S fuel) i lastErr = (EvAttempt i :: trace (op i), Done (response, None)).
Proof.
  intros Hi Hop. cbn [queryDoT_loop].
  destruct (Z.leb_spec i (Retries cfg)); [|lia].
  rewrite bind_emit, (bind_Done _ _ _ Hop). cbn [trace outcome fst snd mret M_ret].
  rewrite app_nil_r. reflexivity.
Qed.

Lemma dot_wait (fuel : nat) (i : Z) (lastErr : option error) (r : option Msg) (e : error) :
  i < Retries cfg ->
  outcome (op i) = Done (r, Some e) ->
  ctxDone net i = false ->
  loop (S fuel) i lastErr =
    (EvAttempt i :: trace (op i) ++ EvSleep (backoff i)
       :: trace (loop fuel (int_incr i) (Some e)),
     outcome (loop fuel (int_incr i) (Some e))).
Proof.
  intros Hi Hop Hctx. cbn [queryDoT_loop].
  destruct (Z.leb_spec i (Retries cfg)); [|lia].
  rewrite bind_emit, (bind_Done _ _ _ Hop). cbn [trace outcome fst snd].
  destruct (Z.ltb_spec i (Retries cfg)); [|lia].
  unfold selectBackoff. rewrite Hctx.
  destruct (queryDoT_loop _ _ _ _ _ _ _ _ _) as [t o].
  reflexivity.
Qed.

Lemma dot_cancel (fuel : nat) (i : Z) (lastErr : option error) (r : option Msg) (e : error) :
  i < Retries cfg ->
  outcome (op i) = Done (r, Some e) ->
  ctxDone net i = true ->
  loop (S fuel) i lastErr =
    (EvAttempt i :: trace (op i) ++ [EvCtxDone (backoff i)],
     Done (None, Some (ctxErr net))).
Proof.
  intros Hi Hop Hctx. cbn [queryDoT_loop].
  destruct (Z.leb_spec i (Retries cfg)); [|lia].
  rewrite bind_emit, (bind_Done _ _ _ Hop). cbn [trace outcome fst snd].
  destruct (Z.ltb_spec i (Retries cfg)); [|lia].
  unfold selectBackoff. rewrite Hctx. reflexivity.
Qed.

Lemma dot_last (fuel : nat) (i : Z) (lastErr : option error) (r : option Msg) (e : error) :
  i = Retries cfg ->
  outcome (op i) = Done (r, Some e) ->
  loop (S fuel) i lastErr =
    (EvAttempt i :: trace (op i) ++ trace (loop fuel (int_incr i) (Some e)),
     outcome (loop fuel (int_incr i) (Some e))).
Proof.
  intros Hi Hop. cbn [queryDoT_loop].
  destruct (Z.leb_spec i (Retries cfg)); [|lia].
  rewrite bind_emit, (bind_Done _ _ _ Hop). cbn [trace outcome fst snd].
  destruct (Z.ltb_spec i (Retries cfg)); [lia|].
  destruct (queryDoT_loop _ _ _ _ _ _ _ _ _) as [t o].
  reflexivity.
Qed.

Lemma dot_timeline_iteration (i : Z) (t : list Event) :
  timeline (EvAttempt i :: trace (op i) ++ t) = EvAttempt i :: timeline t.
Proof.
  rewrite timeline_cons. cbn [isTimeline].
  rewrite timeline_app, exchangeDoT_timeline. reflexivity.
Qed.

Lemma dot_rounds (errs : Z -> error) (n : nat) :
  forall (fuel : nat) (i : Z) (lastErr : option error),
    0 <= i ->
    i + Z.of_nat n <= Retries cfg ->
    Retries cfg <= maxLinearRetries ->
    (forall j, i <= j < i + Z.of_nat n ->
               outcome (op j) = Done (None, Some (errs j))) ->
    (forall j, i <= j < i + Z.of_nat n -> ctxDone net j = false) ->
    exists lastErr',
      outcome (loop (n + fuel) i lastErr)
      = outcome (loop fuel (i + Z.of_nat n) lastErr')
      /\ timeline (trace (loop (n + fuel) i lastErr))
         = rounds n i ++ timeline (trace (loop fuel (i + Z.of_nat n) lastErr')).
Proof.
  induction n as [|n IH]; intros fuel i lastErr Hi HR Hmax Hfail Hctx.
  - exists lastErr. replace (i + Z.of_nat 0) with i by lia. split; reflexivity.
  - assert (Hi1 : i < Retries cfg) by lia.
    destruct (IH fuel (i + 1) (Some (errs i))) as (lastErr' & Ho & Ht);
      try lia.
    { intros j Hj. apply Hfail. lia. }
    { intros j Hj. apply Hctx. lia. }
    exists lastErr'.
    replace (i + Z.of_nat (S n)) with (i + 1 + Z.of_nat n) by lia.
    change (S n + fuel)%nat with (S (n + fuel)).
    rewrite (dot_wait _ _ _ None (errs i)); [|lia|apply Hfail; lia|apply Hctx; lia].
    rewrite int_incr_small
      by (pose proof maxLinearRetries_value; unfold MaxInt64; lia).
    cbn [trace outcome fst snd]. split; [exact Ho|].
    rewrite dot_timeline_iteration. cbn [rounds].
    rewrite timeline_cons. cbn [isTimeline].
    rewrite backoff_linear by lia. rewrite Ht. reflexivity.
Qed.

Lemma dot_exhausted (fuel : nat) (errs : Z -> error) :
  0 <= Retries cfg <= maxLinearRetries ->
  Retries cfg + 1 < Z.of_nat fuel ->
  (forall i, 0 <= i < Retries cfg -> ctxDone net i = false) ->
  (forall i, 0 <= i <= Retries cfg -> outcome (op i) = Done (None, Some (errs i))) ->
  outcome (loop fuel 0 None) = Done (None, Some (errs (Retries cfg)))
  /\ timeline (trace (loop fuel 0 None)) = schedule (Z.to_nat (Retries cfg)) 0.
Proof.
  intros HR Hfuel Hctx Hfail.
  destruct (fuel_split fuel (Retries cfg) 2) as [rest ->]; [lia|lia|].
  set (n := Z.to_nat (Retries cfg)).
  assert (Hn : Z.of_nat n = Retries cfg) by (unfold n; lia).
  destruct (dot_rounds errs n (2 + rest) 0 None) as (lastErr' & Ho & Ht); try lia.
  { intros j Hj. apply Hfail. lia. }
  { intros j Hj. apply Hctx. lia. }
  rewrite Ho, Ht. replace (0 + Z.of_nat n) with (Retries cfg) by lia.
  change (2 + rest)%nat with (S (S rest)).
  rewrite (dot_last _ _ _ None (errs (Retries cfg))); [|reflexivity|apply Hfail; lia].
  rewrite int_incr_small
    by (pose proof maxLinearRetries_value; unfold MaxInt64; lia).
  rewrite dot_exit by lia. cbn [trace outcome fst snd].
  split; [reflexivity|].
  rewrite app_nil_r, <- (app_nil_r (trace _)), dot_timeline_iteration.
  rewrite schedule_rounds. replace (0 + Z.of_nat n) with (Retries cfg) by lia.
  reflexivity.
Qed.

Lemma dot_succeeds_at (fuel : nat) (errs : Z -> error) (k : Z) (response : Msg) :
  0 <= k <= Retries cfg ->
  Retries cfg <= maxLinearRetries ->
  k < Z.of_nat fuel ->
  (forall i, 0 <= i < k -> ctxDone net i = false) ->
  (forall i, 0 <= i < k -> outcome (op i) = Done (None, Some (errs i))) ->
  outcome (op k) = Done (Some response, None) ->
  outcome (loop fuel 0 None) = Done (Some response, None)
  /\ timeline (trace (loop fuel 0 None)) = schedule (Z.to_nat k) 0.
Proof.
  intros Hk HR Hfuel Hctx Hfail Hok.
  destruct (fuel_split fuel k 1) as [rest ->]; [lia|lia|].
  set (n := Z.to_nat k).
  assert (Hn : Z.of_nat n = k) by (unfold n; lia).
  destruct (dot_rounds errs n (1 + rest) 0 None) as (lastErr' & Ho & Ht); try lia.
  { intros j Hj. apply Hfail. lia. }
  { intros j Hj. apply Hctx. lia. }
  rewrite Ho, Ht. replace (0 + Z.of_nat n) with k by lia.
  change (1 + rest)%nat with (S rest).
  rewrite (dot_success _ _ _ (Some response)); [|lia|exact Hok].
  cbn [trace outcome fst snd]. split; [reflexivity|].
  rewrite <- (app_nil_r (trace _)), dot_timeline_iteration.
  rewrite schedule_rounds. replace (0 + Z.of_nat n) with k by lia.
  reflexivity.
Qed.

Lemma dot_cancelled_at (fuel : nat) (errs : Z -> error) (k : Z) :
  0 <= k < Retries cfg ->
  Retries cfg <= maxLinearRetries ->
  k < Z.of_nat fuel ->
  (forall i, 0 <= i < k -> ctxDone net i = false) ->
  ctxDone net k = true ->
  (forall i, 0 <= i <= k -> outcome (op i) = Done (None, Some (errs i))) ->
  outcome (loop fuel 0 None) = Done (None, Some (ctxErr net))
  /\ timeline (trace (loop fuel 0 None))
     = schedule (Z.to_nat k) 0 ++ [EvCtxDone ((k + 1) * (100 * Millisecond))].
Proof.
  intros Hk HR Hfuel Hctx Hdone Hfail.
  destruct (fuel_split fuel k 1) as [rest ->]; [lia|lia|].
  set (n := Z.to_nat k).
  assert (Hn : Z.of_nat n = k) by (unfold n; lia).
  destruct (dot_rounds errs n (1 + rest) 0 None) as (lastErr' & Ho & Ht); try lia.
  { intros j Hj. apply Hfail. lia. }
  { intros j Hj. apply Hctx. lia. }
  rewrite Ho, Ht. replace (0 + Z.of_nat n) with k by lia.
  change (1 + rest)%nat with (S rest).
  rewrite (dot_cancel _ _ _ None (errs k)); [|lia|apply Hfail; lia|exact Hdone].
  cbn [trace outcome fst snd]. split; [reflexivity|].
  rewrite dot_timeline_iteration. rewrite backoff_linear by lia.
  rewrite schedule_rounds. replace (0 + Z.of_nat n) with k by lia.
  rewrite <- app_assoc. reflexivity.
Qed.

End DoTRetry.

(** X4.  [queryDoT] retries as [queryUDPTCP] does, on the address with its port.
    With a retry count [R] up to [maxLinearRetries]: when every exchange with
    the normalised address fails and the context is not done during the
    waits, the query makes the attempts 0..R with the waits 100ms, ...,
    R*100ms between them and returns the last error; when attempt [k] is the
    first to succeed it is the last; when the context is done during the wait
    after attempt [k], the query returns [ctx.Err()] and attempt [k] is the
    last. *)
Theorem queryDoT_retries (L : Lib) (cfg : Config) (net : Net) (fuel : nat)
    (msg : Msg) (server : string) (errs : Z -> error) :
  0 <= Retries cfg <= maxLinearRetries ->
  Retries cfg + 1 < Z.of_nat fuel ->
  (forall k,
     0 <= k <= Retries cfg ->
     (forall i, 0 <= i < k -> ctxDone net i = false) ->
     (forall i, 0 <= i < k ->
        outcome (exchangeDoT L cfg net i msg (ensurePort server) (dotTLS cfg))
        = Done (None, Some (errs i))) ->
     (k = Retries cfg ->
      outcome (exchangeDoT L cfg net k msg (ensurePort server) (dotTLS cfg))
      = Done (None, Some (errs k)) ->
      outcome (queryDoT L cfg net fuel msg server) = Done (None, Some (errs k))
      /\ attempts (trace (queryDoT L cfg net fuel msg server)) = seqZ 0 (k + 1)
      /\ waits (trace (queryDoT L cfg net fuel msg server))
         = (fun j => j * (100 * Millisecond)) <$> seqZ 1 k)
     /\ (forall response,
           outcome (exchangeDoT L cfg net k msg (ensurePort server) (dotTLS cfg))
           = Done (Some response, None) ->
           outcome (queryDoT L cfg net fuel msg server) = Done (Some response, None)
           /\ attempts (trace (queryDoT L cfg net fuel msg server)) = seqZ 0 (k + 1)
           /\ waits (trace (queryDoT L cfg net fuel msg server))
              = (fun j => j * (100 * Millisecond)) <$> seqZ 1 k)
     /\ (k < Retries cfg ->
         outcome (exchangeDoT L cfg net k msg (ensurePort server) (dotTLS cfg))
         = Done (None, Some (errs k)) ->
         ctxDone net k = true ->
         outcome (queryDoT L cfg net fuel msg server) = Done (None, Some (ctxErr net))
         /\ attempts (trace (queryDoT L cfg net fuel msg server)) = seqZ 0 (k + 1)
         /\ waits (trace (queryDoT L cfg net fuel msg server))
            = (fun j => j * (100 * Millisecond)) <$> seqZ 1 k)).
Proof.
  intros HR Hfuel k Hk Hctx Hfail. rewrite queryDoT_unfold.
  assert (Hviews : forall t : list Event,
             timeline t = schedule (Z.to_nat k) 0 ->
             attempts t = seqZ 0 (k + 1)
             /\ waits t = (fun j => j * (100 * Millisecond)) <$> seqZ 1 k).
  { intros t Ht. rewrite <- attempts_timeline, <- waits_timeline, Ht.
    rewrite attempts_schedule, waits_schedule.
    replace (Z.of_nat (Z.to_nat k)) with k by lia. split; reflexivity. }
  split; [|split].
  - intros -> Hlast.
    destruct (dot_exhausted L cfg net msg (ensurePort server) (dotTLS cfg) fuel
                (fun i => errs i) HR Hfuel Hctx) as [Ho Ht].
    { intros i Hi. destruct (Z.eq_dec i (Retries cfg)) as [->|];
        [exact Hlast|apply Hfail; lia]. }
    split; [exact Ho|]. apply Hviews. exact Ht.
  - intros response Hok.
    destruct (dot_succeeds_at L cfg net msg (ensurePort server) (dotTLS cfg) fuel
                errs k response) as [Ho Ht]; try assumption; try lia.
    split; [exact Ho|]. apply Hviews. exact Ht.
  - intros Hlt Hk_fail Hdone.
    destruct (dot_cancelled_at L cfg net msg (ensurePort server) (dotTLS cfg) fuel
                errs k) as [Ho Ht]; try assumption; try lia.
    { intros i Hi. destruct (Z.eq_dec i k) as [->|];
        [exact Hk_fail|apply Hfail; lia]. }
    split; [exact Ho|].
    rewrite <- attempts_timeline, <- waits_timeline, Ht.
    unfold attempts, waits. rewrite !omap_app.
    fold (attempts (schedule (Z.to_nat k) 0)). fold (waits (schedule (Z.to_nat k) 0)).
    rewrite attempts_schedule, waits_schedule. cbn [omap]. rewrite !app_nil_r.
    replace (Z.of_nat (Z.to_nat k)) with k by lia. split; reflexivity.
Qed.

Lemma queryDoT_retries_witness :
  outcome (queryDoT Sample.lib (WithProtocol DoT defaultConfig) Sample.down 5
             (mkMsg true [mkQuestion "example.com." TypeA] []) "9.9.9.9")
  = Done (None, Some "i/o timeout #3")
  /\ waits (trace (queryDoT Sample.lib (WithProtocol DoT defaultConfig) Sample.down 5
                     (mkMsg true [mkQuestion "example.com." TypeA] []) "9.9.9.9"))
     = [100000000; 200000000; 300000000].
Proof.
  destruct (queryDoT_retries Sample.lib (WithProtocol DoT defaultConfig) Sample.down 5
              (mkMsg true [mkQuestion "example.com." TypeA] []) "9.9.9.9"
              (fun i => "i/o timeout #" +:+ pretty i)) with (k := 3)
    as ((Ho & _ & Hw) & _).
  - vm_compute. split; discriminate.
  - vm_compute. reflexivity.
  - vm_compute. split; discriminate.
  - intros i _. reflexivity.
  - intros i _. reflexivity.
  - reflexivity.
  - reflexivity.
  - split; [exact Ho|exact Hw].
Defined.

(** ** The retry loop of [queryDoH] *)

Lemma seqZ_S (i : Z) (n : nat) : seqZ i (Z.of_nat (S n)) = i :: seqZ (i + 1) (Z.of_nat n).
Proof.
  rewrite seqZ_cons by lia. f_equal. f_equal; lia.
Qed.

Lemma omap_cons_option_list {A B} (f : A -> option B) (x : A) (l : list A) :
  omap f (x :: l) = option_list (f x) ++ omap f l.
Proof. simpl. destruct (f x); reflexivity. Qed.

Lemma attempts_replicate_BodyClose (n : nat) : attempts (replicate n EvBodyClose) = [].
Proof. induction n as [|n IH]; [reflexivity|exact IH]. Qed.

Lemma waits_replicate_BodyClose (n : nat) : waits (replicate n EvBodyClose) = [].
Proof. induction n as [|n IH]; [reflexivity|exact IH]. Qed.

Lemma views_closing (i : Z) (mid : list Event) (n : nat) :
  attempts mid = [] -> waits mid = [] ->
  attempts (EvAttempt i :: mid ++ replicate n EvBodyClose) = [i]
  /\ waits (EvAttempt i :: mid ++ replicate n EvBodyClose) = [].
Proof.
  intros Ha Hw.
  pose proof (attempts_replicate_BodyClose n) as Hra.
  pose proof (waits_replicate_BodyClose n) as Hrw.
  change (attempts (EvAttempt i :: mid ++ replicate n EvBodyClose))
    with (i :: attempts (mid ++ replicate n EvBodyClose)).
  change (waits (EvAttempt i :: mid ++ replicate n EvBodyClose))
    with (waits (mid ++ replicate n EvBodyClose)).
  unfold attempts, waits in *. rewrite !omap_app, Ha, Hw, Hra, Hrw.
  split; reflexivity.
Qed.

Lemma closeBodies_bind {B} (deferred : nat) (x : B) :
  closeBodies deferred ≫= (fun _ => mret x) = (replicate deferred EvBodyClose, Done x).
Proof.
  cbn [closeBodies mbind M_bind mret M_ret]. rewrite app_nil_r. reflexivity.
Qed.

Section DoHRetry.

Context (L : Lib) (cfg : Config) (net : Net) (u : URL) (client : HTTPClient).

Hypothesis request_built : http_NewRequest L "GET" (URL_String L u) = None.

Local Abbreviation loop fuel i lastErr deferred :=
  (queryDoH_loop L cfg net fuel u client i lastErr deferred).

Lemma doh_exit (fuel : nat) (i : Z) (lastErr : option error) (deferred : nat) :
  Retries cfg < i ->
  loop (S fuel) i lastErr deferred = (replicate deferred EvBodyClose, Done (None, lastErr)).
Proof.
  intros Hi. cbn [queryDoH_loop].
  destruct (Z.leb_spec i (Retries cfg)); [lia|]. apply closeBodies_bind.
Qed.

(** A failed iteration that is not the last one. *)
Lemma doh_continue (fuel : nat) (i : Z) (lastErr : option error) (deferred : nat) (e : error) :
  0 <= i < Retries cfg ->
  Retries cfg <= maxLinearRetries ->
  dohAttempt L net u client i = Err e ->
  (isOk (Do net i client (dohRequest L u)) = false -> ctxDone net i = false) ->
  exists deferred',
    outcome (loop (S fuel) i lastErr deferred)
    = outcome (loop fuel (i + 1) (Some e) deferred')
    /\ attempts (trace (loop (S fuel) i lastErr deferred))
       = i :: attempts (trace (loop fuel (i + 1) (Some e) deferred'))
    /\ waits (trace (loop (S fuel) i lastErr deferred))
       = option_list (dohWait L net u client i)
         ++ waits (trace (loop fuel (i + 1) (Some e) deferred')).
Proof.
  intros Hi HR Hfail Hctx. cbn [queryDoH_loop].
  destruct (Z.leb_spec i (Retries cfg)); [|lia].
  rewrite request_built.
  destruct (Z.ltb_spec i (Retries cfg)); [|lia].
  rewrite (int_incr_small i)
    by (pose proof maxLinearRetries_value; unfold MaxInt64; lia).
  unfold dohAttempt, dohWait, readResponse in *.
  rewrite !bind_emit. cbn [trace outcome fst snd].
  destruct (Do net i client (dohRequest L u)) as [resp|err].
  - exists (S deferred).
    destruct (negb (StatusCode resp =? StatusOK)).
    { injection Hfail as <-. repeat split; reflexivity. }
    destruct (Body resp) as [body|err].
    2:{ injection Hfail as <-. repeat split; reflexivity. }
    destruct (Unpack L body) as [response|err]; [discriminate|].
    injection Hfail as <-. repeat split; reflexivity.
  - exists deferred. injection Hfail as <-.
    rewrite selectBackoff_bind, Hctx by reflexivity.
    rewrite backoff_linear by lia. cbn [trace outcome fst snd].
    repeat split; reflexivity.
Qed.


Lemma doh_rounds (errs : Z -> error) (n : nat) :
  forall (fuel : nat) (i : Z) (lastErr : option error) (deferred : nat),
    0 <= i ->
    i + Z.of_nat n <= Retries cfg ->
    Retries cfg <= maxLinearRetries ->
    (forall j, i <= j < i + Z.of_nat n -> dohAttempt L net u client j = Err (errs j)) ->
    (forall j, i <= j < i + Z.of_nat n ->
               isOk (Do net j client (dohRequest L u)) = false -> ctxDone net j = false) ->
    exists lastErr' deferred',
      outcome (loop (n + fuel) i lastErr deferred)
      = outcome (loop fuel (i + Z.of_nat n) lastErr' deferred')
      /\ attempts (trace (loop (n + fuel) i lastErr deferred))
         = seqZ i (Z.of_nat n)
           ++ attempts (trace (loop fuel (i + Z.of_nat n) lastErr' deferred'))
      /\ waits (trace (loop (n + fuel) i lastErr deferred))
         = omap (dohWait L net u client) (seqZ i (Z.of_nat n))
           ++ waits (trace (loop fuel (i + Z.of_nat n) lastErr' deferred')).
Proof.
  induction n as [|n IH]; intros fuel i lastErr deferred Hi HR Hmax Hfail Hctx.
  - exists lastErr, deferred. replace (i + Z.of_nat 0) with i by lia.
    repeat split; reflexivity.
  - destruct (doh_continue (n + fuel) i lastErr deferred (errs i))
      as (d1 & Ho1 & Ha1 & Hw1); [lia|lia|apply Hfail; lia|apply Hctx; lia|..].
    destruct (IH fuel (i + 1) (Some (errs i)) d1) as (lastErr' & d2 & Ho & Ha & Hw);
      try lia.
    { intros j Hj. apply Hfail. lia. }
    { intros j Hj. apply Hctx. lia. }
    exists lastErr', d2.
    replace (i + Z.of_nat (S n)) with (i + 1 + Z.of_nat n) by lia.
    change (S n + fuel)%nat with (S (n + fuel)).
    rewrite Ho1, Ha1, Hw1, Ho, Ha, Hw, seqZ_S, omap_cons_option_list.
    rewrite <- app_assoc. repeat split; reflexivity.
Qed.

Lemma doh_last (fuel : nat) (i : Z) (lastErr : option error) (deferred : nat) (e : error) :
  i = Retries cfg ->
  0 <= Retries cfg <= maxLinearRetries ->
  dohAttempt L net u client i = Err e ->
  outcome (loop (S (S fuel)) i lastErr deferred) = Done (None, Some e)
  /\ attempts (trace (loop (S (S fuel)) i lastErr deferred)) = [i]
  /\ waits (trace (loop (S (S fuel)) i lastErr deferred)) = [].
Proof.
  intros Hi HR Hfail. cbn [queryDoH_loop].
  destruct (Z.leb_spec i (Retries cfg)); [|lia].
  rewrite request_built.
  destruct (Z.ltb_spec i (Retries cfg)); [lia|].
  rewrite (int_incr_small i)
    by (pose proof maxLinearRetries_value; unfold MaxInt64; lia).
  destruct (Z.leb_spec (i + 1) (Retries cfg)); [lia|].
  unfold dohAttempt, readResponse in *.
  rewrite !bind_emit. cbn [trace outcome fst snd].
  destruct (Do net i client (dohRequest L u)) as [resp|err].
  - destruct (negb (StatusCode resp =? StatusOK)).
    { injection Hfail as <-. rewrite closeBodies_bind. split; [reflexivity|].
      apply (views_closing i [EvHTTPDo client (dohRequest L u)]); reflexivity. }
    destruct (Body resp) as [body|err].
    2:{ injection Hfail as <-. rewrite closeBodies_bind. split; [reflexivity|].
        apply (views_closing i [EvHTTPDo client (dohRequest L u)]); reflexivity. }
    destruct (Unpack L body) as [response|err]; [discriminate|].
    injection Hfail as <-. rewrite closeBodies_bind. split; [reflexivity|].
    apply (views_closing i [EvHTTPDo client (dohRequest L u)]); reflexivity.
  - injection Hfail as <-. rewrite closeBodies_bind. split; [reflexivity|].
    apply (views_closing i [EvHTTPDo client (dohRequest L u)]); reflexivity.
Qed.

Lemma doh_success (fuel : nat) (i : Z) (lastErr : option error) (deferred : nat)
    (response : Msg) :
  i <= Retries cfg ->
  dohAttempt L net u client i = Ok response ->
  outcome (loop (S fuel) i lastErr deferred) = Done (Some response, None)
  /\ attempts (trace (loop (S fuel) i lastErr deferred)) = [i]
  /\ waits (trace (loop (S fuel) i lastErr deferred)) = [].
Proof.
  intros Hi Hok. cbn [queryDoH_loop].
  destruct (Z.leb_spec i (Retries cfg)); [|lia].
  rewrite request_built.
  unfold dohAttempt, readResponse in *.
  rewrite !bind_emit. cbn [trace outcome fst snd].
  destruct (Do net i client (dohRequest L u)) as [resp|err]; [|discriminate].
  destruct (negb (StatusCode resp =? StatusOK)); [discriminate|].
  destruct (Body resp) as [body|err]; [|discriminate].
  destruct (Unpack L body) as [response'|err]; [|discriminate].
  injection Hok as ->. rewrite closeBodies_bind. split; [reflexivity|].
  apply (views_closing i [EvHTTPDo client (dohRequest L u)]); reflexivity.
Qed.

Lemma doh_cancel (fuel : nat) (i : Z) (lastErr : option error) (deferred : nat) :
  i < Retries cfg ->
  isOk (Do net i client (dohRequest L u)) = false ->
  ctxDone net i = true ->
  outcome (loop (S fuel) i lastErr deferred) = Done (None, Some (ctxErr net))
  /\ attempts (trace (loop (S fuel) i lastErr deferred)) = [i]
  /\ waits (trace (loop (S fuel) i lastErr deferred)) = [].
Proof.
  intros Hi Herr Hdone. cbn [queryDoH_loop].
  destruct (Z.leb_spec i (Retries cfg)); [|lia].
  rewrite request_built.
  destruct (Z.ltb_spec i (Retries cfg)); [|lia].
  rewrite !bind_emit. cbn [trace outcome fst snd].
  destruct (Do net i client (dohRequest L u)) as [resp|err]; [discriminate|].
  rewrite selectBackoff_bind, Hdone, closeBodies_bind. split; [reflexivity|].
  apply (views_closing i [EvHTTPDo client (dohRequest L u); EvCtxDone (backoff i)]);
    reflexivity.
Qed.

End DoHRetry.

Lemma queryDoH_unfold (L : Lib) (cfg : Config) (net : Net) (fuel : nat) (msg : Msg)
    (server : string) (msgBytes : bytes) (u : URL) (client : HTTPClient) :
  Pack L msg = Ok msgBytes ->
  url_Parse L (dohURL server) = Ok u ->
  dohClient L cfg = Some client ->
  queryDoH L cfg net fuel msg server
  = queryDoH_loop L cfg net fuel (withDNSParam L u msgBytes) client 0 None 0.
Proof.
  intros Hpack Hurl Hclient. unfold queryDoH, dohClient in *.
  rewrite Hpack, Hurl.
  destruct (HTTPClient_ cfg) as [h|]; [injection Hclient as <-; reflexivity|].
  destruct (negb _); [|injection Hclient as <-; reflexivity].
  destruct (getProxyURL L cfg) as [p [e|]]; [discriminate|].
  injection Hclient as <-. reflexivity.
Qed.

(** X5.  The retries of [queryDoH].  With a retry count [R] up to
    [maxLinearRetries], a message that packs, a URL that parses and an HTTP
    client at hand: the query makes the attempts 0, 1, ... and stops at the
    first one that yields an answer, at a cancelled wait, or after attempt
    [R], whose error it returns.  Only a failure of the transport is
    followed by a wait, of (i+1)*100ms, and only there does the loop select
    on the context: a response with a status other than 200, a body that
    cannot be read and a message that cannot be unpacked are retried at
    once. *)
Theorem queryDoH_retries (L : Lib) (cfg : Config) (net : Net) (fuel : nat) (msg : Msg)
    (server : string) (msgBytes : bytes) (u0 u : URL) (client : HTTPClient)
    (errs : Z -> error) (k : Z) :
  Pack L msg = Ok msgBytes ->
  url_Parse L (dohURL server) = Ok u0 ->
  dohClient L cfg = Some client ->
  u = withDNSParam L u0 msgBytes ->
  http_NewRequest L "GET" (URL_String L u) = None ->
  0 <= Retries cfg <= maxLinearRetries ->
  Retries cfg + 1 < Z.of_nat fuel ->
  0 <= k <= Retries cfg ->
  (forall i, 0 <= i < k -> dohAttempt L net u client i = Err (errs i)) ->
  (forall i, 0 <= i < k ->
     isOk (Do net i client (dohRequest L u)) = false -> ctxDone net i = false) ->
  (k = Retries cfg ->
   dohAttempt L net u client k = Err (errs k) ->
   outcome (queryDoH L cfg net fuel msg server) = Done (None, Some (errs k))
   /\ attempts (trace (queryDoH L cfg net fuel msg server)) = seqZ 0 (k + 1)
   /\ waits (trace (queryDoH L cfg net fuel msg server))
      = omap (dohWait L net u client) (seqZ 0 k))
  /\ (forall response,
        dohAttempt L net u client k = Ok response ->
        outcome (queryDoH L cfg net fuel msg server) = Done (Some response, None)
        /\ attempts (trace (queryDoH L cfg net fuel msg server)) = seqZ 0 (k + 1)
        /\ waits (trace (queryDoH L cfg net fuel msg server))
           = omap (dohWait L net u client) (seqZ 0 k))
  /\ (k < Retries cfg ->
      isOk (Do net k client (dohRequest L u)) = false ->
      ctxDone net k = true ->
      outcome (queryDoH L cfg net fuel msg server) = Done (None, Some (ctxErr net))
      /\ attempts (trace (queryDoH L cfg net fuel msg server)) = seqZ 0 (k + 1)
      /\ waits (trace (queryDoH L cfg net fuel msg server))
         = omap (dohWait L net u client) (seqZ 0 k)).
Proof.
  intros Hpack Hurl Hclient -> Hnew HR Hfuel Hk Hfail Hctx.
  rewrite (queryDoH_unfold _ _ _ _ _ _ _ _ _ Hpack Hurl Hclient).
  set (u := withDNSParam L u0 msgBytes) in *.
  destruct (fuel_split fuel k 2) as [rest ->]; [lia|lia|].
  set (n := Z.to_nat k).
  assert (Hn : Z.of_nat n = k) by (unfold n; lia).
  destruct (doh_rounds L cfg net u client Hnew errs n (2 + rest) 0 None 0%nat)
    as (lastErr' & d & Ho & Ha & Hw); try lia.
  { intros j Hj. apply Hfail. lia. }
  { intros j Hj. apply Hctx. lia. }
  rewrite Ho, Ha, Hw. replace (0 + Z.of_nat n) with k by lia.
  rewrite Hn, (seqZ_app 0 k 1) by lia. cbn [seqZ seq fmap list_fmap Z.to_nat Pos.to_nat
    Pos.iter_op Init.Nat.add]. replace (0 + k + Z.of_nat 0) with k by lia.
  change (2 + rest)%nat with (S (S rest)).
  split; [|split].
  - intros HkR Hlast.
    destruct (doh_last L cfg net u client Hnew rest k lastErr' d (errs k))
      as (Ho' & Ha' & Hw'); [lia|lia|exact Hlast|].
    rewrite Ho', Ha', Hw', app_nil_r. repeat split; reflexivity.
  - intros response Hok.
    destruct (doh_success L cfg net u client Hnew (S rest) k lastErr' d response)
      as (Ho' & Ha' & Hw'); [lia|exact Hok|].
    rewrite Ho', Ha', Hw', app_nil_r. repeat split; reflexivity.
  - intros Hlt Herr Hdone.
    destruct (doh_cancel L cfg net u client Hnew (S rest) k lastErr' d)
      as (Ho' & Ha' & Hw'); [lia|exact Herr|exact Hdone|].
    rewrite Ho', Ha', Hw', app_nil_r. repeat split; reflexivity.
Qed.

Lemma queryDoH_retries_witness :
  outcome (queryDoH Sample.lib (WithProtocol DoH defaultConfig) unsteady 5
             (mkMsg true [mkQuestion "example.com." TypeA] []) "dns.example")
  = Done (Some (mkMsg true [] []), None)
  /\ attempts (trace (queryDoH Sample.lib (WithProtocol DoH defaultConfig) unsteady 5
                        (mkMsg true [mkQuestion "example.com." TypeA] []) "dns.example"))
     = [0; 1; 2; 3]
  /\ waits (trace (queryDoH Sample.lib (WithProtocol DoH defaultConfig) unsteady 5
                     (mkMsg true [mkQuestion "example.com." TypeA] []) "dns.example"))
     = [200000000].
Proof.
  pose (msg := mkMsg true [mkQuestion "example.com." TypeA] []).
  pose (u0 := mkURL "https" None "dns.example" "/dns-query" "" "").
  pose (client := BuiltClient None None (5 * Second)).
  pose (u := withDNSParam Sample.lib u0 (Sample.stringBytes "example.com.")).
  destruct (queryDoH_retries Sample.lib (WithProtocol DoH defaultConfig) unsteady 5
              msg "dns.example" (Sample.stringBytes "example.com.") u0 u client
              (fun i => match dohAttempt Sample.lib unsteady u client i with
                        | Err e => e
                        | Ok _ => ""
                        end) 3)
    as (_ & Hok & _).
  - reflexivity.
  - reflexivity.
  - reflexivity.
  - reflexivity.
  - reflexivity.
  - vm_compute. split; discriminate.
  - vm_compute. reflexivity.
  - vm_compute. split; discriminate.
  - intros i Hi. assert (Hc : i = 0 \/ i = 1 \/ i = 2) by lia.
    destruct Hc as [->|[->| ->]]; reflexivity.
  - intros i _ _. reflexivity.
  - destruct (Hok (mkMsg true [] [])) as (Ho & Ha & Hw); [reflexivity|].
    split; [exact Ho|]. split; [exact Ha|exact Hw].
Defined.

(** ** The response bodies of [queryDoH] *)

Lemma closes_nothing (net : Net) (deferred : nat) :
  exists body n,
    replicate deferred EvBodyClose = body ++ replicate (deferred + n) EvBodyClose
    /\ (forall i0, answered net i0 body = n)
    /\ countEv isBodyClose body = 0%nat.
Proof.
  exists [], 0%nat. rewrite Nat.add_0_r. repeat split; reflexivity.
Qed.

Lemma closes_iteration (net : Net) (i : Z) (client : HTTPClient) (req : Request)
    (mid t : list Event) (deferred deferred' : nat) :
  Forall (fun e => exists d, e = EvSleep d \/ e = EvCtxDone d) mid ->
  deferred' = (deferred + if isOk (Do net i client req) then 1 else 0)%nat ->
  (exists body n,
      t = body ++ replicate (deferred' + n) EvBodyClose
      /\ (forall i0, answered net i0 body = n)
      /\ countEv isBodyClose body = 0%nat) ->
  exists body n,
    EvAttempt i :: EvHTTPDo client req :: mid ++ t
    = body ++ replicate (deferred + n) EvBodyClose
    /\ (forall i0, answered net i0 body = n)
    /\ countEv isBodyClose body = 0%nat.
Proof.
  intros Hmid -> (body & n & -> & Hn & Hc).
  exists (EvAttempt i :: EvHTTPDo client req :: mid ++ body),
         ((if isOk (Do net i client req) then 1 else 0) + n)%nat.
  split; [|split].
  - rewrite Nat.add_assoc, app_assoc. reflexivity.
  - intros i0. cbn [answered]. f_equal.
    induction Hmid as [|e mid (d & [-> | ->]) _ IH]; [apply Hn|exact IH|exact IH].
  - unfold countEv in *. cbn.
    induction Hmid as [|e mid (d & [-> | ->]) _ IH]; [exact Hc|exact IH|exact IH].
Qed.

Section DoHBodies.

Context (L : Lib) (cfg : Config) (net : Net) (u : URL) (client : HTTPClient).

Lemma queryDoH_loop_closes (fuel : nat) :
  forall (i : Z) (lastErr : option error) (deferred : nat) (r : GoRet Msg),
    outcome (queryDoH_loop L cfg net fuel u client i lastErr deferred) = Done r ->
    exists body n,
      trace (queryDoH_loop L cfg net fuel u client i lastErr deferred)
      = body ++ replicate (deferred + n) EvBodyClose
      /\ (forall i0, answered net i0 body = n)
      /\ countEv isBodyClose body = 0%nat.
Proof.
  induction fuel as [|fuel IH]; intros i lastErr deferred r Hr; [discriminate|].
  cbn [queryDoH_loop] in *.
  destruct (i <=? Retries cfg).
  2:{ rewrite closeBodies_bind. apply closes_nothing. }
  rewrite bind_emit in *. cbn [trace outcome fst snd] in *.
  destruct (http_NewRequest L "GET" (URL_String L u)).
  { rewrite closeBodies_bind. exists [EvAttempt i], 0%nat.
    rewrite Nat.add_0_r. repeat split; reflexivity. }
  rewrite bind_emit in *. cbn [trace outcome fst snd] in *.
  destruct (Do net i client (dohRequest L u)) as [resp|err] eqn:HDo.
  - assert (Hrec : forall lastErr',
               outcome (queryDoH_loop L cfg net fuel u client (int_incr i) lastErr'
                          (S deferred)) = Done r ->
               exists body n,
                 EvAttempt i :: EvHTTPDo client (dohRequest L u)
                   :: trace (queryDoH_loop L cfg net fuel u client (int_incr i) lastErr'
                               (S deferred))
                 = body ++ replicate (deferred + n) EvBodyClose
                 /\ (forall i0, answered net i0 body = n)
                 /\ countEv isBodyClose body = 0%nat).
    { intros lastErr' Hr'.
      apply (closes_iteration net i client (dohRequest L u) [] _ deferred (S deferred));
        [constructor|rewrite HDo; cbn [isOk]; lia|].
      apply (IH _ _ _ _ Hr'). }
    assert (Hend : forall x : GoRet Msg,
               exists body n,
                 EvAttempt i :: EvHTTPDo client (dohRequest L u)
                   :: trace (closeBodies (S deferred) ≫= (fun _ => mret x))
                 = body ++ replicate (deferred + n) EvBodyClose
                 /\ (forall i0, answered net i0 body = n)
                 /\ countEv isBodyClose body = 0%nat).
    { intros x. rewrite closeBodies_bind.
      apply (closes_iteration net i client (dohRequest L u) [] _ deferred (S deferred));
        [constructor|rewrite HDo; cbn [isOk]; lia|].
      exact (closes_nothing net (S deferred)). }
    destruct (negb (StatusCode resp =? StatusOK)).
    { destruct (i <? Retries cfg); [apply Hrec; exact Hr|apply Hend]. }
    destruct (Body resp) as [body|err].
    2:{ destruct (i <? Retries cfg); [apply Hrec; exact Hr|apply Hend]. }
    destruct (Unpack L body) as [response|err]; [apply Hend|].
    destruct (i <? Retries cfg); [apply Hrec; exact Hr|apply Hend].
  - destruct (i <? Retries cfg).
    + rewrite selectBackoff_bind in *. cbn [trace outcome fst snd] in *.
      destruct (ctxDone net i).
      * rewrite closeBodies_bind.
        apply (closes_iteration net i client (dohRequest L u) [EvCtxDone (backoff i)]
                 _ deferred deferred).
        -- repeat constructor. eexists. right. reflexivity.
        -- rewrite HDo. cbn [isOk]. lia.
        -- exact (closes_nothing net deferred).
      * apply (closes_iteration net i client (dohRequest L u) [EvSleep (backoff i)]
                 _ deferred deferred).
        -- repeat constructor. eexists. left. reflexivity.
        -- rewrite HDo. cbn [isOk]. lia.
        -- apply (IH _ _ _ _ Hr).
    + apply (closes_iteration net i client (dohRequest L u) [] _ deferred deferred);
        [constructor|rewrite HDo; cbn [isOk]; lia|].
      apply (IH _ _ _ _ Hr).
Qed.

End DoHBodies.

(** X6.  The response bodies of [queryDoH] are closed when it returns, and not
    before: a run of [queryDoH] that returns ends with one [Body.Close] for
    each response the transport gave it, and closes no body earlier, so
    that the bodies of all the failed attempts stay open until the last
    attempt is over. *)
Theorem queryDoH_closes_bodies (L : Lib) (cfg : Config) (net : Net) (fuel : nat)
    (msg : Msg) (server : string) (r : GoRet Msg) :
  outcome (queryDoH L cfg net fuel msg server) = Done r ->
  exists body,
    trace (queryDoH L cfg net fuel msg server)
    = body ++ replicate (answered net 0 body) EvBodyClose
    /\ countEv isBodyClose body = 0%nat.
Proof.
  intros Hr.
  assert (Hloop : forall u client,
             outcome (queryDoH_loop L cfg net fuel u client 0 None 0) = Done r ->
             exists body,
               trace (queryDoH_loop L cfg net fuel u client 0 None 0)
               = body ++ replicate (answered net 0 body) EvBodyClose
               /\ countEv isBodyClose body = 0%nat).
  { intros u client Hl.
    destruct (queryDoH_loop_closes L cfg net u client fuel 0 None 0%nat r Hl)
      as (body & n & Ht & Hn & Hc).
    exists body. rewrite (Hn 0). split; [exact Ht|exact Hc]. }
  unfold queryDoH in *.
  destruct (Pack L msg) as [msgBytes|e]; [|exists []; split; reflexivity].
  destruct (url_Parse L (dohURL server)) as [u|e]; [|exists []; split; reflexivity].
  destruct (HTTPClient_ cfg) as [h|]; [apply Hloop; exact Hr|].
  destruct (negb _); [|apply Hloop; exact Hr].
  destruct (getProxyURL L cfg) as [p [e|]]; [exists []; split; reflexivity|].
  apply Hloop; exact Hr.
Qed.

Lemma queryDoH_closes_bodies_witness :
  exists body,
    trace (queryDoH Sample.lib (WithProtocol DoH defaultConfig) unsteady 5
             (mkMsg true [mkQuestion "example.com." TypeA] []) "dns.example")
    = body ++ replicate 3 EvBodyClose
    /\ answered unsteady 0 body = 3%nat
    /\ countEv isBodyClose body = 0%nat.
Proof.
  destruct (queryDoH_closes_bodies Sample.lib (WithProtocol DoH defaultConfig) unsteady 5
              (mkMsg true [mkQuestion "example.com." TypeA] []) "dns.example"
              (Some (mkMsg true [] []), None)) as (body & Ht & Hc).
  - reflexivity.
  - exists body.
    assert (Hn : answered unsteady 0 body = 3%nat).
    { apply (f_equal (countEv isBodyClose)) in Ht.
      unfold countEv in Ht at 2. rewrite filter_app, length_app in Ht.
      fold (countEv isBodyClose body) in Ht. rewrite Hc in Ht.
      assert (Hrep : forall n, length (filter (fun e => isBodyClose e = true)
                                         (replicate n EvBodyClose)) = n).
      { induction n as [|n IHn]; [reflexivity|].
        cbn [replicate]. rewrite filter_cons_True by reflexivity.
        cbn [length]. f_equal. exact IHn. }
      rewrite Hrep in Ht. vm_compute in Ht. symmetry. exact Ht. }
    rewrite Hn in Ht. split; [exact Ht|]. split; [exact Hn|exact Hc].
Defined.

(** ** What every trace of a retry loop is made of *)

Section LoopTraces.

Context (L : Lib) (cfg : Config) (net : Net) (msg : Msg) (server : string)
        (tlsConfig : TLSConfig) (Q : list Event -> Prop).

Hypothesis Q_nil : Q [].
Hypothesis Q_sleep : forall d t, Q t -> Q (EvSleep d :: t).
Hypothesis Q_done : forall d, Q [EvCtxDone d].

Lemma queryUDPTCP_loop_trace (fuel : nat) :
  (forall i t, Q t -> Q (EvAttempt i :: trace (exchangeUDPTCP L cfg net i msg server) ++ t)) ->
  forall (i : Z) (lastErr : option error),
    Q (trace (queryUDPTCP_loop L cfg net fuel msg server i lastErr)).
Proof.
  intros Q_op. induction fuel as [|fuel IH]; intros i lastErr; [exact Q_nil|].
  cbn [queryUDPTCP_loop]. destruct (i <=? Retries cfg); [|exact Q_nil].
  rewrite bind_emit. cbn [trace fst].
  destruct (exchangeUDPTCP_proper L cfg net i msg server) as (r & Ho & [[m ->]|[e ->]]);
    rewrite (bind_Done _ _ _ Ho); cbn [trace fst]; apply Q_op.
  - exact Q_nil.
  - destruct (i <? Retries cfg); [|apply IH].
    rewrite selectBackoff_bind. destruct (ctxDone net i); cbn [trace fst].
    + apply Q_done.
    + apply Q_sleep, IH.
Qed.

Lemma queryDoT_loop_trace (fuel : nat) :
  (forall i t,
     Q t -> Q (EvAttempt i :: trace (exchangeDoT L cfg net i msg server tlsConfig) ++ t)) ->
  forall (i : Z) (lastErr : option error),
    Q (trace (queryDoT_loop L cfg net fuel msg server tlsConfig i lastErr)).
Proof.
  intros Q_op. induction fuel as [|fuel IH]; intros i lastErr; [exact Q_nil|].
  cbn [queryDoT_loop]. destruct (i <=? Retries cfg); [|exact Q_nil].
  rewrite bind_emit. cbn [trace fst].
  destruct (exchangeDoT_proper L cfg net i msg server tlsConfig)
    as (r & Ho & [[m ->]|[e ->]]);
    rewrite (bind_Done _ _ _ Ho); cbn [trace fst]; apply Q_op.
  - exact Q_nil.
  - destruct (i <? Retries cfg); [|apply IH].
    rewrite selectBackoff_bind. destruct (ctxDone net i); cbn [trace fst].
    + apply Q_done.
    + apply Q_sleep, IH.
Qed.

End LoopTraces.

Section DoHTraces.

Context (L : Lib) (cfg : Config) (net : Net) (u : URL) (client : HTTPClient)
        (Q : list Event -> Prop).

Hypothesis Q_close : forall n, Q (replicate n EvBodyClose).
Hypothesis Q_attempt : forall i t, Q t -> Q (EvAttempt i :: t).
Hypothesis Q_request : forall t, Q t -> Q (EvHTTPDo client (dohRequest L u) :: t).
Hypothesis Q_sleep : forall d t, Q t -> Q (EvSleep d :: t).
Hypothesis Q_done : forall d t, Q t -> Q (EvCtxDone d :: t).

Lemma queryDoH_loop_trace (fuel : nat) :
  forall (i : Z) (lastErr : option error) (deferred : nat),
    Q (trace (queryDoH_loop L cfg net fuel u client i lastErr deferred)).
Proof.
  induction fuel as [|fuel IH]; intros i lastErr deferred; [exact (Q_close 0)|].
  cbn [queryDoH_loop].
  destruct (i <=? Retries cfg); [|rewrite closeBodies_bind; apply Q_close].
  rewrite bind_emit. cbn [trace fst]. apply Q_attempt.
  destruct (http_NewRequest L "GET" (URL_String L u));
    [rewrite closeBodies_bind; apply Q_close|].
  rewrite bind_emit. cbn [trace fst]. apply Q_request.
  destruct (Do net i client (dohRequest L u)) as [resp|err].
  - destruct (negb (StatusCode resp =? StatusOK)).
    { destruct (i <? Retries cfg); [apply IH|rewrite closeBodies_bind; apply Q_close]. }
    destruct (Body resp) as [body|err].
    2:{ destruct (i <? Retries cfg); [apply IH|rewrite closeBodies_bind; apply Q_close]. }
    destruct (Unpack L body) as [response|err]; [rewrite closeBodies_bind; apply Q_close|].
    destruct (i <? Retries cfg); [apply IH|rewrite closeBodies_bind; apply Q_close].
  - destruct (i <? Retries cfg); [|apply IH].
    rewrite selectBackoff_bind. destruct (ctxDone net i); cbn [trace fst].
    + apply Q_done. rewrite closeBodies_bind. apply Q_close.
    + apply Q_sleep, IH.
Qed.

End DoHTraces.

(** ** The connections through the proxy *)

Section ProxyConnections.

Context (L : Lib) (cfg : Config) (net : Net).

Lemma exchangeWithProxy_wellClosed (i : Z) (msg : Msg) (server : string) (t : list Event) :
  wellClosed net i false (trace (exchangeWithProxy L cfg net i msg server) ++ t)
  = wellClosed net i false t.
Proof.
  unfold exchangeWithProxy.
  destruct (createDialer_proper L cfg) as [[d ->]|[e ->]]; [|reflexivity].
  cbn [mbind mret M_bind M_ret emit panic trace outcome fst snd app].
  destruct (Dial net i d server) eqn:HD; [|destruct (WriteMsg net i msg);
                                            [|destruct (ReadMsg net i)]];
    cbn [mbind mret M_bind M_ret emit panic trace outcome fst snd app wellClosed];
    rewrite HD; reflexivity.
Qed.

Lemma exchangeDoTWithProxy_wellClosed (i : Z) (msg : Msg) (server : string)
    (tlsConfig : TLSConfig) (t : list Event) :
  wellClosed net i false (trace (exchangeDoTWithProxy L cfg net i msg server tlsConfig) ++ t)
  = wellClosed net i false t.
Proof.
  unfold exchangeDoTWithProxy.
  destruct (createDialer_proper L cfg) as [[d ->]|[e ->]]; [|reflexivity].
  cbn [mbind mret M_bind M_ret emit panic trace outcome fst snd app].
  destruct (Dial net i d server) eqn:HD;
    [|destruct (Handshake net i tlsConfig);
      [|destruct (WriteMsg net i msg); [|destruct (ReadMsg net i)]]];
    cbn [mbind mret M_bind M_ret emit panic trace outcome fst snd app wellClosed];
    rewrite HD; reflexivity.
Qed.

End ProxyConnections.

(** The predicate tells a leak: a connection that is used and not closed
    before the next attempt is refused, the same one closed is accepted. *)
Example wellClosed_tells_a_leak :
  wellClosed (Sample.up "93.184.216.34") 0 false
    [EvAttempt 0; EvDial (mkDialer "tcp" "127.0.0.1:1080" None) "8.8.8.8:53";
     EvWriteMsg; EvReadMsg; EvAttempt 1] = false
  /\ wellClosed (Sample.up "93.184.216.34") 0 false
       [EvAttempt 0; EvDial (mkDialer "tcp" "127.0.0.1:1080" None) "8.8.8.8:53";
        EvWriteMsg; EvReadMsg; EvConnClose; EvAttempt 1] = true.
Proof. split; reflexivity. Qed.

(** X7.  No connection through the proxy is left open or held longer than an
    attempt.  In every run of [queryUDPTCP] and of [queryDoT], complete or
    not, each connection the proxy dialer opened is closed once, after its
    last use and before the wait or the attempt that follows; a failed dial
    is followed by no use and no close. *)
Theorem proxied_connections_closed (L : Lib) (cfg : Config) (net : Net) (fuel : nat)
    (msg : Msg) (server : string) :
  wellClosed net 0 false (trace (queryUDPTCP L cfg net fuel msg server)) = true
  /\ wellClosed net 0 false (trace (queryDoT L cfg net fuel msg server)) = true.
Proof.
  split.
  - unfold queryUDPTCP.
    apply (queryUDPTCP_loop_trace L cfg net msg server
             (fun t => forall j, wellClosed net j false t = true));
      [reflexivity|intros d t Ht j; exact (Ht j)|reflexivity|].
    intros i t Ht j. cbn [wellClosed negb andb].
    unfold exchangeUDPTCP. destruct (negb _).
    + rewrite exchangeWithProxy_wellClosed. apply Ht.
    + apply Ht.
  - rewrite queryDoT_unfold.
    apply (queryDoT_loop_trace L cfg net msg (ensurePort server) (dotTLS cfg)
             (fun t => forall j, wellClosed net j false t = true));
      [reflexivity|intros d t Ht j; exact (Ht j)|reflexivity|].
    intros i t Ht j. cbn [wellClosed negb andb].
    unfold exchangeDoT. destruct (negb _).
    + rewrite exchangeDoTWithProxy_wellClosed. apply Ht.
    + apply Ht.
Qed.

(** ** A configured proxy is never bypassed *)

Section ProxyOnly.

Context (L : Lib) (cfg : Config) (net : Net).

Lemma exchangeWithProxy_directTargets (i : Z) (msg : Msg) (server : string) :
  directTargets (trace (exchangeWithProxy L cfg net i msg server)) = [].
Proof.
  unfold exchangeWithProxy.
  destruct (createDialer_proper L cfg) as [[d ->]|[e ->]]; [|reflexivity].
  case_net; reflexivity.
Qed.

Lemma exchangeDoTWithProxy_directTargets (i : Z) (msg : Msg) (server : string)
    (tlsConfig : TLSConfig) :
  directTargets (trace (exchangeDoTWithProxy L cfg net i msg server tlsConfig)) = [].
Proof.
  unfold exchangeDoTWithProxy.
  destruct (createDialer_proper L cfg) as [[d ->]|[e ->]]; [|reflexivity].
  case_net; reflexivity.
Qed.

Lemma createDialer_unsupported :
  ProxyType_ cfg <> SOCKS5 ->
  createDialer L cfg
  = (None, Some ("unsupported proxy type for dialer: " +:+ ProxyType_ cfg)).
Proof.
  intros HP. unfold createDialer.
  destruct (String.eqb_spec (ProxyType_ cfg) SOCKS5); [contradiction|reflexivity].
Qed.

Lemma queryDoH_loop_clients (u : URL) (client : HTTPClient) (fuel : nat) (i : Z)
    (lastErr : option error) (deferred : nat) :
  Forall (eq client)
         (clients (trace (queryDoH_loop L cfg net fuel u client i lastErr deferred))).
Proof.
  apply (queryDoH_loop_trace L cfg net u client
           (fun t => Forall (eq client) (clients t))).
  - intros n. induction n as [|n IH]; [constructor|exact IH].
  - intros j t Ht. exact Ht.
  - intros t Ht. constructor; [reflexivity|exact Ht].
  - intros d t Ht. exact Ht.
  - intros d t Ht. exact Ht.
Qed.

End ProxyOnly.

(** X8.  With a proxy configured, no strategy connects to the server directly:
    [queryUDPTCP] and [queryDoT] make no direct exchange, at any attempt,
    and every request of a [queryDoH] that builds its own client goes
    through a client whose transport has the proxy URL.  A proxy type that
    is not "socks5" gives [queryUDPTCP] and [queryDoT] no connection at all,
    and one that is not "http" either gives [queryDoH] no request.
    Without a proxy, nothing is dialled through one. *)
Theorem proxy_never_bypassed (L : Lib) (cfg : Config) (net : Net) (fuel : nat)
    (msg : Msg) (server : string) :
  (ProxyType_ cfg <> NoProxy ->
   directTargets (trace (queryUDPTCP L cfg net fuel msg server)) = []
   /\ directTargets (trace (queryDoT L cfg net fuel msg server)) = []
   /\ (HTTPClient_ cfg = None ->
       Forall (fun c => exists p,
                   getProxyURL L cfg = (Some p, None)
                   /\ c = BuiltClient (TLSConfig_ cfg) (Some p) (Timeout cfg))
              (clients (trace (queryDoH L cfg net fuel msg server))))
   /\ (ProxyType_ cfg <> SOCKS5 ->
       proxyTargets (trace (queryUDPTCP L cfg net fuel msg server)) = []
       /\ proxyTargets (trace (queryDoT L cfg net fuel msg server)) = []
       /\ (ProxyType_ cfg <> HTTPProxy ->
           HTTPClient_ cfg = None ->
           trace (queryDoH L cfg net fuel msg server) = [])))
  /\ (ProxyType_ cfg = NoProxy ->
      proxyTargets (trace (queryUDPTCP L cfg net fuel msg server)) = []
      /\ proxyTargets (trace (queryDoT L cfg net fuel msg server)) = []
      /\ (HTTPClient_ cfg = None ->
          Forall (eq (BuiltClient (TLSConfig_ cfg) None (Timeout cfg)))
                 (clients (trace (queryDoH L cfg net fuel msg server))))).
Proof.
  split.
  - intros HP.
    assert (Hb : negb (String.eqb (ProxyType_ cfg) NoProxy) = true).
    { destruct (String.eqb_spec (ProxyType_ cfg) NoProxy); [contradiction|reflexivity]. }
    split; [|split; [|split]].
    + unfold queryUDPTCP.
      apply (queryUDPTCP_loop_trace L cfg net msg server (fun t => directTargets t = []));
        try reflexivity; [intros d t Ht; exact Ht|].
      intros i t Ht. change (directTargets (EvAttempt i :: ?x)) with (directTargets x).
      rewrite directTargets_app, Ht. unfold exchangeUDPTCP. rewrite Hb.
      rewrite exchangeWithProxy_directTargets. reflexivity.
    + rewrite queryDoT_unfold.
      apply (queryDoT_loop_trace L cfg net msg (ensurePort server) (dotTLS cfg)
               (fun t => directTargets t = []));
        try reflexivity; [intros d t Ht; exact Ht|].
      intros i t Ht. change (directTargets (EvAttempt i :: ?x)) with (directTargets x).
      rewrite directTargets_app, Ht. unfold exchangeDoT. rewrite Hb.
      rewrite exchangeDoTWithProxy_directTargets. reflexivity.
    + intros Hc. unfold queryDoH. rewrite Hc, Hb.
      destruct (Pack L msg) as [msgBytes|e]; [|constructor].
      destruct (url_Parse L (dohURL server)) as [u|e]; [|constructor].
      destruct (getProxyURL_cases L cfg) as [[p Hp]|[e Hp]]; rewrite Hp; [|constructor].
      eapply Forall_impl; [apply queryDoH_loop_clients|].
      intros c <-. exists p. split; reflexivity.
    + intros HS. split; [|split].
      * unfold queryUDPTCP.
        apply (queryUDPTCP_loop_trace L cfg net msg server (fun t => proxyTargets t = []));
          try reflexivity; [intros d t Ht; exact Ht|].
        intros i t Ht. change (proxyTargets (EvAttempt i :: ?x)) with (proxyTargets x).
        rewrite proxyTargets_app, Ht. unfold exchangeUDPTCP, exchangeWithProxy.
        rewrite Hb, createDialer_unsupported by exact HS. reflexivity.
      * rewrite queryDoT_unfold.
        apply (queryDoT_loop_trace L cfg net msg (ensurePort server) (dotTLS cfg)
                 (fun t => proxyTargets t = []));
          try reflexivity; [intros d t Ht; exact Ht|].
        intros i t Ht. change (proxyTargets (EvAttempt i :: ?x)) with (proxyTargets x).
        rewrite proxyTargets_app, Ht. unfold exchangeDoT, exchangeDoTWithProxy.
        rewrite Hb, createDialer_unsupported by exact HS. reflexivity.
      * intros HH Hc. unfold queryDoH. rewrite Hc, Hb.
        destruct (Pack L msg) as [msgBytes|e]; [|reflexivity].
        destruct (url_Parse L (dohURL server)) as [u|e]; [|reflexivity].
        unfold getProxyURL.
        destruct (String.eqb_spec (ProxyType_ cfg) HTTPProxy); [contradiction|].
        destruct (String.eqb_spec (ProxyType_ cfg) SOCKS5); [contradiction|].
        reflexivity.
  - intros HP.
    assert (Hb : negb (String.eqb (ProxyType_ cfg) NoProxy) = false).
    { rewrite HP. reflexivity. }
    split; [|split].
    + unfold queryUDPTCP.
      apply (queryUDPTCP_loop_trace L cfg net msg server (fun t => proxyTargets t = []));
        try reflexivity; [intros d t Ht; exact Ht|].
      intros i t Ht. change (proxyTargets (EvAttempt i :: ?x)) with (proxyTargets x).
      rewrite proxyTargets_app, Ht. unfold exchangeUDPTCP. rewrite Hb. reflexivity.
    + rewrite queryDoT_unfold.
      apply (queryDoT_loop_trace L cfg net msg (ensurePort server) (dotTLS cfg)
               (fun t => proxyTargets t = []));
        try reflexivity; [intros d t Ht; exact Ht|].
      intros i t Ht. change (proxyTargets (EvAttempt i :: ?x)) with (proxyTargets x).
      rewrite proxyTargets_app, Ht. unfold exchangeDoT. rewrite Hb. reflexivity.
    + intros Hc. unfold queryDoH. rewrite Hc, Hb.
      destruct (Pack L msg) as [msgBytes|e]; [|constructor].
      destruct (url_Parse L (dohURL server)) as [u|e]; [|constructor].
      apply queryDoH_loop_clients.
Qed.

Lemma proxy_never_bypassed_witness :
  directTargets
    (trace (queryUDPTCP Sample.lib (WithSOCKS5Proxy "127.0.0.1:1080" None defaultConfig)
              (Sample.up "93.184.216.34") 5
              (mkMsg true [mkQuestion "example.com." TypeA] []) "8.8.8.8:53")) = []
  /\ proxyTargets
       (trace (queryUDPTCP Sample.lib (WithSOCKS5Proxy "127.0.0.1:1080" None defaultConfig)
                 (Sample.up "93.184.216.34") 5
                 (mkMsg true [mkQuestion "example.com." TypeA] []) "8.8.8.8:53"))
     = ["8.8.8.8:53"].
Proof.
  split; [|reflexivity].
  apply (proxy_never_bypassed Sample.lib (WithSOCKS5Proxy "127.0.0.1:1080" None defaultConfig)
           (Sample.up "93.184.216.34") 5
           (mkMsg true [mkQuestion "example.com." TypeA] []) "8.8.8.8:53").
  discriminate.
Defined.

(** ** What the strategies read of the configuration *)

Section Reads.

Context (L : Lib) (cfg cfg' : Config) (net : Net).

Lemma queryUDPTCP_loop_ext (msg : Msg) (server : string) (fuel : nat) :
  Retries cfg' = Retries cfg ->
  (forall i, exchangeUDPTCP L cfg' net i msg server = exchangeUDPTCP L cfg net i msg server) ->
  forall (i : Z) (lastErr : option error),
    queryUDPTCP_loop L cfg' net fuel msg server i lastErr
    = queryUDPTCP_loop L cfg net fuel msg server i lastErr.
Proof.
  intros HR Hop. induction fuel as [|fuel IH]; intros i lastErr; [reflexivity|].
  cbn [queryUDPTCP_loop]. rewrite HR, Hop.
  destruct (i <=? Retries cfg); [|reflexivity].
  destruct (exchangeUDPTCP L cfg net i msg server) as [t [[r [e|]]| |]];
    try reflexivity.
  cbn [mbind M_bind emit mret M_ret].
  destruct (i <? Retries cfg); [|rewrite IH; reflexivity].
  unfold selectBackoff. destruct (ctxDone net i); [reflexivity|].
  cbn [mbind M_bind emit mret M_ret]. rewrite IH. reflexivity.
Qed.

Lemma queryDoT_loop_ext (msg : Msg) (server : string) (tlsConfig : TLSConfig) (fuel : nat) :
  Retries cfg' = Retries cfg ->
  (forall i, exchangeDoT L cfg' net i msg server tlsConfig
             = exchangeDoT L cfg net i msg server tlsConfig) ->
  forall (i : Z) (lastErr : option error),
    queryDoT_loop L cfg' net fuel msg server tlsConfig i lastErr
    = queryDoT_loop L cfg net fuel msg server tlsConfig i lastErr.
Proof.
  intros HR Hop. induction fuel as [|fuel IH]; intros i lastErr; [reflexivity|].
  cbn [queryDoT_loop]. rewrite HR, Hop.
  destruct (i <=? Retries cfg); [|reflexivity].
  destruct (exchangeDoT L cfg net i msg server tlsConfig) as [t [[r [e|]]| |]];
    try reflexivity.
  cbn [mbind M_bind emit mret M_ret].
  destruct (i <? Retries cfg); [|rewrite IH; reflexivity].
  unfold selectBackoff. destruct (ctxDone net i); [reflexivity|].
  cbn [mbind M_bind emit mret M_ret]. rewrite IH. reflexivity.
Qed.

Lemma queryDoH_loop_ext (u : URL) (client : HTTPClient) (fuel : nat) :
  Retries cfg' = Retries cfg ->
  forall (i : Z) (lastErr : option error) (deferred : nat),
    queryDoH_loop L cfg' net fuel u client i lastErr deferred
    = queryDoH_loop L cfg net fuel u client i lastErr deferred.
Proof.
  intros HR. induction fuel as [|fuel IH]; intros i lastErr deferred; [reflexivity|].
  cbn [queryDoH_loop]. rewrite HR.
  destruct (i <=? Retries cfg); [|reflexivity].
  destruct (http_NewRequest L "GET" (URL_String L u)); [reflexivity|].
  destruct (Do net i client (dohRequest L u)) as [resp|err].
  - destruct (negb (StatusCode resp =? StatusOK)).
    { destruct (i <? Retries cfg); [rewrite IH|]; reflexivity. }
    destruct (Body resp) as [body|err].
    2:{ destruct (i <? Retries cfg); [rewrite IH|]; reflexivity. }
    destruct (Unpack L body); [reflexivity|].
    destruct (i <? Retries cfg); [rewrite IH|]; reflexivity.
  - destruct (i <? Retries cfg); [|rewrite IH; reflexivity].
    unfold selectBackoff. destruct (ctxDone net i); [reflexivity|].
    cbn [mbind M_bind emit mret M_ret]. rewrite IH. reflexivity.
Qed.

Lemma createDialer_ext :
  ProxyType_ cfg' = ProxyType_ cfg ->
  ProxyAddr cfg' = ProxyAddr cfg ->
  ProxyAuth_ cfg' = ProxyAuth_ cfg ->
  createDialer L cfg' = createDialer L cfg.
Proof. intros HT HA HU. unfold createDialer. rewrite HT, HA, HU. reflexivity. Qed.

End Reads.

(** X9.  Through a proxy, [queryUDPTCP] reads the retry count and the proxy
    settings and nothing else of the configuration, and [queryDoT] the TLS
    configuration besides: the configured timeout is handed to no one, and
    the protocol, "udp" or "tcp", makes no difference to the connection the
    dialer opens. *)
Theorem proxied_queries_read (L : Lib) (cfg cfg' : Config) (net : Net) (fuel : nat)
    (msg : Msg) (server : string) :
  ProxyType_ cfg <> NoProxy ->
  Retries cfg' = Retries cfg ->
  ProxyType_ cfg' = ProxyType_ cfg ->
  ProxyAddr cfg' = ProxyAddr cfg ->
  ProxyAuth_ cfg' = ProxyAuth_ cfg ->
  queryUDPTCP L cfg' net fuel msg server = queryUDPTCP L cfg net fuel msg server
  /\ (TLSConfig_ cfg' = TLSConfig_ cfg ->
      queryDoT L cfg' net fuel msg server = queryDoT L cfg net fuel msg server).
Proof.
  intros HP HR HT HA HU.
  assert (Hb : negb (String.eqb (ProxyType_ cfg) NoProxy) = true).
  { destruct (String.eqb_spec (ProxyType_ cfg) NoProxy); [contradiction|reflexivity]. }
  pose proof (createDialer_ext L cfg cfg' HT HA HU) as Hd.
  split.
  - unfold queryUDPTCP. apply queryUDPTCP_loop_ext; [exact HR|].
    intros i. unfold exchangeUDPTCP, exchangeWithProxy. rewrite HT, Hb, Hd. reflexivity.
  - intros HTLS. rewrite !queryDoT_unfold. unfold dotTLS. rewrite HTLS.
    apply queryDoT_loop_ext; [exact HR|].
    intros i. unfold exchangeDoT, exchangeDoTWithProxy. rewrite HT, Hb, Hd. reflexivity.
Qed.

Lemma proxied_queries_read_witness :
  queryUDPTCP Sample.lib
    (WithTimeout Millisecond
       (WithProtocol TCP (WithSOCKS5Proxy "127.0.0.1:1080" None defaultConfig)))
    (Sample.up "93.184.216.34") 5
    (mkMsg true [mkQuestion "example.com." TypeA] []) "8.8.8.8:53"
  = queryUDPTCP Sample.lib (WithSOCKS5Proxy "127.0.0.1:1080" None defaultConfig)
      (Sample.up "93.184.216.34") 5
      (mkMsg true [mkQuestion "example.com." TypeA] []) "8.8.8.8:53".
Proof.
  apply (proxied_queries_read Sample.lib
           (WithSOCKS5Proxy "127.0.0.1:1080" None defaultConfig)
           (WithTimeout Millisecond
              (WithProtocol TCP (WithSOCKS5Proxy "127.0.0.1:1080" None defaultConfig))));
    [discriminate|reflexivity..].
Defined.

(** X10.  A configured HTTP client is used as it is.  With [HTTPClient] set,
    [queryDoH] reads the retry count and nothing else of the configuration:
    the proxy, the TLS configuration and the timeout of the configuration
    reach no request, and every request of the run is made with that
    client. *)
Theorem queryDoH_configured_client (L : Lib) (cfg cfg' : Config) (net : Net)
    (fuel : nat) (msg : Msg) (server : string) (h : nat) :
  HTTPClient_ cfg = Some h ->
  HTTPClient_ cfg' = Some h ->
  Retries cfg' = Retries cfg ->
  queryDoH L cfg' net fuel msg server = queryDoH L cfg net fuel msg server
  /\ Forall (eq (ConfiguredClient h)) (clients (trace (queryDoH L cfg net fuel msg server))).
Proof.
  intros Hc Hc' HR. unfold queryDoH. rewrite Hc, Hc'.
  destruct (Pack L msg) as [msgBytes|e]; [|split; [reflexivity|constructor]].
  destruct (url_Parse L (dohURL server)) as [u|e]; [|split; [reflexivity|constructor]].
  split; [apply queryDoH_loop_ext; exact HR|apply queryDoH_loop_clients].
Qed.

Lemma queryDoH_configured_client_witness :
  queryDoH Sample.lib
    (WithHTTPProxy "proxy.example:3128" None
       (WithTimeout Millisecond (WithHTTPClient (Some 7%nat) defaultConfig)))
    unsteady 5 (mkMsg true [mkQuestion "example.com." TypeA] []) "dns.example"
  = queryDoH Sample.lib (WithHTTPClient (Some 7%nat) defaultConfig)
      unsteady 5 (mkMsg true [mkQuestion "example.com." TypeA] []) "dns.example"
  /\ clients (trace (queryDoH Sample.lib (WithHTTPClient (Some 7%nat) defaultConfig)
                       unsteady 5 (mkMsg true [mkQuestion "example.com." TypeA] [])
                       "dns.example"))
     = replicate 4 (ConfiguredClient 7).
Proof.
  split; [|reflexivity].
  apply (queryDoH_configured_client Sample.lib (WithHTTPClient (Some 7%nat) defaultConfig)
           (WithHTTPProxy "proxy.example:3128" None
              (WithTimeout Millisecond (WithHTTPClient (Some 7%nat) defaultConfig)))
           unsteady 5 (mkMsg true [mkQuestion "example.com." TypeA] []) "dns.example" 7%nat);
    reflexivity.
Defined.

(** ** A negative retry count *)

Section NegativeRetries.

Context (L : Lib) (cfg : Config).

Hypothesis negative : Retries cfg < 0.

Lemma queryUDPTCP_not_entered (net : Net) (fuel : nat) (msg : Msg) (server : string) :
  queryUDPTCP L cfg net (S fuel) msg server = ([], Done (None, None)).
Proof.
  unfold queryUDPTCP. cbn [queryUDPTCP_loop].
  destruct (Z.leb_spec 0 (Retries cfg)); [lia|reflexivity].
Qed.

Lemma queryDoT_not_entered (net : Net) (fuel : nat) (msg : Msg) (server : string) :
  queryDoT L cfg net (S fuel) msg server = ([], Done (None, None)).
Proof.
  unfold queryDoT. cbn [queryDoT_loop].
  destruct (Z.leb_spec 0 (Retries cfg)); [lia|reflexivity].
Qed.

Lemma queryDoH_not_entered (net : Net) (fuel : nat) (msg : Msg) (server : string) :
  trace (queryDoH L cfg net (S fuel) msg server) = []
  /\ exists e, outcome (queryDoH L cfg net (S fuel) msg server) = Done (None, e).
Proof.
  assert (Hloop : forall u client,
             queryDoH_loop L cfg net (S fuel) u client 0 None 0 = ([], Done (None, None))).
  { intros u client. cbn [queryDoH_loop].
    destruct (Z.leb_spec 0 (Retries cfg)); [lia|reflexivity]. }
  unfold queryDoH.
  destruct (Pack L msg) as [msgBytes|e]; [|split; [reflexivity|eexists; reflexivity]].
  destruct (url_Parse L (dohURL server)) as [u|e];
    [|split; [reflexivity|eexists; reflexivity]].
  destruct (HTTPClient_ cfg) as [h|];
    [rewrite Hloop; split; [reflexivity|eexists; reflexivity]|].
  destruct (negb _); [|rewrite Hloop; split; [reflexivity|eexists; reflexivity]].
  destruct (getProxyURL L cfg) as [p [e|]];
    [split; [reflexivity|eexists; reflexivity]|].
  rewrite Hloop. split; [reflexivity|eexists; reflexivity].
Qed.

Lemma queryServer_nil_response (net : Net) (fuel : nat) (domain : string) (qtype : Z)
    (server : string) :
  Protocol_ cfg = UDP \/ Protocol_ cfg = TCP \/ Protocol_ cfg = DoT ->
  queryServer L cfg net (S fuel) domain qtype server
  = ([], Panic "nil pointer dereference: response.Answer").
Proof.
  intros HP. unfold queryServer, dispatch.
  destruct HP as [-> | [-> | ->]]; cbn [String.eqb Ascii.eqb Bool.eqb orb];
    rewrite ?queryUDPTCP_not_entered, ?queryDoT_not_entered; reflexivity.
Qed.

End NegativeRetries.

(** X11.  A negative retry count is not taken for zero.  With [Retries] below 0
    no strategy makes an attempt: [queryUDPTCP] and [queryDoT] return a nil
    response with a nil error, [queryDoH] returns no response either, and
    over UDP, TCP and DoT [queryServer] then dereferences the nil response:
    [Query] and [MultiQuery] panic, on every server and in every world. *)
Theorem negative_Retries_panics (L : Lib) (cfg : Config) (nets : nat -> Net)
    (sched : nat -> nat) (fuel : nat) (domain : string) (qtype : Z) :
  Retries cfg < 0 ->
  (0 < fuel)%nat ->
  (forall net msg server,
     queryUDPTCP L cfg net fuel msg server = ([], Done (None, None))
     /\ queryDoT L cfg net fuel msg server = ([], Done (None, None))
     /\ trace (queryDoH L cfg net fuel msg server) = []
     /\ exists e, outcome (queryDoH L cfg net fuel msg server) = Done (None, e))
  /\ (Protocol_ cfg = UDP \/ Protocol_ cfg = TCP \/ Protocol_ cfg = DoT ->
      Servers cfg <> [] ->
      outcome (Query L cfg (nets 0%nat) fuel domain qtype)
      = Panic "nil pointer dereference: response.Answer"
      /\ outcome (MultiQuery L cfg nets sched fuel domain qtype)
         = Panic "nil pointer dereference: response.Answer").
Proof.
  intros HR Hfuel. destruct fuel as [|fuel]; [lia|]. split.
  - intros net msg server.
    split; [apply queryUDPTCP_not_entered; exact HR|].
    split; [apply queryDoT_not_entered; exact HR|].
    apply queryDoH_not_entered; exact HR.
  - intros HP Hne.
    pose proof (fun net server =>
                  queryServer_nil_response L cfg HR net fuel domain qtype server HP) as Hq.
    destruct (Servers cfg) as [|s rest] eqn:Hs; [contradiction|]. split.
    + unfold Query. rewrite Hs, Hq. reflexivity.
    + unfold MultiQuery, sends. rewrite Hs. cbn [length Nat.eqb imap outcome snd].
      unfold goroutine at 1. rewrite Hq. cbn [mbind M_bind outcome snd join].
      reflexivity.
Qed.

Lemma negative_Retries_panics_witness :
  outcome (MultiQuery Sample.lib (WithRetries (-1) defaultConfig)
             (fun _ => Sample.up "93.184.216.34") (fun i => i) 5 "example.com" TypeA)
  = Panic "nil pointer dereference: response.Answer".
Proof.
  apply (negative_Retries_panics Sample.lib (WithRetries (-1) defaultConfig)
           (fun _ => Sample.up "93.184.216.34") (fun i => i) 5 "example.com" TypeA);
    [reflexivity|lia|left; reflexivity|discriminate].
Defined.

(** ** What [queryServer] hands back *)

Lemma dispatch_supported (L : Lib) (cfg : Config) (net : Net) (fuel : nat) (msg : Msg)
    (server : string) :
  (dispatch L cfg net fuel msg server = None
   /\ ~ (Protocol_ cfg = UDP \/ Protocol_ cfg = TCP \/ Protocol_ cfg = DoT
         \/ Protocol_ cfg = DoH))
  \/ (exists query, dispatch L cfg net fuel msg server = Some query
      /\ (Protocol_ cfg = UDP \/ Protocol_ cfg = TCP \/ Protocol_ cfg = DoT
          \/ Protocol_ cfg = DoH)).
Proof.
  unfold dispatch.
  destruct (String.eqb_spec (Protocol_ cfg) UDP) as [HU|HU];
    [right; eexists; split; [reflexivity|auto]|].
  destruct (String.eqb_spec (Protocol_ cfg) TCP) as [HT|HT];
    [right; eexists; split; [reflexivity|auto]|].
  destruct (String.eqb_spec (Protocol_ cfg) DoT) as [HD|HD];
    [right; eexists; split; [reflexivity|auto]|].
  destruct (String.eqb_spec (Protocol_ cfg) DoH) as [HH|HH];
    [right; eexists; split; [reflexivity|auto]|].
  left. split; [reflexivity|]. intros [?|[?|[?|?]]]; contradiction.
Qed.

(** X12.  The contract of [queryServer].  Whenever it returns: the result is nil
    exactly when the protocol is none of "udp", "tcp", "dot" and "doh", and
    then nothing was sent; a result that is not nil carries the domain, the
    type and the server asked, and its [Error] is the error returned beside
    it; with an error it has no records, and without one its records are
    those of the answer section of the response, one for one and in
    order. *)
Theorem queryServer_result (L : Lib) (cfg : Config) (net : Net) (fuel : nat)
    (domain : string) (qtype : Z) (server : string)
    (res : option QueryResult) (err : option error) :
  outcome (queryServer L cfg net fuel domain qtype server) = Done (res, err) ->
  (res = None <->
   ~ (Protocol_ cfg = UDP \/ Protocol_ cfg = TCP \/ Protocol_ cfg = DoT
      \/ Protocol_ cfg = DoH))
  /\ (res = None ->
      err = Some ("unsupported protocol: " +:+ Protocol_ cfg)
      /\ trace (queryServer L cfg net fuel domain qtype server) = [])
  /\ (forall q,
        res = Some q ->
        Domain q = domain /\ Type_ q = qtype /\ Server q = server /\ Error q = err
        /\ (err <> None -> Records q = [])
        /\ (err = None ->
            exists query response,
              dispatch L cfg net fuel (mkMsg true [mkQuestion (Fqdn L domain) qtype] [])
                       server = Some query
              /\ outcome query = Done (Some response, None)
              /\ Records q = toRecord L <$> Answer response
              /\ length (Records q) = length (Answer response))).
Proof.
  unfold queryServer.
  destruct (dispatch_supported L cfg net fuel
              (mkMsg true [mkQuestion (Fqdn L domain) qtype] []) server)
    as [[-> Hno]|(query & -> & Hyes)].
  - cbn [mret M_ret outcome snd trace fst]. intros [= <- <-].
    split; [split; [intros _; exact Hno|reflexivity]|].
    split; [intros _; split; reflexivity|]. intros q Hq. discriminate Hq.
  - assert (Hsome : forall q : QueryResult,
               Some q = None <->
               ~ (Protocol_ cfg = UDP \/ Protocol_ cfg = TCP \/ Protocol_ cfg = DoT
                  \/ Protocol_ cfg = DoH)).
    { intros q. split; [discriminate|]. intros Hn. destruct (Hn Hyes). }
    destruct query as [t [[[response|] [e|]]| |]];
      cbn [mbind M_bind mret M_ret panic outcome snd trace fst];
      intros H; try discriminate H; injection H as <- <-;
      (split; [apply Hsome|]); (split; [discriminate|]);
      intros q [= <-]; cbn [Domain Type_ Server Error Records];
      do 4 (split; [reflexivity|]).
    + split; [reflexivity|discriminate].
    + split; [intros Hn; destruct (Hn eq_refl)|]. intros _.
      exists (t, Done (Some response, None)), response.
      repeat split; try reflexivity. rewrite length_fmap. reflexivity.
    + split; [reflexivity|discriminate].
Qed.

Lemma queryServer_result_witness :
  exists q,
    outcome (queryServer Sample.lib defaultConfig (Sample.up "93.184.216.34") 5
               "example.com" TypeA "8.8.8.8:53") = Done (Some q, None)
    /\ Server q = "8.8.8.8:53" /\ Error q = None
    /\ Records q = [mkRecord "example.com." TypeA 300 "93.184.216.34"].
Proof.
  eexists. split; [vm_compute; reflexivity|].
  destruct (queryServer_result Sample.lib defaultConfig (Sample.up "93.184.216.34") 5
              "example.com" TypeA "8.8.8.8:53" _ None eq_refl) as (_ & _ & Hq).
  destruct (Hq _ eq_refl) as (_ & _ & Hs & He & _).
  split; [exact Hs|]. split; [exact He|]. reflexivity.
Defined.

(** ** [Query] asks one server *)

Section OneServer.

Context (L : Lib) (cfg : Config) (net : Net).

Lemma queryServer_ignores_Servers (servers : list string) (fuel : nat) (domain : string)
    (qtype : Z) (server : string) :
  queryServer L (WithServers servers cfg) net fuel domain qtype server
  = queryServer L cfg net fuel domain qtype server.
Proof.
  assert (HU : forall msg, queryUDPTCP L (WithServers servers cfg) net fuel msg server
                           = queryUDPTCP L cfg net fuel msg server).
  { intros msg. apply queryUDPTCP_loop_ext; reflexivity. }
  assert (HT : forall msg, queryDoT L (WithServers servers cfg) net fuel msg server
                           = queryDoT L cfg net fuel msg server).
  { intros msg. apply queryDoT_loop_ext; reflexivity. }
  assert (HH : forall msg, queryDoH L (WithServers servers cfg) net fuel msg server
                           = queryDoH L cfg net fuel msg server).
  { intros msg. unfold queryDoH.
    destruct (Pack L msg) as [msgBytes|e]; [|reflexivity].
    destruct (url_Parse L (dohURL server)) as [u|e]; [|reflexivity].
    change (HTTPClient_ (WithServers servers cfg)) with (HTTPClient_ cfg).
    change (ProxyType_ (WithServers servers cfg)) with (ProxyType_ cfg).
    change (TLSConfig_ (WithServers servers cfg)) with (TLSConfig_ cfg).
    change (Timeout (WithServers servers cfg)) with (Timeout cfg).
    change (getProxyURL L (WithServers servers cfg)) with (getProxyURL L cfg).
    destruct (HTTPClient_ cfg); [apply queryDoH_loop_ext; reflexivity|].
    destruct (negb _); [|apply queryDoH_loop_ext; reflexivity].
    destruct (getProxyURL L cfg) as [p [e|]]; [reflexivity|].
    apply queryDoH_loop_ext; reflexivity. }
  unfold queryServer, dispatch.
  change (Protocol_ (WithServers servers cfg)) with (Protocol_ cfg).
  rewrite HU, HT, HH. reflexivity.
Qed.

Lemma exchangeUDPTCP_aimsAt (i : Z) (msg : Msg) (server : string) :
  aimsAt server (trace (exchangeUDPTCP L cfg net i msg server)).
Proof.
  unfold exchangeUDPTCP. destruct (negb _).
  - unfold exchangeWithProxy.
    destruct (createDialer_proper L cfg) as [[d ->]|[e ->]].
    + case_net; split; repeat constructor.
    + split; constructor.
  - split; repeat constructor.
Qed.

Lemma queryUDPTCP_aimsAt (fuel : nat) (msg : Msg) (server : string) :
  aimsAt server (trace (queryUDPTCP L cfg net fuel msg server)).
Proof.
  unfold queryUDPTCP.
  apply (queryUDPTCP_loop_trace L cfg net msg server (aimsAt server)).
  - split; constructor.
  - intros d t Ht. apply aimsAt_timeline_event; [reflexivity|exact Ht].
  - intros d. split; constructor.
  - intros i t Ht. apply aimsAt_timeline_event; [reflexivity|].
    apply aimsAt_app; [apply exchangeUDPTCP_aimsAt|exact Ht].
Qed.

Lemma queryServer_trace (fuel : nat) (domain : string) (qtype : Z) (server : string)
    (query : M (GoRet Msg)) :
  dispatch L cfg net fuel (mkMsg true [mkQuestion (Fqdn L domain) qtype] []) server
  = Some query ->
  trace (queryServer L cfg net fuel domain qtype server) = trace query.
Proof.
  intros Hd. unfold queryServer. rewrite Hd.
  destruct query as [t [[[response|] [e|]]| |]];
    cbn [mbind M_bind mret M_ret panic trace fst]; rewrite ?app_nil_r; reflexivity.
Qed.

End OneServer.

(** X13.  [Query] has no failover.  Without a server it fails at once; otherwise
    it is the query of the first server, and the servers configured after
    it make no difference to the run: over UDP and TCP every connection, at
    every attempt, is to the first server, over DoT to the first server
    with its port, and the result, an error included, is the one of that
    server. *)
Theorem Query_asks_first_server_only (L : Lib) (cfg : Config) (net : Net) (fuel : nat)
    (domain : string) (qtype : Z) :
  (Servers cfg = [] ->
   Query L cfg net fuel domain qtype = ([], Done (None, Some "no DNS servers configured")))
  /\ (forall s rest,
        Servers cfg = s :: rest ->
        (forall others,
           Query L (WithServers (s :: others) cfg) net fuel domain qtype
           = Query L cfg net fuel domain qtype)
        /\ (Protocol_ cfg = UDP \/ Protocol_ cfg = TCP ->
            aimsAt s (trace (Query L cfg net fuel domain qtype)))
        /\ (Protocol_ cfg = DoT ->
            aimsAt (ensurePort s) (trace (Query L cfg net fuel domain qtype)))
        /\ forall res err,
             outcome (Query L cfg net fuel domain qtype) = Done (Some res, err) ->
             Server res = s /\ Error res = err).
Proof.
  split.
  - intros Hs. unfold Query. rewrite Hs. reflexivity.
  - intros s rest Hs.
    assert (HQ : Query L cfg net fuel domain qtype
                 = queryServer L cfg net fuel domain qtype s).
    { unfold Query. rewrite Hs. reflexivity. }
    split; [|split; [|split]].
    + intros others. rewrite HQ. unfold Query at 1. cbn [Servers WithServers].
      apply queryServer_ignores_Servers.
    + intros HP. rewrite HQ.
      rewrite (queryServer_trace L cfg net fuel domain qtype s
                 (queryUDPTCP L cfg net fuel
                    (mkMsg true [mkQuestion (Fqdn L domain) qtype] []) s)).
      * apply queryUDPTCP_aimsAt.
      * unfold dispatch. destruct HP as [-> | ->]; reflexivity.
    + intros HP. rewrite HQ.
      rewrite (queryServer_trace L cfg net fuel domain qtype s
                 (queryDoT L cfg net fuel
                    (mkMsg true [mkQuestion (Fqdn L domain) qtype] []) s)).
      * rewrite queryDoT_unfold. apply queryDoT_loop_aimsAt.
      * unfold dispatch. rewrite HP. reflexivity.
    + intros res err Ho. rewrite HQ in Ho.
      destruct (queryServer_shapes L cfg fuel domain qtype net s (Some res) err Ho)
        as [(records & [= ->] & ->)|[(e & [= ->] & ->)|(e & Hn & _)]];
        [split; reflexivity|split; reflexivity|discriminate Hn].
Qed.

Lemma Query_asks_first_server_only_witness :
  QueryA Sample.lib (WithServers ["8.8.8.8:53"; "1.1.1.1:53"] defaultConfig)
         Sample.down 5 "example.com"
  = QueryA Sample.lib (WithServers ["8.8.8.8:53"] defaultConfig) Sample.down 5
           "example.com"
  /\ directTargets
       (trace (QueryA Sample.lib (WithServers ["8.8.8.8:53"; "1.1.1.1:53"] defaultConfig)
                 Sample.down 5 "example.com"))
     = replicate 4 "8.8.8.8:53".
Proof.
  split; [|reflexivity]. unfold QueryA.
  destruct (Query_asks_first_server_only Sample.lib
              (WithServers ["8.8.8.8:53"] defaultConfig) Sample.down 5 "example.com" TypeA)
    as (_ & H).
  destruct (H "8.8.8.8:53" [] eq_refl) as (Hsame & _).
  exact (Hsame ["1.1.1.1:53"]).
Defined.

(** ** The order and the completeness of [AllIPs] *)

Section FirstSeen.

Context (L : Lib) (qtype : Z).

Hypothesis address : addressQuery qtype.

Local Abbreviation see := (fun (acc : list string) (v : string) =>
                             if bool_decide (v ∈ acc) then acc else acc ++ [v]).

Local Abbreviation parses := (fun v : string => is_Some (ParseIP L v)).

(** [ipSet] holds what [allIPs] holds. *)
Local Abbreviation agree := (fun (allIPs : list string) (ipSet : gmap string bool) =>
  forall v, default false (ipSet !! v) = bool_decide (v ∈ allIPs)).

Lemma addIP_sees (allIPs : list string) (ipSet : gmap string bool) (rec : DNSRecord) :
  agree allIPs ipSet ->
  fst (addIP L qtype (allIPs, ipSet) rec)
  = fold_left see (filter parses [Value rec]) allIPs
  /\ agree (fst (addIP L qtype (allIPs, ipSet) rec)) (snd (addIP L qtype (allIPs, ipSet) rec)).
Proof.
  intros Hag. unfold addIP.
  replace ((qtype =? TypeA) || (qtype =? TypeAAAA)) with true
    by (destruct address as [-> | ->]; reflexivity).
  cbn [andb]. destruct (decide (is_Some (ParseIP L (Value rec)))) as [Hp|Hp].
  - rewrite (bool_decide_eq_true_2 _ Hp), filter_cons_True by exact Hp.
    rewrite filter_nil. cbn [fold_left]. rewrite (Hag (Value rec)).
    destruct (bool_decide (Value rec ∈ allIPs)) eqn:Hin; cbn [negb fst snd];
      [split; [reflexivity|exact Hag]|].
    split; [reflexivity|]. intros v.
    destruct (decide (v = Value rec)) as [->|Hne].
    + rewrite lookup_insert_eq. cbn [default]. symmetry. apply bool_decide_eq_true_2.
      apply elem_of_app. right. apply list_elem_of_singleton. reflexivity.
    + rewrite lookup_insert_ne by congruence. rewrite Hag.
      apply bool_decide_ext. rewrite elem_of_app, list_elem_of_singleton. tauto.
  - rewrite (bool_decide_eq_false_2 _ Hp), filter_cons_False by exact Hp.
    rewrite filter_nil. split; [reflexivity|exact Hag].
Qed.

Lemma fold_addIP_sees (recs : list DNSRecord) :
  forall (allIPs : list string) (ipSet : gmap string bool),
    agree allIPs ipSet ->
    fst (fold_left (addIP L qtype) recs (allIPs, ipSet))
    = fold_left see (filter parses (Value <$> recs)) allIPs
    /\ agree (fst (fold_left (addIP L qtype) recs (allIPs, ipSet)))
             (snd (fold_left (addIP L qtype) recs (allIPs, ipSet))).
Proof.
  induction recs as [|rec recs IH]; intros allIPs ipSet Hag.
  - split; [reflexivity|exact Hag].
  - destruct (addIP_sees allIPs ipSet rec Hag) as [Hfst Hag'].
    cbn [fold_left]. destruct (addIP L qtype (allIPs, ipSet) rec) as [allIPs' ipSet'].
    cbn [fst snd] in *. destruct (IH allIPs' ipSet' Hag') as [H1 H2].
    split; [|exact H2]. rewrite H1, Hfst.
    change (Value <$> rec :: recs) with ([Value rec] ++ (Value <$> recs)).
    rewrite filter_app, fold_left_app. reflexivity.
Qed.

Lemma candidates_snoc (rs : list QueryResult) (res : QueryResult) :
  candidates L (rs ++ [res])
  = candidates L rs
    ++ match Error res with
       | None => filter parses (Value <$> Records res)
       | Some _ => []
       end.
Proof.
  unfold candidates. rewrite bind_app. cbn [mbind list_bind]. rewrite app_nil_r.
  reflexivity.
Qed.

Lemma absorb_sees (res : QueryResult) (st : MultiQueryResult * gmap string bool) :
  AllIPs (fst st) = firstSeen (candidates L (Results (fst st))) ->
  agree (AllIPs (fst st)) (snd st) ->
  AllIPs (fst (absorb L qtype res st))
  = firstSeen (candidates L (Results (fst (absorb L qtype res st))))
  /\ agree (AllIPs (fst (absorb L qtype res st))) (snd (absorb L qtype res st)).
Proof.
  destruct st as [result ipSet]. cbn [fst snd]. intros Hall Hag. unfold absorb.
  destruct (Error res) eqn:He.
  - cbn [fst snd AllIPs Results]. rewrite candidates_snoc, He, app_nil_r.
    split; [exact Hall|exact Hag].
  - destruct (fold_addIP_sees (Records res) (AllIPs result) ipSet Hag) as [H1 H2].
    destruct (fold_left (addIP L qtype) (Records res) (AllIPs result, ipSet))
      as [allIPs' ipSet'].
    cbn [fst snd AllIPs Results] in *. rewrite candidates_snoc, He.
    split; [|exact H2]. unfold firstSeen. rewrite fold_left_app.
    fold (firstSeen (candidates L (Results result))). rewrite <- Hall. exact H1.
Qed.

Lemma absorbAll_sees (l : list QueryResult) :
  forall st : MultiQueryResult * gmap string bool,
    AllIPs (fst st) = firstSeen (candidates L (Results (fst st))) ->
    agree (AllIPs (fst st)) (snd st) ->
    AllIPs (fst (absorbAll L qtype l st))
    = firstSeen (candidates L (Results (fst (absorbAll L qtype l st)))).
Proof.
  induction l as [|res l IH]; intros st Hall Hag; [exact Hall|].
  cbn [absorbAll fold_left]. fold (absorbAll L qtype l (absorb L qtype res st)).
  destruct (absorb_sees res st Hall Hag) as [H1 H2]. apply IH; assumption.
Qed.

End FirstSeen.

Lemma elem_of_firstSeen (l : list string) (v : string) : v ∈ firstSeen l <-> v ∈ l.
Proof.
  unfold firstSeen.
  assert (H : forall acc,
             v ∈ fold_left (fun acc v => if bool_decide (v ∈ acc) then acc else acc ++ [v])
                   l acc <-> v ∈ acc \/ v ∈ l).
  { induction l as [|x l IH]; intros acc; cbn [fold_left].
    - rewrite elem_of_nil. tauto.
    - rewrite IH, elem_of_cons. destruct (bool_decide (x ∈ acc)) eqn:Hx.
      + apply bool_decide_eq_true_1 in Hx. split; [tauto|].
        intros [Hv|[->|Hv]]; tauto.
      + rewrite elem_of_app, list_elem_of_singleton. tauto. }
  rewrite H, elem_of_nil. tauto.
Qed.

(** X14.  [AllIPs] lists the addresses in the order they were first seen.  For an
    A or AAAA query that returned, [AllIPs] is the list of the record values
    that parse as IP addresses, read through the results without error in
    the order of [Results] and through the records of each in order, every
    value kept where it first occurs; so no such value is missing from
    it. *)
Theorem AllIPs_in_first_seen_order (L : Lib) (cfg : Config) (nets : nat -> Net)
    (sched : nat -> nat) (fuel : nat) (domain : string) (qtype : Z)
    (r : MultiQueryResult) :
  outcome (MultiQuery L cfg nets sched fuel domain qtype) = Done (Some r, None) ->
  qtype = TypeA \/ qtype = TypeAAAA ->
  AllIPs r = firstSeen (candidates L (Results r))
  /\ (forall res rec,
        res ∈ Results r -> Error res = None -> rec ∈ Records res ->
        is_Some (ParseIP L (Value rec)) ->
        Value rec ∈ AllIPs r).
Proof.
  intros Hr Hq.
  assert (Hall : AllIPs r = firstSeen (candidates L (Results r))).
  { destruct (MultiQuery_inv L cfg nets sched fuel domain qtype r Hr) as (_ & _ & ->).
    apply (absorbAll_sees L qtype Hq); [reflexivity|].
    intros v. cbn [fst snd AllIPs]. rewrite lookup_empty. cbn [default].
    symmetry. apply bool_decide_eq_false_2. apply not_elem_of_nil. }
  split; [exact Hall|].
  intros res rec Hres He Hrec Hp. rewrite Hall, elem_of_firstSeen.
  unfold candidates. apply list_elem_of_bind. exists res. split; [|exact Hres].
  rewrite He. apply list_elem_of_filter. split; [exact Hp|].
  apply list_elem_of_fmap. exists rec. split; [reflexivity|exact Hrec].
Qed.

Lemma AllIPs_in_first_seen_order_witness :
  exists r,
    outcome (MultiQueryA Sample.lib (WithServers ["a:53"; "b:53"; "c:53"] defaultConfig)
               (fun k => if (k =? 1)%nat then Sample.up "93.184.216.35"
                         else Sample.up "93.184.216.34")
               (fun _ => 1%nat) 5 "example.com")
    = Done (Some r, None)
    /\ Server <$> Results r = ["b:53"; "c:53"; "a:53"]
    /\ AllIPs r = firstSeen (candidates Sample.lib (Results r))
    /\ AllIPs r = ["93.184.216.35"; "93.184.216.34"].
Proof.
  eexists. split; [vm_compute; reflexivity|].
  split; [reflexivity|]. split; [|reflexivity].
  refine (proj1 (AllIPs_in_first_seen_order Sample.lib
                   (WithServers ["a:53"; "b:53"; "c:53"] defaultConfig)
                   (fun k => if (k =? 1)%nat then Sample.up "93.184.216.35"
                             else Sample.up "93.184.216.34")
                   (fun _ => 1%nat) 5 "example.com" TypeA _ _ _)).
  - vm_compute. reflexivity.
  - left. reflexivity.
Defined.

(** ** DoT never sends in the clear *)

Lemma exchangeDoT_tlsBeforeData (L : Lib) (cfg : Config) (net : Net) (i : Z) (msg : Msg)
    (server : string) (tlsConfig : TLSConfig) (t : list Event) :
  tlsBeforeData net tlsConfig i Closed
    (trace (exchangeDoT L cfg net i msg server tlsConfig) ++ t)
  = tlsBeforeData net tlsConfig i Closed t.
Proof.
  unfold exchangeDoT. destruct (negb _); [|reflexivity].
  unfold exchangeDoTWithProxy.
  destruct (createDialer_proper L cfg) as [[d ->]|[e ->]]; [|reflexivity].
  cbn [mbind mret M_bind M_ret emit panic trace outcome fst snd app].
  destruct (Dial net i d server) eqn:HD;
    [|destruct (Handshake net i tlsConfig) eqn:HH;
      [|destruct (WriteMsg net i msg); [|destruct (ReadMsg net i)]]];
    cbn [mbind mret M_bind M_ret emit panic trace outcome fst snd app tlsBeforeData];
    rewrite HD; try reflexivity; rewrite HH; reflexivity.
Qed.

(** X15.  [queryDoT] sends no DNS message in the clear.  In every run, direct or
    through the proxy, complete or not: a direct exchange is made over
    "tcp-tls", and on a connection the proxy dialer opened the message is
    written, and the response read, only after the TLS handshake with the
    configured TLS settings succeeded; a failed handshake ends the attempt
    with nothing written. *)
Theorem queryDoT_never_in_the_clear (L : Lib) (cfg : Config) (net : Net) (fuel : nat)
    (msg : Msg) (server : string) :
  tlsBeforeData net (dotTLS cfg) 0 Closed (trace (queryDoT L cfg net fuel msg server))
  = true.
Proof.
  rewrite queryDoT_unfold.
  apply (queryDoT_loop_trace L cfg net msg (ensurePort server) (dotTLS cfg)
           (fun t => forall j, tlsBeforeData net (dotTLS cfg) j Closed t = true));
    [reflexivity|intros d t Ht j; exact (Ht j)|reflexivity|].
  intros i t Ht j. cbn [tlsBeforeData].
  rewrite exchangeDoT_tlsBeforeData. apply Ht.
Qed.

(** The predicate tells the difference: the same query over TCP through the
    same proxy writes on the connection as it was dialled. *)
Example tlsBeforeData_tells_plain_TCP :
  tlsBeforeData (Sample.up "93.184.216.34") TLSConfig_zero 0 Closed
    (trace (queryUDPTCP Sample.lib
              (WithProtocol TCP (WithSOCKS5Proxy "127.0.0.1:1080" None defaultConfig))
              (Sample.up "93.184.216.34") 5
              (mkMsg true [mkQuestion "example.com." TypeA] []) "8.8.8.8:53")) = false
  /\ tlsBeforeData (Sample.up "93.184.216.34") TLSConfig_zero 0 Closed
       (trace (queryDoT Sample.lib
                 (WithProtocol DoT (WithSOCKS5Proxy "127.0.0.1:1080" None defaultConfig))
                 (Sample.up "93.184.216.34") 5
                 (mkMsg true [mkQuestion "example.com." TypeA] []) "8.8.8.8")) = true.
Proof. split; reflexivity. Qed.
